(** * Lead-intake orchestrator: conversation state machine, scorer and
    notification gate

    Shallow embedding of [app/services/orchestration_service.py]
    (class [IntelligentHybridOrchestrator]), of the sending of a text in
    [app/services/evolution_service.py] and of the webhook of
    [app/routes/whatsapp.py], together with the properties their
    specification states about them.

    Conventions of the embedding:
    - a Python [str] is a list of Unicode code points ([str]); literals are
      written as UTF-8 text and decoded by [py];
    - a session [dict] is the record [Session]; keys that some constructor
      of a session leaves out are [option] fields;
    - [lead_data] is a finite map from field name to text;
    - the qualification score is an IEEE-754 binary64 number, as a Python
      [float] is;
    - the session store, the lead store, the notification dispatcher and
      the HTTP API behind the messaging client are external: each call
      consumes one entry of a script of outcomes, so that a collaborator
      may succeed, fail silently or raise at every call; the messaging
      client catches what its request raises;
    - [try ... except Exception] is [try_catch] in an exception/state
      monad whose state survives a raise, as mutations of a Python dict do. *)

From Stdlib Require Import ZArith NArith List String Ascii Bool Lia QArith.
From Stdlib Require Import Floats.
From stdpp Require Import base option gmap strings list fin_maps.

Set Warnings "-inexact-float".
Local Open Scope Z_scope.
Local Open Scope list_scope.

(** ** Python strings *)

Module PyStr.

(** A Python string: the sequence of its code points. *)
Abbreviation str := (list N).

(** UTF-8 decoding of a source literal into code points. A lead byte
    announces how many continuation bytes follow; each of those brings six
    more bits. *)
Fixpoint utf8_go (pending : nat) (acc : N) (s : string) : str :=
  match s with
  | EmptyString => []
  | String a rest =>
      let b := N_of_ascii a in
      match pending with
      | O =>
          if (b <? 128)%N then b :: utf8_go 0 0%N rest
          else if (b <? 224)%N then utf8_go 1 (N.land b 31) rest
          else if (b <? 240)%N then utf8_go 2 (N.land b 15) rest
          else utf8_go 3 (N.land b 7) rest
      | S O => (acc * 64 + N.land b 63)%N :: utf8_go 0 0%N rest
      | S k => utf8_go k (acc * 64 + N.land b 63)%N rest
      end
  end.

Definition py (s : string) : str := utf8_go 0 0%N s.

(** [str.isspace] for one code point: the Unicode whitespace characters
    that [str.strip()] and [str.split()] treat as separators. *)
Definition isspace (c : N) : bool :=
  ((9 <=? c) && (c <=? 13) || (28 <=? c) && (c <=? 32)
   || (c =? 133) || (c =? 160) || (c =? 5760)
   || (8192 <=? c) && (c <=? 8202)
   || (c =? 8232) || (c =? 8233) || (c =? 8239) || (c =? 8287)
   || (c =? 12288))%N.

(** The code points for which [str.isdigit] holds (Unicode 14): the
    decimal digits of every script and the other characters of numeric
    type digit, as inclusive ranges. *)
Definition digit_ranges : list (N * N) :=
  [
   (48, 57); (178, 179); (185, 185); (1632, 1641); (1776, 1785);
   (1984, 1993); (2406, 2415); (2534, 2543); (2662, 2671); (2790, 2799);
   (2918, 2927); (3046, 3055); (3174, 3183); (3302, 3311); (3430, 3439);
   (3558, 3567); (3664, 3673); (3792, 3801); (3872, 3881); (4160, 4169);
   (4240, 4249); (4969, 4977); (6112, 6121); (6160, 6169); (6470, 6479);
   (6608, 6618); (6784, 6793); (6800, 6809); (6992, 7001); (7088, 7097);
   (7232, 7241); (7248, 7257); (8304, 8304); (8308, 8313); (8320, 8329);
   (9312, 9320); (9332, 9340); (9352, 9360); (9450, 9450); (9461, 9469);
   (9471, 9471); (10102, 10110); (10112, 10120); (10122, 10130);
   (42528, 42537); (43216, 43225); (43264, 43273); (43472, 43481);
   (43504, 43513); (43600, 43609); (44016, 44025); (65296, 65305);
   (66720, 66729); (68160, 68163); (68912, 68921); (69216, 69224);
   (69714, 69722); (69734, 69743); (69872, 69881); (69942, 69951);
   (70096, 70105); (70384, 70393); (70736, 70745); (70864, 70873);
   (71248, 71257); (71360, 71369); (71472, 71481); (71904, 71913);
   (72016, 72025); (72784, 72793); (73040, 73049); (73120, 73129);
   (92768, 92777); (92864, 92873); (93008, 93017); (120782, 120831);
   (123200, 123209); (123632, 123641); (125264, 125273); (127232, 127242);
   (130032, 130041)
  ]%N.

(** [str.isdigit] for one code point. *)
Definition isdigit (c : N) : bool :=
  existsb (fun r => (r.1 <=? c) && (c <=? r.2))%N digit_ranges.

(** [str.lower] for one code point. It is exact on the Basic Latin and
    Latin-1 blocks (A-Z, and U+00C0..U+00DE but the multiplication sign)
    and on the five code points outside them whose lowercase reaches these
    blocks: U+0130, U+0178, U+1E9E, the Kelvin sign and the Angstrom sign.
    Any other code point is left as it is; its lowercase, like itself,
    lies outside the two blocks, so no test for a keyword of these blocks
    can tell the difference. *)
Definition lower_char (c : N) : str :=
  if ((65 <=? c) && (c <=? 90))%N then [c + 32]%N
  else if ((192 <=? c) && (c <=? 222) && negb (c =? 215))%N then [c + 32]%N
  else if (c =? 304)%N then [105; 775]%N
  else if (c =? 376)%N then [255]%N
  else if (c =? 7838)%N then [223]%N
  else if (c =? 8490)%N then [107]%N
  else if (c =? 8491)%N then [229]%N
  else [c].

Definition lower (s : str) : str := flat_map lower_char s.

(** [len(s)] as a Python integer. *)
Definition len (s : str) : Z := Z.of_nat (length s).

Fixpoint lstrip (s : str) : str :=
  match s with
  | [] => []
  | c :: t => if isspace c then lstrip t else s
  end.

Definition rstrip (s : str) : str := rev (lstrip (rev s)).

(** [s.strip()] *)
Definition strip (s : str) : str := rstrip (lstrip s).

(** [s.split()]: the maximal runs of non-whitespace code points. [cur]
    holds the run being read, last code point first. *)
Fixpoint split_go (cur : str) (s : str) : list str :=
  match s with
  | [] => match cur with [] => [] | _ => [rev cur] end
  | c :: t =>
      if isspace c
      then match cur with
           | [] => split_go [] t
           | _ => rev cur :: split_go [] t
           end
      else split_go (c :: cur) t
  end.

Definition split (s : str) : list str := split_go [] s.

Definition str_eqb (a b : str) : bool := bool_decide (a = b).

(** [s.startswith(p)] *)
Fixpoint startswith (p s : str) : bool :=
  match p, s with
  | [], _ => true
  | _ :: _, [] => false
  | a :: p', b :: s' => (a =? b)%N && startswith p' s'
  end.

(** [sub in s] *)
Fixpoint contains (sub s : str) : bool :=
  startswith sub s ||
  match s with
  | [] => false
  | _ :: t => contains sub t
  end.

(** [any(k in s for k in keywords)] *)
Definition any_in (keywords : list str) (s : str) : bool :=
  existsb (fun k => contains k s) keywords.

(** [''.join(filter(str.isdigit, s))] *)
Definition digits_of (s : str) : str := List.filter isdigit s.

(** [s.replace(old, new)] for a non-empty [old]: occurrences are replaced
    from left to right without overlap; [skip] counts the code points of
    an occurrence still to be passed over. *)
Fixpoint replace_go (old new : str) (skip : nat) (s : str) : str :=
  match s with
  | [] => []
  | c :: t =>
      match skip with
      | S k => replace_go old new k t
      | O =>
          if startswith old s
          then new ++ replace_go old new (Nat.pred (length old)) t
          else c :: replace_go old new 0 t
      end
  end.

Definition replace (old new s : str) : str := replace_go old new 0 s.

(** Python truthiness of a string: non-empty. *)
Definition truthy (s : str) : bool :=
  match s with [] => false | _ => true end.

End PyStr.
Import PyStr.

(** ** Data model *)

(** The channel. [process_message] receives it as a string; the code
    distinguishes ["web"], ["whatsapp"] and anything else. *)
Inductive Platform := web | whatsapp | other_platform.

(** The values [current_step] takes. *)
Inductive Step :=
  | greeting | step1_name | step3_area | step4_details
  | phone_collection | step5_confirmation | completed | ended.

#[global] Instance Platform_eq_dec : EqDecision Platform.
Proof. solve_decision. Defined.
#[global] Instance Step_eq_dec : EqDecision Step.
Proof. solve_decision. Defined.

(** Timestamps, as seconds on the UTC time line. *)
Definition time := Z.

(** A reading of the clock: the instant, and the hour of the day in
    America/Sao_Paulo that the greeting depends on. *)
Record Clock := { now : time; hour : Z }.

(** [lead_data]: field name to collected text. *)
Abbreviation LeadData := (gmap string str).

(** [lead_data.get(k, e)] for the empty string [e]. *)
Definition ld_get (ld : LeadData) (k : string) : str := default [] (ld !! k).

(** [lead_data.get(k, d)] *)
Definition ld_get_or (ld : LeadData) (k : string) (d : str) : str :=
  default d (ld !! k).

(** The session dictionary. Every session the orchestrator builds has the
    first thirteen keys. The others are written on some paths only: [None]
    stands for a key that is absent. [phone_number] may also hold Python's
    [None], which is [Some None]. *)
Record Session := mkSession {
  session_id : str;
  platform : Platform;
  created_at : time;
  current_step : Step;
  lead_data : LeadData;
  message_count : Z;
  flow_completed : bool;
  phone_submitted : bool;
  lawyers_notified : bool;
  last_updated : time;
  first_interaction : bool;
  whatsapp_authorized : bool;
  session_ended : bool;
  authorization_source : option str;
  phone_number : option (option str);
  reset_count : option Z;
  previous_session_ended_at : option (option time);
  ended_at : option time;
  lawyers_notified_at : option time;
  phone_formatted : option str;
  lead_qualified : option bool
}.

(** [session_data[key] = v], one function per key the code assigns. *)
Definition set_current_step (v : Step) (s : Session) : Session :=
  mkSession (s.(session_id)) (s.(platform)) (s.(created_at)) v (s.(lead_data))
    (s.(message_count)) (s.(flow_completed)) (s.(phone_submitted))
    (s.(lawyers_notified)) (s.(last_updated)) (s.(first_interaction))
    (s.(whatsapp_authorized)) (s.(session_ended)) (s.(authorization_source))
    (s.(phone_number)) (s.(reset_count)) (s.(previous_session_ended_at))
    (s.(ended_at)) (s.(lawyers_notified_at)) (s.(phone_formatted))
    (s.(lead_qualified)).

Definition set_lead_data (v : LeadData) (s : Session) : Session :=
  mkSession (s.(session_id)) (s.(platform)) (s.(created_at))
    (s.(current_step)) v (s.(message_count)) (s.(flow_completed))
    (s.(phone_submitted)) (s.(lawyers_notified)) (s.(last_updated))
    (s.(first_interaction)) (s.(whatsapp_authorized)) (s.(session_ended))
    (s.(authorization_source)) (s.(phone_number)) (s.(reset_count))
    (s.(previous_session_ended_at)) (s.(ended_at)) (s.(lawyers_notified_at))
    (s.(phone_formatted)) (s.(lead_qualified)).

Definition set_message_count (v : Z) (s : Session) : Session :=
  mkSession (s.(session_id)) (s.(platform)) (s.(created_at))
    (s.(current_step)) (s.(lead_data)) v (s.(flow_completed))
    (s.(phone_submitted)) (s.(lawyers_notified)) (s.(last_updated))
    (s.(first_interaction)) (s.(whatsapp_authorized)) (s.(session_ended))
    (s.(authorization_source)) (s.(phone_number)) (s.(reset_count))
    (s.(previous_session_ended_at)) (s.(ended_at)) (s.(lawyers_notified_at))
    (s.(phone_formatted)) (s.(lead_qualified)).

Definition set_flow_completed (v : bool) (s : Session) : Session :=
  mkSession (s.(session_id)) (s.(platform)) (s.(created_at))
    (s.(current_step)) (s.(lead_data)) (s.(message_count)) v
    (s.(phone_submitted)) (s.(lawyers_notified)) (s.(last_updated))
    (s.(first_interaction)) (s.(whatsapp_authorized)) (s.(session_ended))
    (s.(authorization_source)) (s.(phone_number)) (s.(reset_count))
    (s.(previous_session_ended_at)) (s.(ended_at)) (s.(lawyers_notified_at))
    (s.(phone_formatted)) (s.(lead_qualified)).

Definition set_phone_submitted (v : bool) (s : Session) : Session :=
  mkSession (s.(session_id)) (s.(platform)) (s.(created_at))
    (s.(current_step)) (s.(lead_data)) (s.(message_count)) (s.(flow_completed))
    v (s.(lawyers_notified)) (s.(last_updated)) (s.(first_interaction))
    (s.(whatsapp_authorized)) (s.(session_ended)) (s.(authorization_source))
    (s.(phone_number)) (s.(reset_count)) (s.(previous_session_ended_at))
    (s.(ended_at)) (s.(lawyers_notified_at)) (s.(phone_formatted))
    (s.(lead_qualified)).

Definition set_lawyers_notified (v : bool) (s : Session) : Session :=
  mkSession (s.(session_id)) (s.(platform)) (s.(created_at))
    (s.(current_step)) (s.(lead_data)) (s.(message_count)) (s.(flow_completed))
    (s.(phone_submitted)) v (s.(last_updated)) (s.(first_interaction))
    (s.(whatsapp_authorized)) (s.(session_ended)) (s.(authorization_source))
    (s.(phone_number)) (s.(reset_count)) (s.(previous_session_ended_at))
    (s.(ended_at)) (s.(lawyers_notified_at)) (s.(phone_formatted))
    (s.(lead_qualified)).

Definition set_last_updated (v : time) (s : Session) : Session :=
  mkSession (s.(session_id)) (s.(platform)) (s.(created_at))
    (s.(current_step)) (s.(lead_data)) (s.(message_count)) (s.(flow_completed))
    (s.(phone_submitted)) (s.(lawyers_notified)) v (s.(first_interaction))
    (s.(whatsapp_authorized)) (s.(session_ended)) (s.(authorization_source))
    (s.(phone_number)) (s.(reset_count)) (s.(previous_session_ended_at))
    (s.(ended_at)) (s.(lawyers_notified_at)) (s.(phone_formatted))
    (s.(lead_qualified)).

Definition set_first_interaction (v : bool) (s : Session) : Session :=
  mkSession (s.(session_id)) (s.(platform)) (s.(created_at))
    (s.(current_step)) (s.(lead_data)) (s.(message_count)) (s.(flow_completed))
    (s.(phone_submitted)) (s.(lawyers_notified)) (s.(last_updated)) v
    (s.(whatsapp_authorized)) (s.(session_ended)) (s.(authorization_source))
    (s.(phone_number)) (s.(reset_count)) (s.(previous_session_ended_at))
    (s.(ended_at)) (s.(lawyers_notified_at)) (s.(phone_formatted))
    (s.(lead_qualified)).

Definition set_whatsapp_authorized (v : bool) (s : Session) : Session :=
  mkSession (s.(session_id)) (s.(platform)) (s.(created_at))
    (s.(current_step)) (s.(lead_data)) (s.(message_count)) (s.(flow_completed))
    (s.(phone_submitted)) (s.(lawyers_notified)) (s.(last_updated))
    (s.(first_interaction)) v (s.(session_ended)) (s.(authorization_source))
    (s.(phone_number)) (s.(reset_count)) (s.(previous_session_ended_at))
    (s.(ended_at)) (s.(lawyers_notified_at)) (s.(phone_formatted))
    (s.(lead_qualified)).

Definition set_session_ended (v : bool) (s : Session) : Session :=
  mkSession (s.(session_id)) (s.(platform)) (s.(created_at))
    (s.(current_step)) (s.(lead_data)) (s.(message_count)) (s.(flow_completed))
    (s.(phone_submitted)) (s.(lawyers_notified)) (s.(last_updated))
    (s.(first_interaction)) (s.(whatsapp_authorized)) v
    (s.(authorization_source)) (s.(phone_number)) (s.(reset_count))
    (s.(previous_session_ended_at)) (s.(ended_at)) (s.(lawyers_notified_at))
    (s.(phone_formatted)) (s.(lead_qualified)).

Definition set_authorization_source (v : option str) (s : Session) : Session :=
  mkSession (s.(session_id)) (s.(platform)) (s.(created_at))
    (s.(current_step)) (s.(lead_data)) (s.(message_count)) (s.(flow_completed))
    (s.(phone_submitted)) (s.(lawyers_notified)) (s.(last_updated))
    (s.(first_interaction)) (s.(whatsapp_authorized)) (s.(session_ended)) v
    (s.(phone_number)) (s.(reset_count)) (s.(previous_session_ended_at))
    (s.(ended_at)) (s.(lawyers_notified_at)) (s.(phone_formatted))
    (s.(lead_qualified)).

Definition set_phone_number (v : option (option str)) (s : Session) : Session :=
  mkSession (s.(session_id)) (s.(platform)) (s.(created_at))
    (s.(current_step)) (s.(lead_data)) (s.(message_count)) (s.(flow_completed))
    (s.(phone_submitted)) (s.(lawyers_notified)) (s.(last_updated))
    (s.(first_interaction)) (s.(whatsapp_authorized)) (s.(session_ended))
    (s.(authorization_source)) v (s.(reset_count))
    (s.(previous_session_ended_at)) (s.(ended_at)) (s.(lawyers_notified_at))
    (s.(phone_formatted)) (s.(lead_qualified)).

Definition set_ended_at (v : option time) (s : Session) : Session :=
  mkSession (s.(session_id)) (s.(platform)) (s.(created_at))
    (s.(current_step)) (s.(lead_data)) (s.(message_count)) (s.(flow_completed))
    (s.(phone_submitted)) (s.(lawyers_notified)) (s.(last_updated))
    (s.(first_interaction)) (s.(whatsapp_authorized)) (s.(session_ended))
    (s.(authorization_source)) (s.(phone_number)) (s.(reset_count))
    (s.(previous_session_ended_at)) v (s.(lawyers_notified_at))
    (s.(phone_formatted)) (s.(lead_qualified)).

Definition set_lawyers_notified_at (v : option time) (s : Session) : Session :=
  mkSession (s.(session_id)) (s.(platform)) (s.(created_at))
    (s.(current_step)) (s.(lead_data)) (s.(message_count)) (s.(flow_completed))
    (s.(phone_submitted)) (s.(lawyers_notified)) (s.(last_updated))
    (s.(first_interaction)) (s.(whatsapp_authorized)) (s.(session_ended))
    (s.(authorization_source)) (s.(phone_number)) (s.(reset_count))
    (s.(previous_session_ended_at)) (s.(ended_at)) v (s.(phone_formatted))
    (s.(lead_qualified)).

Definition set_phone_formatted (v : option str) (s : Session) : Session :=
  mkSession (s.(session_id)) (s.(platform)) (s.(created_at))
    (s.(current_step)) (s.(lead_data)) (s.(message_count)) (s.(flow_completed))
    (s.(phone_submitted)) (s.(lawyers_notified)) (s.(last_updated))
    (s.(first_interaction)) (s.(whatsapp_authorized)) (s.(session_ended))
    (s.(authorization_source)) (s.(phone_number)) (s.(reset_count))
    (s.(previous_session_ended_at)) (s.(ended_at)) (s.(lawyers_notified_at)) v
    (s.(lead_qualified)).

Definition set_lead_qualified (v : option bool) (s : Session) : Session :=
  mkSession (s.(session_id)) (s.(platform)) (s.(created_at))
    (s.(current_step)) (s.(lead_data)) (s.(message_count)) (s.(flow_completed))
    (s.(phone_submitted)) (s.(lawyers_notified)) (s.(last_updated))
    (s.(first_interaction)) (s.(whatsapp_authorized)) (s.(session_ended))
    (s.(authorization_source)) (s.(phone_number)) (s.(reset_count))
    (s.(previous_session_ended_at)) (s.(ended_at)) (s.(lawyers_notified_at))
    (s.(phone_formatted)) v.


(** Truthiness of an [Optional[str]]. *)
Definition opt_truthy (o : option str) : bool :=
  match o with Some s => truthy s | None => false end.

(** ** Qualification scorer *)

Definition high_value_keywords : list str :=
  [py "penal"; py "saude"; py "saúde"; py "criminal"; py "plano"].

(** [min(score, 1.0)]: Python returns the first argument unless the second
    is strictly smaller. *)
Definition py_min (a b : float) : float :=
  if PrimFloat.ltb b a then b else a.

(** The additive score, capped at 1.0. The [except] branch of the source
    (score 0.0) is taken only when a field is not a string, which the type
    of [lead_data] rules out. *)
Definition _calculate_qualification_score (ld : LeadData) (p : Platform)
  : float :=
  let score := 0%float in
  let name := strip (ld_get ld "identification") in
  let score := if 3 <=? len name then (score + 0.15)%float else score in
  let score :=
    if 2 <=? Z.of_nat (length (split name)) then (score + 0.10)%float
    else score in
  let phone := strip (ld_get ld "phone") in
  let score :=
    if truthy phone && (10 <=? len phone) then (score + 0.25)%float
    else score in
  let area := strip (ld_get ld "area_qualification") in
  let score :=
    if truthy area then
      let score := (score + 0.15)%float in
      if any_in high_value_keywords (lower area) then (score + 0.10)%float
      else score
    else score in
  let details := strip (ld_get ld "case_details") in
  let score :=
    if truthy details then
      let score := (score + 0.08)%float in
      let score := if 20 <=? len details then (score + 0.04)%float else score in
      if 50 <=? len details then (score + 0.03)%float else score
    else score in
  let confirmation := strip (ld_get ld "confirmation") in
  let score := if truthy confirmation then (score + 0.10)%float else score in
  py_min score 1.0%float.

(** The point values of the scorer, as exact decimals. *)
Definition point_values : list Q :=
  [15 # 100; 10 # 100; 25 # 100; 15 # 100; 10 # 100;
   8 # 100; 4 # 100; 3 # 100; 10 # 100]%Q.

(** ** Notification gate *)

Inductive Reason :=
  | already_notified | web_flow_completed | whatsapp_qualified
  | not_qualified_yet | evaluation_error.

Inductive Criterion :=
  | nome_completo | telefone | area_juridica | detalhes_caso
  | confirmacao | fluxo_incompleto | engajamento_insuficiente.

(** The dictionary [should_notify_lawyers] returns (its [message] text,
    which only formats the score for the log, is left out). *)
Record GateResult := {
  should_notify : bool;
  reason : Reason;
  qualification_score : option float;
  missing_criteria : list Criterion
}.

Definition _get_missing_criteria (sd : Session) (p : Platform)
  : list Criterion :=
  let ld := lead_data sd in
  (if truthy (ld_get ld "identification") then [] else [nome_completo]) ++
  (if truthy (ld_get ld "phone") then [] else [telefone]) ++
  (if truthy (ld_get ld "area_qualification") then [] else [area_juridica]) ++
  match p with
  | web =>
      (if truthy (ld_get ld "case_details") then [] else [detalhes_caso]) ++
      (if truthy (ld_get ld "confirmation") then [] else [confirmacao]) ++
      (if flow_completed sd then [] else [fluxo_incompleto])
  | whatsapp =>
      if message_count sd <? 3 then [engajamento_insuficiente] else []
  | other_platform => []
  end.

(** [all(lead_data.get(f) for f in fields)] *)
Definition has_fields (ld : LeadData) (fields : list string) : bool :=
  forallb (fun f => truthy (ld_get ld f)) fields.

(** [x >= t] on floats. *)
Definition fge (x t : float) : bool := PrimFloat.leb t x.

Definition not_qualified (sd : Session) (p : Platform) : GateResult :=
  {| should_notify := false; reason := not_qualified_yet;
     qualification_score :=
       Some (_calculate_qualification_score (lead_data sd) p);
     missing_criteria := _get_missing_criteria sd p |}.

(** The gate. The check of [lawyers_notified] comes first. The reason
    [evaluation_error] belongs to the [except] branch of the source, which
    needs a field that is not a string. *)
Definition should_notify_lawyers (sd : Session) (p : Platform) : GateResult :=
  if lawyers_notified sd then
    {| should_notify := false; reason := already_notified;
       qualification_score := None; missing_criteria := [] |}
  else
    let ld := lead_data sd in
    match p with
    | web =>
        let has_required_fields :=
          has_fields ld ["identification"; "area_qualification";
                         "case_details"; "phone"; "confirmation"]%string in
        let criteria_met :=
          flow_completed sd && has_required_fields &&
          (3 <=? len (strip (ld_get ld "identification"))) &&
          (15 <=? len (strip (ld_get ld "case_details"))) &&
          (10 <=? len (strip (ld_get ld "phone"))) in
        let score := _calculate_qualification_score ld p in
        if criteria_met && fge score 0.8%float then
          {| should_notify := true; reason := web_flow_completed;
             qualification_score := Some score; missing_criteria := [] |}
        else not_qualified sd p
    | whatsapp =>
        let has_required_fields :=
          has_fields ld ["identification"; "area_qualification";
                         "phone"]%string in
        let engagement_criteria :=
          (3 <=? message_count sd) && has_required_fields &&
          (3 <=? len (strip (ld_get ld "identification"))) &&
          (3 <=? len (strip (ld_get ld "area_qualification"))) &&
          (10 <=? len (strip (ld_get ld "phone"))) in
        let advanced_step :=
          bool_decide (current_step sd = step5_confirmation) ||
          bool_decide (current_step sd = completed) in
        let score := _calculate_qualification_score ld p in
        if engagement_criteria && advanced_step && fge score 0.7%float then
          {| should_notify := true; reason := whatsapp_qualified;
             qualification_score := Some score; missing_criteria := [] |}
        else not_qualified sd p
    | other_platform => not_qualified sd p
    end.

(** ** Validator *)

Definition area_keywords : list str :=
  [py "penal"; py "saude"; py "saúde"; py "criminal"; py "liminar";
   py "medic"; py "plano"].

Definition horario_keywords : list str :=
  [py "manhã"; py "manha"; py "tarde"; py "noite"; py "horário";
   py "horario"; py "h"; py ":"; py "qualquer"; py "tanto faz";
   py "não me importo"].

Definition confirmation_words : list str :=
  [py "sim"; py "ok"; py "pode"; py "vamos"; py "claro"; py "aceito";
   py "concordo"].

(** The verdict on an answer at a step, with the error text of a
    rejection. *)
Definition _validate_answer (answer : str) (step : Step) (p : Platform)
  : bool * str :=
  if negb (truthy answer) || (len (strip answer) <? 2) then
    (false, py "Por favor, forneça uma resposta válida.")
  else
    match step with
    | step1_name =>
        if Z.of_nat (length (split answer)) <? 2 then
          (false,
           py "Por favor, informe seu nome completo (nome e sobrenome).")
        else (true, [])
    | step3_area =>
        if negb (any_in area_keywords (lower answer)) then
          (false,
           py "Por favor, escolha entre Direito Penal ou Direito da Saúde.")
        else (true, [])
    | step4_details =>
        if len (strip answer) <? 15 then
          (false,
           py "Por favor, me conte mais detalhes sobre sua situação para que possamos ajudá-lo melhor.")
        else (true, [])
    | phone_collection =>
        match p with
        | whatsapp =>
            if negb (any_in horario_keywords (lower answer)) &&
               negb (existsb isdigit answer) then
              (false,
               py "Por favor, me diga qual o melhor horário para contato (manhã, tarde ou noite).")
            else (true, [])
        | _ =>
            let phone_clean := digits_of answer in
            if (len phone_clean <? 10) || (13 <? len phone_clean) then
              (false,
               py "Por favor, digite um número de WhatsApp válido com DDD (ex: 11999999999).")
            else (true, [])
        end
    | step5_confirmation =>
        if negb (any_in confirmation_words (lower answer)) then
          (false,
           py "Por favor, confirme se podemos prosseguir (responda 'sim' ou 'ok').")
        else (true, [])
    | _ => (true, [])
    end.

(** ** Message texts

    The texts the orchestrator sends, cut at the places where the code
    interpolates a value. *)

Module Texts.

Definition greeting_body : str :=
  py "! 👋

Bem-vindo ao m.lima Advogados Associados. 💼

Para que eu possa direcionar você ao advogado especialista ideal e acelerar a solução do seu caso, preciso conhecer um pouco mais sobre sua situação.

Tudo bem? 😊".

Definition unauthorized_text : str :=
  py "Olá! 👋

Para iniciarmos seu atendimento personalizado e direcioná-lo ao advogado especialista ideal, precisamos que você acesse nossa página oficial:

🌐 https://mlima.adv.br

Lá você encontrará:
✅ Informações sobre nossas áreas de atuação
✅ Formulário de atendimento
✅ Botão direto para conversar conosco pelo WhatsApp

Aguardamos seu contato através da nossa página oficial! 😊

---
m.lima Advogados Associados
Atendimento autorizado apenas via site oficial".

Definition question_phone_whatsapp : str :=
  py "Obrigado pelos detalhes, {user_name}! 📝

Para organizarmos o melhor atendimento, qual o melhor horário para nossos advogados entrarem em contato com você?

🕐 Manhã (8h-12h)
🕐 Tarde (12h-18h)
🕐 Noite (18h-20h)

Ou fique à vontade para sugerir um horário específico!".

Definition question_phone_web : str :=
  py "Obrigado pelos detalhes, {user_name}! 📝

Estamos quase finalizando, preciso do seu WhatsApp com DDD (ex: 11999999999):".

Definition question_name : str :=
  py "Qual é o seu nome completo? 😊".

Definition question_area : str :=
  py "Prazer em conhecê-lo, {user_name}! 🤝

Em qual área do direito você precisa de nossa ajuda?

⚖️ Direito Penal (crimes, investigações, defesas)
🏥 Direito da Saúde (planos de saúde, ações médicas, liminares)

Qual dessas áreas tem a ver com sua situação?".

Definition question_details : str :=
  py "Entendi, {user_name}. 💼

Para nossos advogados já terem uma visão completa, me conte:

• Sua situação já está na justiça ou é algo que acabou de acontecer?
• Tem algum prazo urgente ou audiência marcada?
• Em que cidade isso está ocorrendo?

Fique à vontade para me contar os detalhes! 🤝".

Definition question_confirmation : str :=
  py "Perfeito, {user_name}! 🙏

Vou registrar todas essas informações para que o advogado responsável já entenda completamente seu caso e possa te ajudar com agilidade.

Em alguns minutos você estará falando diretamente com um especialista. Podemos prosseguir? 🚀".

Definition ended_prefix : str :=
  py "Esta conversa já foi finalizada, ".

Definition ended_suffix : str :=
  py ". Nossa equipe entrará em contato em breve!".

Definition completed_prefix : str :=
  py "Obrigado, ".

Definition completed_suffix : str :=
  py "! Nossa equipe já foi notificada e entrará em contato em breve. 😊".

Definition reprompt_prefix : str :=
  py "Para finalizar, ".

Definition reprompt_suffix : str :=
  py ", preciso do seu WhatsApp com DDD (ex: 11999999999):".

Definition notified_status : str :=
  py " ⚡ Nossa equipe foi imediatamente notificada!".

Definition final_prefix : str :=
  py "Perfeito, ".

Definition final_registered : str :=
  py "! ✅

Todas suas informações foram registradas com sucesso".

Definition final_contact : str :=
  py "

Um advogado experiente do m.lima entrará em contato com você em breve para dar prosseguimento ao seu caso com toda atenção necessária.

".

Definition final_whatsapp_sent : str :=
  py "📱 Mensagem de confirmação enviada no seu WhatsApp!".

Definition final_saved : str :=
  py "📝 Suas informações foram salvas com segurança.".

Definition final_closing : str :=
  py "

Você fez a escolha certa ao confiar no escritório m.lima para cuidar do seu caso!

Em alguns minutos, um especialista entrará em contato.".

Definition fallback_prefix : str :=
  py "Obrigado pelas informações, ".

Definition fallback_suffix : str :=
  py "! Nossa equipe entrará em contato em breve.".

Definition no_session_text : str :=
  py "⚠️ Para continuar, você precisa gerar sua ficha na nossa landing page.".

Definition default_response : str :=
  py "Como posso ajudá-lo hoje?".

Definition error_response : str :=
  py "Olá! Como posso ajudá-lo?".

Definition interpolate_default : str :=
  py "Como posso ajudá-lo?".

Definition expertise_penal : str :=
  py "Nossa equipe especializada em Direito Penal já resolveu centenas de casos similares".

Definition urgency_penal : str :=
  py "Sabemos que situações criminais precisam de atenção IMEDIATA".

Definition benefit_penal : str :=
  py "proteger seus direitos e buscar o melhor resultado possível".

Definition expertise_saude : str :=
  py "Nossos advogados especialistas em Direito da Saúde têm expertise em ações contra planos".

Definition urgency_saude : str :=
  py "Questões de saúde não podem esperar".

Definition benefit_saude : str :=
  py "garantir seu tratamento e obter as coberturas devidas".

Definition expertise_default : str :=
  py "Nossa equipe jurídica experiente".

Definition urgency_default : str :=
  py "Sua situação precisa de atenção especializada".

Definition benefit_default : str :=
  py "alcançar a solução mais eficaz para seu caso".

Definition strategic_1 : str :=
  py "🚀 ".

Definition strategic_2 : str :=
  py ", uma EXCELENTE notícia!

✅ Seu atendimento foi PRIORIZADO no sistema m.lima

".

Definition strategic_3 : str :=
  py " com resultados comprovados e já foi IMEDIATAMENTE notificada sobre seu caso.

🎯 ".

Definition strategic_4 : str :=
  py " - por isso um advogado experiente entrará em contato com você nos PRÓXIMOS MINUTOS.

🏆 DIFERENCIAL m.lima:
- ⚡ Atendimento ágil e personalizado
- 🎯 Estratégia focada em RESULTADOS
- 📋 Acompanhamento completo do processo
- 💪 Equipe com vasta experiência

Você fez a escolha certa ao confiar no m.lima para ".

Definition strategic_5 : str :=
  py ".

⏰ Aguarde nossa ligação - sua situação está em excelentes mãos!

---
✉️ m.lima Advogados Associados
📱 Contato prioritário ativado".

End Texts.

(** ** Effects

    Computations over a state [S] that may raise. The state reached when
    an exception is raised is kept: a handler, like an [except] block,
    sees every mutation made before the raise. *)

(** The exceptions the code can meet: a failure inside a collaborator,
    the two lookups that can fail in the orchestrator, a method called on
    a value that has none, and the HTTP error a route answers with. *)
Inductive exn :=
  | CollaboratorError | IndexError | KeyError
  | AttributeError | HTTPException (status_code : Z).

Inductive Res (A : Type) := Val (a : A) | Exn (e : exn).
Arguments Val {A} a.
Arguments Exn {A} e.

Definition M (S A : Type) : Type := S -> Res A * S.

Definition ret {S A} (a : A) : M S A := fun st => (Val a, st).

Definition bind {S A B} (m : M S A) (k : A -> M S B) : M S B :=
  fun st =>
    match m st with
    | (Val a, st') => k a st'
    | (Exn e, st') => (Exn e, st')
    end.

Definition raise {S A} (e : exn) : M S A := fun st => (Exn e, st).

(** [try: m except Exception as e: h e] *)
Definition try_catch {S A} (m : M S A) (h : exn -> M S A) : M S A :=
  fun st =>
    match m st with
    | (Val a, st') => (Val a, st')
    | (Exn e, st') => h e st'
    end.

Definition get_state {S} : M S S := fun st => (Val st, st).

Definition modify {S} (f : S -> S) : M S unit := fun st => (Val tt, f st).

Declare Scope flow_scope.
Delimit Scope flow_scope with flow.
Notation "x <- m ;; k" := (bind m (fun x => k))
  (at level 100, m at next level, right associativity) : flow_scope.
Notation "m ;;; k" := (bind m (fun _ => k))
  (at level 100, right associativity) : flow_scope.
Local Open Scope flow_scope.

(** ** The messaging client: delivery addresses *)

Definition whatsapp_suffix : str := py "@s.whatsapp.net".
Definition group_suffix : str := py "@g.us".

(** [EvolutionService._format_phone_number]: the address the messaging
    client sends to. The [except] branch of the source needs a failure of
    string operations, which cannot occur on a string. *)
Definition _format_phone_number (phone : str) : str :=
  let clean_phone := digits_of phone in
  let clean_phone :=
    replace group_suffix [] (replace whatsapp_suffix [] clean_phone) in
  let clean_phone :=
    if negb (startswith (py "55") clean_phone) then
      if len clean_phone =? 11 then py "55" ++ clean_phone
      else if len clean_phone =? 10 then py "55" ++ clean_phone
      else clean_phone
    else clean_phone in
  clean_phone ++ whatsapp_suffix.

(** ** The world outside the orchestrator *)

(** What a collaborator does at one call: it succeeds, it fails without
    raising, or it raises. *)
Inductive outcome := Ok | Fail | Raise.

Inductive LeadSource := qualified_lead | completed_flow.

(** One invocation of the notification dispatcher
    ([notify_lawyers_of_new_lead]) with the facts it was given. *)
Record DispatchCall := {
  lead_name : str;
  lead_phone : str;
  category : str;
  info_case_details : str;
  info_platform : Platform;
  info_session_id : str;
  info_lead_source : LeadSource
}.

(** One entry of a lead record: id, field and answer. *)
Definition Answer : Type := Z * string * str.

Record World := mkWorld {
  store : gmap str Session;          (* the session store *)
  dispatched : list DispatchCall;     (* dispatcher invocations, oldest first *)
  outbox : list (str * str);          (* outbound messages: address, text *)
  leads : list (list Answer);         (* the lead store *)
  script : list outcome               (* what the next collaborator calls do *)
}.

Definition set_store (v : gmap str Session) (w : World) : World :=
  mkWorld v (w.(dispatched)) (w.(outbox)) (w.(leads)) (w.(script)).
Definition set_dispatched (v : list DispatchCall) (w : World) : World :=
  mkWorld (w.(store)) v (w.(outbox)) (w.(leads)) (w.(script)).
Definition set_outbox (v : list (str * str)) (w : World) : World :=
  mkWorld (w.(store)) (w.(dispatched)) v (w.(leads)) (w.(script)).
Definition set_leads (v : list (list Answer)) (w : World) : World :=
  mkWorld (w.(store)) (w.(dispatched)) (w.(outbox)) v (w.(script)).
Definition set_script (v : list outcome) (w : World) : World :=
  mkWorld (w.(store)) (w.(dispatched)) (w.(outbox)) (w.(leads)) v.

(** The next outcome of the script; a collaborator succeeds once the
    script is used up. *)
Definition next_outcome : M World outcome :=
  fun w =>
    match script w with
    | [] => (Val Ok, w)
    | o :: rest => (Val o, set_script rest w)
    end.

(** Modelled from the spec: [firebase_service.get_user_session], whose
    module is not among the source files. The session store is a
    key-value store: a read gives the stored record, [None] when there is
    none or when the read fails silently, or raises. *)
Definition get_user_session (session_id : str) : M World (option Session) :=
  o <- next_outcome ;;
  match o with
  | Ok => w <- get_state ;; ret (store w !! session_id)
  | Fail => ret None
  | Raise => raise CollaboratorError
  end.

(** Modelled from the spec: [firebase_service.save_user_session], whose
    module is not among the source files. A write stores a snapshot of the
    record under the identifier (last write wins), fails silently, or
    raises. *)
Definition save_user_session (session_id : str) (sd : Session)
  : M World unit :=
  o <- next_outcome ;;
  match o with
  | Ok => modify (fun w => set_store (<[session_id := sd]> (store w)) w)
  | Fail => ret tt
  | Raise => raise CollaboratorError
  end.

(** Modelled from the spec:
    [lawyer_notification_service.notify_lawyers_of_new_lead], whose module
    is not among the source files. The dispatcher is given the lead's
    facts and reports success or failure, or raises; the invocation is
    recorded whatever comes of it. The value is
    [notification_result.get("success")]. *)
Definition notify_lawyers_of_new_lead (c : DispatchCall) : M World bool :=
  modify (fun w => set_dispatched (dispatched w ++ [c]) w) ;;;
  o <- next_outcome ;;
  match o with
  | Ok => ret true
  | Fail => ret false
  | Raise => raise CollaboratorError
  end.

(** [evolution_service.send_text_message(phone_number, message)]: the
    number is formatted, the request goes to that address, and the outcome
    of the request is the script's: a status 200 or 201, another status,
    or an exception of the HTTP client, which the method catches. The
    value is [send_result.get("success")]; the outbox records the request
    whatever comes of it. *)
Definition send_text_message (phone_number message : str) : M World bool :=
  try_catch
    (let formatted_phone := _format_phone_number phone_number in
     modify (fun w =>
               set_outbox (outbox w ++ [(formatted_phone, message)]) w) ;;;
     o <- next_outcome ;;
     match o with
     | Ok => ret true
     | Fail => ret false
     | Raise => raise CollaboratorError
     end)
    (fun _ => ret false).

(** Modelled from the spec: [firebase_service.save_lead_data], whose
    module is not among the source files. The lead store is append-only;
    the call appends the record, fails silently, or raises. *)
Definition save_lead_data (answers : list Answer) : M World unit :=
  o <- next_outcome ;;
  match o with
  | Ok => modify (fun w => set_leads (leads w ++ [answers]) w)
  | Fail => ret tt
  | Raise => raise CollaboratorError
  end.

(** The state of the code that works on a session: the [session_data]
    dictionary it holds in memory, and the world. *)
Record FlowSt := mkFlowSt { mem : Session; world : World }.

Definition lift {A} (m : M World A) : M FlowSt A :=
  fun st =>
    match m (world st) with
    | (r, w) => (r, mkFlowSt (mem st) w)
    end.

(** Run a computation on the session [sd]; what is left of the session in
    memory is dropped at the end. *)
Definition with_session {A} (sd : Session) (m : M FlowSt A) : M World A :=
  fun w =>
    match m (mkFlowSt sd w) with
    | (r, st) => (r, world st)
    end.

Definition get_mem : M FlowSt Session := fun st => (Val (mem st), st).

(** A mutation of [session_data] in place. *)
Definition upd (f : Session -> Session) : M FlowSt unit :=
  modify (fun st => mkFlowSt (f (mem st)) (world st)).

(** [await save_user_session(session_id, session_data)] *)
Definition save_mem (session_id : str) : M FlowSt unit :=
  sd <- get_mem ;; lift (save_user_session session_id sd).

(** ** Orchestrator: pure helpers *)

Import Texts.

Definition nl2 : str := [10; 10]%N.

(** The WhatsApp address of a Brazilian number. *)
Definition _format_brazilian_phone (phone : str) : str :=
  if negb (truthy phone) then []
  else
    let phone_clean := digits_of phone in
    let phone_clean :=
      if startswith (py "55") phone_clean then drop 2 phone_clean
      else phone_clean in
    let n := len phone_clean in
    if n =? 8 then py "55" ++ phone_clean
    else if n =? 9 then py "55" ++ phone_clean
    else if n =? 10 then
      let ddd := take 2 phone_clean in
      let number := drop 2 phone_clean in
      let number :=
        match number with
        | c :: _ =>
            if (len number =? 8) && existsb (N.eqb c) [54; 55; 56; 57]%N
            then py "9" ++ number else number
        | [] => number
        end in
      py "55" ++ ddd ++ number
    else if n =? 11 then
      py "55" ++ take 2 phone_clean ++ drop 2 phone_clean
    else py "55" ++ phone_clean.

(** The greeting depends on the hour of the day. *)
Definition _get_personalized_greeting (clk : Clock) : str :=
  let h := hour clk in
  let greeting :=
    if (5 <=? h) && (h <? 12) then py "Bom dia"
    else if (12 <=? h) && (h <? 18) then py "Boa tarde"
    else py "Boa noite" in
  greeting ++ greeting_body.

Definition _get_whatsapp_unauthorized_message : str := unauthorized_text.

(** [name.split()[0] if name else dflt]: a name of whitespace alone has
    no first token and the indexing raises. *)
Definition first_name_of {S} (name dflt : str) : M S str :=
  if truthy name then
    match split name with
    | t :: _ => ret t
    | [] => raise IndexError
    end
  else ret dflt.

(** The follow-up message to a web lead, worded by practice area. *)
Definition _get_strategic_whatsapp_message {S}
  (user_name area phone_formatted : str) : M S str :=
  first_name <- first_name_of user_name (py "Cliente") ;;
  let a := lower area in
  let msgs :=
    if any_in [py "penal"; py "criminal"; py "crime"] a
    then (expertise_penal, urgency_penal, benefit_penal)
    else if any_in [py "saude"; py "saúde"; py "plano"; py "medic"] a
    then (expertise_saude, urgency_saude, benefit_saude)
    else (expertise_default, urgency_default, benefit_default) in
  ret (strategic_1 ++ first_name ++ strategic_2 ++ msgs.1.1 ++ strategic_3
       ++ msgs.1.2 ++ strategic_4 ++ msgs.2 ++ strategic_5).

Record StepConfig := {
  question : str;
  field : option string;
  next_step : Step
}.

(** The step table of a channel, as a lookup. *)
Definition _get_flow_steps (p : Platform) (clk : Clock) (st : Step)
  : option StepConfig :=
  let phone_step_question :=
    match p with whatsapp => question_phone_whatsapp | _ => question_phone_web end in
  let phone_step_field :=
    match p with whatsapp => "preferred_contact_time" | _ => "phone" end%string in
  match st with
  | greeting =>
      Some {| question := _get_personalized_greeting clk; field := None;
              next_step := step1_name |}
  | step1_name =>
      Some {| question := question_name; field := Some "identification"%string;
              next_step := step3_area |}
  | step3_area =>
      Some {| question := question_area;
              field := Some "area_qualification"%string;
              next_step := step4_details |}
  | step4_details =>
      Some {| question := question_details; field := Some "case_details"%string;
              next_step := phone_collection |}
  | phone_collection =>
      Some {| question := phone_step_question; field := Some phone_step_field;
              next_step := step5_confirmation |}
  | step5_confirmation =>
      Some {| question := question_confirmation;
              field := Some "confirmation"%string; next_step := completed |}
  | completed | ended => None
  end.

(** [flow_steps[step]["question"]] *)
Definition question_of {S} (flow_steps : Step -> option StepConfig)
  (st : Step) : M S str :=
  match flow_steps st with
  | Some c => ret (question c)
  | None => raise KeyError
  end.

(** The [except] block of [_interpolate_message] returns the message it
    was given when the stored name has no first token. *)
Definition _interpolate_message (message : str) (ld : LeadData) : str :=
  if negb (truthy message) then interpolate_default
  else
    let area_step (m : str) :=
      let area := ld_get ld "area_qualification" in
      if truthy area && contains (py "{area}") m
      then replace (py "{area}") area m else m in
    let user_name := ld_get ld "identification" in
    if truthy user_name && contains (py "{user_name}") message then
      match split user_name with
      | first_name :: _ =>
          area_step (replace (py "{user_name}") first_name message)
      | [] => message
      end
    else area_step message.

(** The phone number finalization works with: [lead_data["phone"]], and
    when that is empty the session's [phone_number] (which may hold
    [None]). *)
Definition resolve_phone (sd : Session) : option str :=
  let phone_clean := ld_get (lead_data sd) "phone" in
  if truthy phone_clean then Some phone_clean
  else match phone_number sd with
       | None => Some []
       | Some v => v
       end.

(** The answers of a finalized lead, in the order of [field_mapping],
    without the empty ones. *)
Definition lead_answers (ld : LeadData) (phone_clean : str) : list Answer :=
  List.filter (fun a => truthy a.2)
    [ (1, "name", ld_get ld "identification");
      (3, "area", ld_get ld "area_qualification");
      (4, "details", ld_get ld "case_details");
      (99, "phone", phone_clean);
      (98, "contact_time",
       ld_get_or ld "preferred_contact_time" (py "não informado"));
      (5, "confirmation", ld_get ld "confirmation") ]%string.

(** ** Orchestrator: finalization and the conversation flow *)

(** Finalization of a lead on the session in memory. The session's
    [lead_data] is one dictionary shared by every reader, so a read made
    after a write sees the write. *)
Definition _handle_lead_finalization (sid : str) (clk : Clock)
  : M FlowSt str :=
  try_catch
    (sd <- get_mem ;;
     let ld := lead_data sd in
     let p := platform sd in
     let user_name := ld_get_or ld "identification" (py "Cliente") in
     first_name <- first_name_of user_name (py "Cliente") ;;
     let area := ld_get_or ld "area_qualification" (py "não especificada") in
     let case_details :=
       ld_get_or ld "case_details" (py "aguardando mais detalhes") in
     match resolve_phone sd with
     | Some phone_clean =>
         if negb (truthy phone_clean) || (len phone_clean <? 10) then
           ret (reprompt_prefix ++ first_name ++ reprompt_suffix)
         else
           let phone_formatted := _format_brazilian_phone phone_clean in
           upd (fun s =>
                  set_last_updated (now clk)
                    (set_lead_qualified (Some true)
                       (set_phone_submitted true
                          (set_phone_formatted (Some phone_formatted)
                             (set_phone_number (Some (Some phone_clean)) s))))) ;;;
           upd (fun s =>
                  set_lead_data (<["phone"%string := phone_clean]> (lead_data s)) s) ;;;
           save_mem sid ;;;
           notification_success <-
             try_catch
               (s <- get_mem ;;
                if negb (lawyers_notified s) then
                  ok <- lift (notify_lawyers_of_new_lead
                                {| lead_name := user_name;
                                   lead_phone := phone_clean;
                                   category := area;
                                   info_case_details := case_details;
                                   info_platform := p;
                                   info_session_id := sid;
                                   info_lead_source := completed_flow |}) ;;
                  if ok then
                    upd (fun s =>
                           set_lawyers_notified_at (Some (now clk))
                             (set_lawyers_notified true s)) ;;;
                    save_mem sid ;;;
                    ret true
                  else ret false
                else ret true)
               (fun _ => ret false) ;;
           try_catch
             (s <- get_mem ;;
              lift (save_lead_data (lead_answers (lead_data s) phone_clean)))
             (fun _ => ret tt) ;;;
           whatsapp_success <-
             match p with
             | web =>
                 strategic_message <-
                   _get_strategic_whatsapp_message user_name area
                     phone_formatted ;;
                 try_catch
                   (lift (send_text_message phone_formatted strategic_message))
                   (fun _ => ret false)
             | _ => ret false
             end ;;
           let notification_status :=
             if notification_success then notified_status else [] in
           ret (final_prefix ++ first_name ++ final_registered
                ++ notification_status ++ final_contact
                ++ (if whatsapp_success then final_whatsapp_sent
                    else final_saved)
                ++ final_closing)
     | None => ret (reprompt_prefix ++ first_name ++ reprompt_suffix)
     end)
    (fun _ =>
       sd <- get_mem ;;
       first_name <-
         first_name_of (ld_get (lead_data sd) "identification") [] ;;
       ret (fallback_prefix ++ first_name ++ fallback_suffix)).

(** One step of the conversation on the session in memory. Step, first
    interaction flag and channel are read once, on entry. *)
Definition _process_conversation_flow (message : str) (clk : Clock)
  : M FlowSt str :=
  try_catch
    (sd <- get_mem ;;
     let sid := session_id sd in
     let step := current_step sd in
     let is_first_interaction := first_interaction sd in
     let p := platform sd in
     if session_ended sd then
       user_name <- first_name_of (ld_get (lead_data sd) "identification") [] ;;
       ret (ended_prefix ++ user_name ++ ended_suffix)
     else
       let flow_steps := _get_flow_steps p clk in
       if is_first_interaction then
         upd (fun s => set_current_step step1_name (set_first_interaction false s)) ;;;
         save_mem sid ;;;
         greeting_msg <- question_of flow_steps greeting ;;
         name_question <- question_of flow_steps step1_name ;;
         ret (greeting_msg ++ nl2 ++ name_question)
       else if bool_decide (step = greeting) then
         upd (set_current_step step1_name) ;;;
         save_mem sid ;;;
         question_of flow_steps step1_name
       else if bool_decide (step = completed) then
         user_name <-
           first_name_of (ld_get (lead_data sd) "identification") [] ;;
         ret (completed_prefix ++ user_name ++ completed_suffix)
       else if bool_decide (step = phone_collection) then
         let '(is_valid, error_msg) := _validate_answer message step p in
         if negb is_valid then ret error_msg
         else
           match p with
           | whatsapp =>
               upd (fun s =>
                      set_lead_data
                        (<["preferred_contact_time"%string := strip message]>
                           (lead_data s)) s) ;;;
               upd (fun s =>
                      match phone_number s with
                      | Some (Some phone_from_session) =>
                          if truthy phone_from_session then
                            set_lead_data
                              (<["phone"%string := phone_from_session]>
                                 (lead_data s)) s
                          else s
                      | _ => s
                      end) ;;;
               upd (fun s =>
                      set_current_step step5_confirmation
                        (set_phone_submitted true s)) ;;;
               save_mem sid ;;;
               q <- question_of flow_steps step5_confirmation ;;
               s <- get_mem ;;
               ret (_interpolate_message q (lead_data s))
           | _ =>
               upd (fun s =>
                      set_lead_data
                        (<["phone"%string := digits_of message]> (lead_data s))
                        s) ;;;
               upd (fun s =>
                      set_current_step step5_confirmation
                        (set_phone_submitted true s)) ;;;
               save_mem sid ;;;
               q <- question_of flow_steps step5_confirmation ;;
               s <- get_mem ;;
               ret (_interpolate_message q (lead_data s))
           end
       else
         match flow_steps step with
         | Some step_config =>
             let '(is_valid, error_msg) := _validate_answer message step p in
             if negb is_valid then ret error_msg
             else
               upd (fun s =>
                      match field step_config with
                      | Some field_name =>
                          set_lead_data
                            (<[field_name := strip message]> (lead_data s)) s
                      | None => s
                      end) ;;;
               match next_step step_config with
               | completed =>
                   upd (fun s =>
                          set_flow_completed true (set_current_step completed s)) ;;;
                   save_mem sid ;;;
                   _handle_lead_finalization sid clk
               | next =>
                   upd (set_current_step next) ;;;
                   save_mem sid ;;;
                   q <- question_of flow_steps next ;;
                   s <- get_mem ;;
                   ret (_interpolate_message q (lead_data s))
               end
         | None =>
             upd (fun s => set_first_interaction true (set_current_step greeting s)) ;;;
             save_mem sid ;;;
             ret (_get_personalized_greeting clk)
         end)
    (fun _ => ret (_get_personalized_greeting clk)).

(** ** Orchestrator: session lifecycle and entry points *)

(** The session a first message creates. It has no [authorization_source],
    [phone_number] or [reset_count] key. *)
Definition new_session (sid : str) (p : Platform) (clk : Clock) : Session :=
  {| session_id := sid; platform := p; created_at := now clk;
     current_step := greeting; lead_data := ∅; message_count := 0;
     flow_completed := false; phone_submitted := false;
     lawyers_notified := false; last_updated := now clk;
     first_interaction := true; whatsapp_authorized := false;
     session_ended := false; authorization_source := None;
     phone_number := None; reset_count := None;
     previous_session_ended_at := None; ended_at := None;
     lawyers_notified_at := None; phone_formatted := None;
     lead_qualified := None |}.

(** The session that replaces an ended or completed one. *)
Definition reset_session (old : Session) (sid : str) (p : Platform)
  (phone : option str) (clk : Clock) : Session :=
  let whatsapp_auth := whatsapp_authorized old in
  let auth_source := default [] (authorization_source old) in
  let old_phone := default phone (phone_number old) in
  {| session_id := sid; platform := p; created_at := now clk;
     current_step := greeting; lead_data := ∅; message_count := 0;
     flow_completed := false; phone_submitted := false;
     lawyers_notified := false; last_updated := now clk;
     first_interaction := true;
     whatsapp_authorized :=
       match p with whatsapp => whatsapp_auth | _ => false end;
     session_ended := false; authorization_source := Some auth_source;
     phone_number :=
       Some (match p with whatsapp => old_phone | _ => phone end);
     reset_count := Some (default 0 (reset_count old) + 1);
     previous_session_ended_at := Some (ended_at old); ended_at := None;
     lawyers_notified_at := None; phone_formatted := None;
     lead_qualified := None |}.

(** [if phone_number: session_data["phone_number"] = phone_number] *)
Definition with_phone (phone : option str) (sd : Session) : Session :=
  if opt_truthy phone then set_phone_number (Some phone) sd else sd.

(** The stored session, the session that replaces an ended or completed
    one, or a new session. The replacement is returned as created; the
    other two take the phone number of the call. *)
Definition _get_or_create_session (sid : str) (p : Platform)
  (phone : option str) (clk : Clock) : M World Session :=
  session_data <- get_user_session sid ;;
  match session_data with
  | Some sd =>
      let is_ended := session_ended sd in
      let is_completed := flow_completed sd in
      if is_ended || is_completed then
        let fresh := reset_session sd sid p phone clk in
        save_user_session sid fresh ;;;
        ret fresh
      else ret (with_phone phone sd)
  | None =>
      let fresh := new_session sid p clk in
      save_user_session sid fresh ;;;
      ret (with_phone phone fresh)
  end.

Inductive ResponseType :=
  | no_session | whatsapp_unauthorized | platform_flow | orchestration_error.

(** The dictionary [process_message] returns; a key that a return path
    leaves out is [None]. *)
Record Result := {
  response_type : ResponseType;
  r_platform : Platform;
  r_session_id : option str;
  response : str;
  r_current_step : option Step;
  r_flow_completed : option bool;
  r_lawyers_notified : option bool;
  r_phone_submitted : option bool;
  r_lead_data : option LeadData;
  r_message_count : option Z;
  r_whatsapp_authorized : option bool;
  r_session_ended : option bool;
  r_qualification_score : option float;
  r_error : option exn
}.

Definition no_session_result (p : Platform) : Result :=
  {| response_type := no_session; r_platform := p; r_session_id := None;
     response := no_session_text; r_current_step := None;
     r_flow_completed := Some false; r_lawyers_notified := Some false;
     r_phone_submitted := None; r_lead_data := None; r_message_count := None;
     r_whatsapp_authorized := None; r_session_ended := None;
     r_qualification_score := None; r_error := None |}.

Definition unauthorized_result (p : Platform) (sid : str) : Result :=
  {| response_type := whatsapp_unauthorized; r_platform := p;
     r_session_id := Some sid;
     response := _get_whatsapp_unauthorized_message;
     r_current_step := None; r_flow_completed := Some false;
     r_lawyers_notified := Some false; r_phone_submitted := None;
     r_lead_data := None; r_message_count := None;
     r_whatsapp_authorized := Some false; r_session_ended := None;
     r_qualification_score := None; r_error := None |}.

Definition flow_result (p : Platform) (sid : str) (resp : str)
  (sd : Session) : Result :=
  {| response_type := platform_flow; r_platform := p;
     r_session_id := Some sid;
     response := if truthy resp then resp else default_response;
     r_current_step := Some (current_step sd);
     r_flow_completed := Some (flow_completed sd);
     r_lawyers_notified := Some (lawyers_notified sd);
     r_phone_submitted := Some (phone_submitted sd);
     r_lead_data := Some (lead_data sd);
     r_message_count := Some (message_count sd);
     r_whatsapp_authorized := Some (whatsapp_authorized sd);
     r_session_ended := Some (session_ended sd);
     r_qualification_score :=
       Some (_calculate_qualification_score (lead_data sd) p);
     r_error := None |}.

Definition error_result (p : Platform) (sid : str) (clk : Clock) (e : exn)
  : Result :=
  {| response_type := orchestration_error; r_platform := p;
     r_session_id := Some sid;
     response :=
       (let g := _get_personalized_greeting clk in
        if truthy g then g else error_response);
     r_current_step := None; r_flow_completed := None;
     r_lawyers_notified := None; r_phone_submitted := None;
     r_lead_data := None; r_message_count := None;
     r_whatsapp_authorized := None; r_session_ended := None;
     r_qualification_score := None; r_error := Some e |}.

(** [if platform == "whatsapp" and phone_number:] the number the channel
    gives is written to the session and to [lead_data["phone"]]. *)
Definition seed_whatsapp_phone (p : Platform) (phone : option str)
  (sd : Session) : Session :=
  match p, phone with
  | whatsapp, Some phone_number =>
      if truthy phone_number then
        set_lead_data (<["phone"%string := phone_number]> (lead_data sd))
          (set_phone_number (Some (Some phone_number)) sd)
      else sd
  | _, _ => sd
  end.

(** The WhatsApp authorization check of [process_message]: [true] when
    the sender is turned away. A session that carries lead data counts as
    authorized and is marked so. *)
Definition whatsapp_authorization_check (sid : str) (p : Platform)
  : M FlowSt bool :=
  match p with
  | whatsapp =>
      sd <- get_mem ;;
      let authorized := whatsapp_authorized sd in
      let ld := lead_data sd in
      if negb authorized && bool_decide (ld = ∅) then ret true
      else
        (if negb (bool_decide (ld = ∅)) && negb authorized then
           upd (set_whatsapp_authorized true) ;;; save_mem sid
         else ret tt) ;;;
        ret false
  | _ => ret false
  end.

(** The part of [process_message] that runs once the session is in
    memory: the WhatsApp authorization check, the flow, the count and the
    final save. *)
Definition process_session (message sid : str) (phone : option str)
  (p : Platform) (clk : Clock) : M FlowSt Result :=
  blocked <- whatsapp_authorization_check sid p ;;
  if (blocked : bool) then ret (unauthorized_result p sid)
  else
    upd (seed_whatsapp_phone p phone) ;;;
    resp <- _process_conversation_flow message clk ;;
    upd (fun s =>
           set_last_updated (now clk)
             (set_message_count (message_count s + 1) s)) ;;;
    save_mem sid ;;;
    sd <- get_mem ;;
    ret (flow_result p sid resp sd).

(** The entry point of the orchestrator. *)
Definition process_message (message sid : str) (phone : option str)
  (p : Platform) (clk : Clock) : M World Result :=
  try_catch
    (if negb (truthy sid) || bool_decide (strip sid = []) then
       ret (no_session_result p)
     else
       session_data <- _get_or_create_session sid p phone clk ;;
       with_session session_data (process_session message sid phone p clk))
    (fun e => ret (error_result p sid clk e)).

(** What [notify_lawyers_if_qualified] reports. *)
Record NotifyReport := {
  notified : bool;
  success : option bool;
  report_reason : option Reason
}.

(** The gate, and the dispatcher when the gate says yes. *)
Definition notify_lawyers_if_qualified (sid : str) (p : Platform)
  (clk : Clock) : M FlowSt NotifyReport :=
  try_catch
    (sd <- get_mem ;;
     let notification_check := should_notify_lawyers sd p in
     if negb (should_notify notification_check) then
       ret {| notified := false; success := None;
              report_reason := Some (reason notification_check) |}
     else
       let ld := lead_data sd in
       let user_name := ld_get_or ld "identification" (py "Lead Qualificado") in
       let area := ld_get_or ld "area_qualification" (py "não especificada") in
       let case_details :=
         ld_get_or ld "case_details" (py "aguardando mais detalhes") in
       let phone_clean := ld_get ld "phone" in
       try_catch
         (ok <- lift (notify_lawyers_of_new_lead
                        {| lead_name := user_name; lead_phone := phone_clean;
                           category := area;
                           info_case_details := case_details;
                           info_platform := p; info_session_id := sid;
                           info_lead_source := qualified_lead |}) ;;
          if ok then
            upd (fun s =>
                   set_lawyers_notified_at (Some (now clk))
                     (set_lawyers_notified true s)) ;;;
            save_mem sid ;;;
            ret {| notified := true; success := Some true;
                   report_reason := None |}
          else ret {| notified := true; success := Some false;
                      report_reason := None |})
         (fun _ => ret {| notified := true; success := Some false;
                          report_reason := None |}))
    (fun _ => ret {| notified := false; success := None;
                     report_reason := None |}).

(** The [auth_data] dictionary of an authorization event; a key that is
    not given is [None]. *)
Record AuthData := {
  auth_session_id : option str;
  auth_phone_number : option str;
  auth_source : option str;
  user_data : option (gmap string str)
}.

Inductive AuthResult :=
  | authorization_processed (sid phone source : str) (pre_populated : bool)
  | authorization_error (e : exn).

(** The session synthesized for a lead that comes from the landing page
    chat. *)
Definition landing_session (sid phone source : str)
  (ud : gmap string str) (clk : Clock) : Session :=
  {| session_id := sid; platform := whatsapp; created_at := now clk;
     current_step := completed;
     lead_data :=
       <["identification"%string := ld_get ud "name"]>
       (<["area_qualification"%string :=
            ld_get_or ud "area" (py "não especificada")]>
       (<["case_details"%string :=
            ld_get_or ud "problem" (py "Detalhes do chat da landing")]>
       (<["phone"%string := phone]>
       (<["confirmation"%string := py "sim"]> ∅))));
     message_count := 1; flow_completed := true; phone_submitted := true;
     lawyers_notified := false; last_updated := now clk;
     first_interaction := false; whatsapp_authorized := true;
     session_ended := false; authorization_source := Some source;
     phone_number := Some (Some phone); reset_count := None;
     previous_session_ended_at := None; ended_at := None;
     lawyers_notified_at := None; phone_formatted := None;
     lead_qualified := Some true |}.

(** The session created by an authorization for an identifier the store
    does not know. *)
Definition authorized_session (sid phone source : str) (clk : Clock)
  : Session :=
  {| session_id := sid; platform := whatsapp; created_at := now clk;
     current_step := greeting; lead_data := ∅; message_count := 0;
     flow_completed := false; phone_submitted := false;
     lawyers_notified := false; last_updated := now clk;
     first_interaction := true; whatsapp_authorized := true;
     session_ended := false; authorization_source := Some source;
     phone_number := Some (Some phone); reset_count := None;
     previous_session_ended_at := None; ended_at := None;
     lawyers_notified_at := None; phone_formatted := None;
     lead_qualified := None |}.

(** An authorization event: a lead of the landing page chat is stored as
    a completed session and offered to the gate; any other event
    authorizes the stored session or creates an authorized one. *)
Definition handle_whatsapp_authorization (auth_data : AuthData)
  (clk : Clock) : M World AuthResult :=
  try_catch
    (let sid := default [] (auth_session_id auth_data) in
     let phone := default [] (auth_phone_number auth_data) in
     let source := default (py "unknown") (auth_source auth_data) in
     let ud := default ∅ (user_data auth_data) in
     let pre := negb (bool_decide (ud = ∅)) &&
                bool_decide (source = py "landing_chat") in
     (if pre then
        let sd := landing_session sid phone source ud clk in
        save_user_session sid sd ;;;
        with_session sd (notify_lawyers_if_qualified sid whatsapp clk) ;;;
        ret tt
      else
        session_data <- get_user_session sid ;;
        match session_data with
        | Some sd =>
            save_user_session sid
              (set_authorization_source (Some source)
                 (set_whatsapp_authorized true sd))
        | None =>
            save_user_session sid (authorized_session sid phone source clk)
        end) ;;;
     ret (authorization_processed sid phone source pre))
    (fun e => ret (authorization_error e)).

Inductive EndResult :=
  | end_ended (sid : str) (at_ : time)
  | end_not_found (sid : str)
  | end_error (sid : str) (e : exn).

(** The in-memory cache [self.sessions] that [end_session] clears first
    is never written to, so it is always empty. *)
Definition end_session (sid : str) (clk : Clock) : M World EndResult :=
  try_catch
    (session_data <- get_user_session sid ;;
     match session_data with
     | Some sd =>
         let sd := set_current_step ended
                     (set_ended_at (Some (now clk))
                        (set_session_ended true sd)) in
         save_user_session sid sd ;;;
         ret (end_ended sid (now clk))
     | None => ret (end_not_found sid)
     end)
    (fun e => ret (end_error sid e)).

(** ** Phone numbers: the other formatter and the checks *)

(** [_is_phone_number]: ten to thirteen digits among the characters. *)
Definition _is_phone_number (message : str) : bool :=
  let clean_message := digits_of message in
  (10 <=? len clean_message) && (len clean_message <=? 13).

(** The sender identifier of the webhook:
    [phone_number.replace('@s.whatsapp.net', '').replace('@g.us', '')]. *)
Definition clean_sender (phone_number : str) : str :=
  replace group_suffix [] (replace whatsapp_suffix [] phone_number).

(** The digits [_format_brazilian_phone] works on once a leading country
    code is taken off. *)
Definition national_digits (phone : str) : str :=
  let d := digits_of phone in
  if startswith (py "55") d then drop 2 d else d.

(** The ninth digit a ten-digit mobile number is given. *)
Definition with_ninth_digit (d : str) : str :=
  match drop 2 d with
  | c :: _ =>
      if (len d =? 10) && existsb (N.eqb c) [54; 55; 56; 57]%N
      then take 2 d ++ py "9" ++ drop 2 d else d
  | [] => d
  end.

Definition all_digits (s : str) : Prop := forallb isdigit s = true.

(** ** Orchestrator: status query and phone collection *)

(** The dictionary [get_session_context] builds from a stored session.
    Every session the orchestrator stores has a platform, so the default
    of that key is never used. *)
Record SessionContext := {
  ctx_session_id : str;
  ctx_platform : Platform;
  ctx_current_step : Step;
  ctx_flow_completed : bool;
  ctx_phone_submitted : bool;
  ctx_lawyers_notified : bool;
  ctx_whatsapp_authorized : bool;
  ctx_session_ended : bool;
  ctx_lead_data : LeadData;
  ctx_message_count : Z;
  ctx_qualification_score : float
}.

Inductive ContextResult :=
  | context_missing
  | context_found (c : SessionContext)
  | context_error (e : exn).

Definition context_of (sid : str) (sd : Session) : SessionContext :=
  {| ctx_session_id := sid;
     ctx_platform := platform sd;
     ctx_current_step := current_step sd;
     ctx_flow_completed := flow_completed sd;
     ctx_phone_submitted := phone_submitted sd;
     ctx_lawyers_notified := lawyers_notified sd;
     ctx_whatsapp_authorized := whatsapp_authorized sd;
     ctx_session_ended := session_ended sd;
     ctx_lead_data := lead_data sd;
     ctx_message_count := message_count sd;
     ctx_qualification_score :=
       _calculate_qualification_score (lead_data sd) (platform sd) |}.

(** The stored state of a session, for status queries. *)
Definition get_session_context (sid : str) : M World ContextResult :=
  try_catch
    (session_data <- get_user_session sid ;;
     match session_data with
     | None => ret context_missing
     | Some sd => ret (context_found (context_of sid sd))
     end)
    (fun e => ret (context_error e)).

(** Phone collection for the web: the number typed is checked, stored as
    [lead_data["phone"]] and the lead finalized; a WhatsApp session goes
    to finalization with the number the session has. The [except] block
    covers the web branch only and reads the first name again. *)
Definition _handle_phone_collection (phone_message sid : str) (clk : Clock)
  : M FlowSt str :=
  sd <- get_mem ;;
  match platform sd with
  | whatsapp => _handle_lead_finalization sid clk
  | _ =>
      try_catch
        (let phone_clean := digits_of phone_message in
         s <- get_mem ;;
         first_name <-
           first_name_of (ld_get (lead_data s) "identification") [] ;;
         if (len phone_clean <? 10) || (13 <? len phone_clean) then
           ret (py "Ops, " ++ first_name
                ++ py "! Número inválido. Digite seu WhatsApp com DDD (ex: 11999999999):")
         else
           upd (fun s =>
                  set_lead_data (<["phone"%string := phone_clean]> (lead_data s))
                    s) ;;;
           _handle_lead_finalization sid clk)
        (fun _ =>
           s <- get_mem ;;
           first_name <-
             first_name_of (ld_get (lead_data s) "identification") [] ;;
           ret (py "Obrigado, " ++ first_name
                ++ py "! Nossa equipe entrará em contato em breve."))
  end.

(** ** The WhatsApp webhook *)

(** A JSON value as far as the webhook tells values apart: [j_other b]
    is a number, boolean, array or object whose truth value is [b]. *)
Inductive Json := j_null | j_string (s : str) | j_other (truth : bool).

Definition json_truthy (v : Json) : bool :=
  match v with
  | j_null => false
  | j_string s => truthy s
  | j_other b => b
  end.

(** [a or b], where [a] is the result of [dict.get] without a default. *)
Definition py_or (a : option Json) (b : Json) : Json :=
  match a with
  | Some v => if json_truthy v then v else b
  | None => b
  end.

(** A string method called on a JSON value: only a string has it. *)
Definition as_str {S} (v : Json) : M S str :=
  match v with
  | j_string s => ret s
  | _ => raise AttributeError
  end.

(** The keys of the JSON payload the webhook reads; a key that is absent
    is [None]. *)
Record Payload := {
  payload_message : option Json;
  payload_from : option Json;
  payload_phone_number : option Json;
  payload_messageId : option Json;
  payload_message_id : option Json
}.

(** The body of the request: a JSON object, or anything else (another
    JSON value, or bytes that are no JSON), on which reading the payload
    fails. *)
Inductive Body := body_object (payload : Payload) | body_other.

(** The dictionary the webhook returns. [wh_current_step] and
    [wh_qualification_score] are [None] where the source reports the
    defaults "unknown" and 0. *)
Record WebhookReply := {
  wh_session_id : str;
  wh_phone : str;
  incoming_message : str;
  bot_response : str;
  wh_message_id : Json;
  send_success : bool;
  wh_current_step : option Step;
  wh_flow_completed : bool;
  wh_lawyers_notified : bool;
  wh_qualification_score : option float
}.

Definition webhook_fallback : str :=
  py "Desculpe, ocorreu um erro temporário. Por favor, tente novamente.".

(** The sender: the key [from] when it holds something true, else the
    key [phone_number], else the empty string. *)
Definition payload_sender (payload : Payload) : Json :=
  py_or (payload_from payload)
    (default (j_string []) (payload_phone_number payload)).

(** [POST /whatsapp/webhook]: the message goes to the orchestrator under
    the sender's number as session identifier, and the answer is sent
    back through the messaging client. The error 400 raised for an
    invalid payload passes the handlers unchanged; any other exception
    becomes the error 500. *)
Definition whatsapp_webhook (body : Body) (clk : Clock)
  : M World WebhookReply :=
  try_catch
    (payload <-
       match body with
       | body_object p => ret p
       | body_other => raise AttributeError
       end ;;
     message <- as_str (default (j_string []) (payload_message payload)) ;;
     let message_text := strip message in
     let phone_number := payload_sender payload in
     let message_id :=
       py_or (payload_messageId payload)
         (default (j_string []) (payload_message_id payload)) in
     if negb (truthy message_text) || negb (json_truthy phone_number) then
       raise (HTTPException 400)
     else
       sender <- as_str phone_number ;;
       let clean_phone := clean_sender sender in
       let session_id := clean_phone in
       orchestrator_result <-
         process_message message_text session_id (Some clean_phone) whatsapp
           clk ;;
       let bot_response :=
         if truthy (response orchestrator_result)
         then response orchestrator_result else webhook_fallback in
       send_ok <- send_text_message clean_phone bot_response ;;
       ret {| wh_session_id := session_id; wh_phone := clean_phone;
              incoming_message := message_text;
              bot_response := bot_response;
              wh_message_id := message_id;
              send_success := send_ok;
              wh_current_step := r_current_step orchestrator_result;
              wh_flow_completed :=
                default false (r_flow_completed orchestrator_result);
              wh_lawyers_notified :=
                default false (r_lawyers_notified orchestrator_result);
              wh_qualification_score :=
                r_qualification_score orchestrator_result |})
    (fun e =>
       match e with
       | HTTPException _ => raise e
       | _ => raise (HTTPException 500)
       end).

(** ** Statements used by the properties *)

Definition fle (a b : float) : bool := PrimFloat.leb a b.

Definition nonempty (ld : LeadData) (k : string) : Prop := ld_get ld k <> [].

(** The web criteria of the notification gate. *)
Definition web_criteria (sd : Session) : Prop :=
  let ld := lead_data sd in
  flow_completed sd = true /\
  (nonempty ld "identification" /\ nonempty ld "area_qualification" /\
   nonempty ld "case_details" /\ nonempty ld "phone" /\
   nonempty ld "confirmation") /\
  3 <= len (strip (ld_get ld "identification")) /\
  15 <= len (strip (ld_get ld "case_details")) /\
  10 <= len (strip (ld_get ld "phone")) /\
  fge (_calculate_qualification_score ld web) 0.8%float = true.

(** The WhatsApp criteria in the words of the specification: the minimum
    lengths are those of the web criteria, on the name and the phone. *)
Definition whatsapp_criteria_as_stated (sd : Session) : Prop :=
  let ld := lead_data sd in
  3 <= message_count sd /\
  (nonempty ld "identification" /\ nonempty ld "area_qualification" /\
   nonempty ld "phone") /\
  3 <= len (strip (ld_get ld "identification")) /\
  10 <= len (strip (ld_get ld "phone")) /\
  (current_step sd = step5_confirmation \/ current_step sd = completed) /\
  fge (_calculate_qualification_score ld whatsapp) 0.7%float = true.

(** The WhatsApp criteria of the gate: the area, too, has a minimum
    length. *)
Definition whatsapp_criteria (sd : Session) : Prop :=
  whatsapp_criteria_as_stated sd /\
  3 <= len (strip (ld_get (lead_data sd) "area_qualification")).

(** A fully populated lead in the words of the specification. *)
Definition maximal_lead_as_stated (ld : LeadData) : Prop :=
  3 <= len (ld_get ld "identification") /\
  2 <= Z.of_nat (length (split (ld_get ld "identification"))) /\
  10 <= len (ld_get ld "phone") /\
  any_in high_value_keywords (lower (ld_get ld "area_qualification")) = true /\
  50 <= len (ld_get ld "case_details") /\
  ld_get ld "confirmation" <> [].

(** A fully populated lead as the scorer sees it: every field is looked
    at after [strip()]. *)
Definition maximal_lead (ld : LeadData) : Prop :=
  3 <= len (strip (ld_get ld "identification")) /\
  2 <= Z.of_nat (length (split (strip (ld_get ld "identification")))) /\
  10 <= len (strip (ld_get ld "phone")) /\
  any_in high_value_keywords
    (lower (strip (ld_get ld "area_qualification"))) = true /\
  50 <= len (strip (ld_get ld "case_details")) /\
  strip (ld_get ld "confirmation") <> [].

(** [lead_data] built from a list of pairs, first pair outermost. *)
Definition lead_of (l : list (string * str)) : LeadData :=
  fold_right (fun kv m => <[kv.1 := kv.2]> m) ∅ l.

Definition sixty_chars : str :=
  py "Fui acusada injustamente de um crime e preciso de defesa já.".

(** Every field populated, the confirmation with a blank only. *)
Definition lead_blank_confirmation : LeadData :=
  lead_of [("identification", py "Maria Souza");
           ("phone", py "11987654321");
           ("area_qualification", py "Direito Penal");
           ("case_details", sixty_chars);
           ("confirmation", py " ")]%string.

(** Every field populated. *)
Definition lead_complete : LeadData :=
  lead_of [("identification", py "Maria Souza");
           ("phone", py "11987654321");
           ("area_qualification", py "Direito Penal");
           ("case_details", sixty_chars);
           ("confirmation", py "sim")]%string.

Definition clock0 : Clock := {| now := 0; hour := 9 |}.

(** A WhatsApp session at the confirmation step after five messages whose
    area answer has two characters. *)
Definition session_short_area : Session :=
  set_current_step step5_confirmation
    (set_message_count 5
       (set_lead_data
          (lead_of [("identification", py "Maria Souza");
                    ("phone", py "5511987654321");
                    ("area_qualification", py "ab");
                    ("case_details", sixty_chars);
                    ("confirmation", py "sim")]%string)
          (set_whatsapp_authorized true
             (set_first_interaction false
                (new_session (py "5511987654321") whatsapp clock0))))).

(** A web session that has completed the flow with every field given. *)
Definition session_web_done : Session :=
  set_flow_completed true
    (set_current_step completed
       (set_message_count 6
          (set_lead_data lead_complete
             (set_first_interaction false
                (new_session (py "web-1") web clock0))))).

(** ** Predicates on computations *)

(** [carries P Q m]: started in a state of [P], the computation [m] stops
    in a state of [Q], whether it returns or raises. *)
Definition carries {S A} (P Q : S -> Prop) (m : M S A) : Prop :=
  forall st, P st -> Q (m st).2.

(** [yields m Q]: whenever [m] returns a value, the value satisfies [Q]. *)
Definition yields {S A} (m : M S A) (Q : A -> Prop) : Prop :=
  forall st a st', m st = (Val a, st') -> Q a.

(** Two worlds that differ at most in the script. *)
Definition same_but_script (w w' : World) : Prop :=
  store w' = store w /\ dispatched w' = dispatched w /\
  outbox w' = outbox w /\ leads w' = leads w.

(** The two paths that may invoke the dispatcher for a session held in
    memory. *)
Inductive PathCall :=
  | call_notify (sid : str) (p : Platform) (clk : Clock)
  | call_finalize (sid : str) (clk : Clock).

Definition run_path (c : PathCall) (st : FlowSt) : FlowSt :=
  match c with
  | call_notify sid p clk => (notify_lawyers_if_qualified sid p clk st).2
  | call_finalize sid clk => (_handle_lead_finalization sid clk st).2
  end.

Definition run_paths (cs : list PathCall) (st : FlowSt) : FlowSt :=
  fold_left (fun st c => run_path c st) cs st.

(** The session is marked notified and the dispatcher log is [d]. *)
Definition notified_frozen (d : list DispatchCall) (st : FlowSt) : Prop :=
  lawyers_notified (mem st) = true /\ dispatched (world st) = d.

Definition already_notified_result : GateResult :=
  {| should_notify := false; reason := already_notified;
     qualification_score := None; missing_criteria := [] |}.

(** An authorization event of the landing page chat. *)
Definition landing_event : AuthData :=
  {| auth_session_id := Some (py "5511987654321");
     auth_phone_number := Some (py "5511987654321");
     auth_source := Some (py "landing_chat");
     user_data :=
       Some (lead_of [("name", py "Maria Souza");
                      ("area", py "Direito Penal");
                      ("problem", sixty_chars)]%string) |}.

Definition empty_world : World :=
  {| store := ∅; dispatched := []; outbox := []; leads := []; script := [] |}.

(** ** Finalization without a usable phone *)

(** Neither [lead_data["phone"]] nor the session's [phone_number] has ten
    characters. *)
Definition no_usable_phone (sd : Session) : Prop :=
  len (ld_get (lead_data sd) "phone") < 10 /\
  match phone_number sd with
  | Some (Some ph) => len ph < 10
  | _ => True
  end.

(** The first name finalization addresses the lead by. *)
Definition first_name_or_cliente (sd : Session) : str :=
  let user_name := ld_get_or (lead_data sd) "identification" (py "Cliente") in
  match split user_name with
  | t :: _ => t
  | [] => py "Cliente"
  end.

(** The stored name is empty or has a first token. *)
Definition has_first_name (sd : Session) : Prop :=
  let user_name := ld_get_or (lead_data sd) "identification" (py "Cliente") in
  user_name = [] \/ split user_name <> [].

(** The stored name is blank: it has characters, all of them whitespace,
    so that it has no first token. *)
Definition blank_name (sd : Session) : Prop :=
  let user_name := ld_get (lead_data sd) "identification" in
  user_name <> [] /\ split user_name = [].

(** The text that asks again for a phone number. *)
Definition reprompt (sd : Session) : str :=
  reprompt_prefix ++ first_name_or_cliente sd ++ reprompt_suffix.

(** ** Conversations and reachable worlds *)

(** The messages [msgs] sent one after the other on one session. *)
Definition converse (sid : str) (phone : option str) (p : Platform)
  (clk : Clock) (msgs : list str) (w : World) : World :=
  fold_left (fun w m => (process_message m sid phone p clk w).2) msgs w.

(** The worlds the public operations produce from the empty one, the
    collaborators being free to behave as they like at every call. *)
Inductive reachable : World -> Prop :=
  | reach_empty : reachable empty_world
  | reach_script w sc : reachable w -> reachable (set_script sc w)
  | reach_process_message w message sid phone p clk :
      reachable w -> reachable (process_message message sid phone p clk w).2
  | reach_authorization w a clk :
      reachable w -> reachable (handle_whatsapp_authorization a clk w).2
  | reach_end_session w sid clk :
      reachable w -> reachable (end_session sid clk w).2.

(** What holds between [current_step] and [flow_completed]. *)
Definition step_flag_consistent (s : Session) : Prop :=
  (current_step s = completed -> flow_completed s = true) /\
  (flow_completed s = true ->
   current_step s = completed \/
   (current_step s = ended /\ session_ended s = true)).

Definition store_consistent (w : World) : Prop :=
  forall sid s, store w !! sid = Some s -> step_flag_consistent s.

(** The session in memory and every stored record are consistent. *)
Definition good (st : FlowSt) : Prop :=
  store_consistent (world st) /\ step_flag_consistent (mem st).

(** Moreover the session in memory has not completed the flow. *)
Definition active (st : FlowSt) : Prop :=
  store_consistent (world st) /\
  flow_completed (mem st) = false /\ current_step (mem st) <> completed.

(** The end-to-end web scenario of the specification. *)
Definition web_scenario : list str :=
  [[]; py "Maria Souza"; py "Direito Penal";
   py "Fui acusada injustamente de um crime que não cometi, preciso de defesa urgente";
   py "11987654321"; py "sim"].

Definition world_web_done : World :=
  converse (py "web-1") None web clock0 web_scenario empty_world.

Definition world_web_ended : World :=
  (end_session (py "web-1") clock0 world_web_done).2.

(** A WhatsApp sender whose channel identifier has five characters,
    authorized by the button of the landing page, who answers every step
    up to the confirmation question. *)
Definition button_event : AuthData :=
  {| auth_session_id := Some (py "12345");
     auth_phone_number := Some (py "12345");
     auth_source := Some (py "whatsapp_button"); user_data := None |}.

Definition world_before_confirmation : World :=
  converse (py "12345") (Some (py "12345")) whatsapp clock0
    [py "oi"; py "Maria Souza"; py "Direito Penal"; sixty_chars; py "manhã"]
    (handle_whatsapp_authorization button_event clock0 empty_world).2.

(** A store that holds one completed web session. *)
Definition world_one_completed : World :=
  set_store {[ py "web-1" := session_web_done ]} empty_world.

(** ** Statements about effects *)

(** [l] is [l0] with at most [n] entries appended. *)
Definition grown_by {A} (n : nat) (l0 l : list A) : Prop :=
  exists ext, l = l0 ++ ext /\ (length ext <= n)%nat.

(** Since the world [w0]: at most [nd] invocations of the dispatcher,
    [no] outbound messages and [nl] lead records. *)
Definition effects_within (nd no nl : nat) (w0 w : World) : Prop :=
  grown_by nd (dispatched w0) (dispatched w) /\
  grown_by no (outbox w0) (outbox w) /\
  grown_by nl (leads w0) (leads w).

(** A property of the world alone, or of the session in memory alone. *)
Definition on_world (J : World -> Prop) (st : FlowSt) : Prop := J (world st).
Definition on_mem (J : Session -> Prop) (st : FlowSt) : Prop := J (mem st).

(** The session in memory is at one of the steps [L]. *)
Definition at_steps (L : list Step) : FlowSt -> Prop :=
  on_mem (fun s => In (current_step s) L).

(** Every collaborator call from this world on succeeds. *)
Definition responding (w : World) : Prop := script w = [].

(** The message is an accepted answer to the confirmation question of a
    running conversation. *)
Definition confirms (message : str) (sd : Session) : bool :=
  bool_decide (current_step sd = step5_confirmation) &&
  negb (first_interaction sd) && negb (session_ended sd) &&
  (_validate_answer message step5_confirmation (platform sd)).1.

(** The steps at which one call of the conversation flow may leave a
    session: where it was when the answer is rejected, the next row of the
    step table when it is accepted. *)
Definition step_after (sd : Session) : list Step :=
  if session_ended sd then [current_step sd]
  else if first_interaction sd then [step1_name]
  else
    match current_step sd with
    | greeting => [step1_name]
    | step1_name => [step1_name; step3_area]
    | step3_area => [step3_area; step4_details]
    | step4_details => [step4_details; phone_collection]
    | phone_collection => [phone_collection; step5_confirmation]
    | step5_confirmation => [step5_confirmation; completed]
    | completed => [completed]
    | ended => [greeting]
    end.

(** The steps at which the flow takes the message as an answer. *)
Definition answering_steps : list Step :=
  [step1_name; step3_area; step4_details; phone_collection;
   step5_confirmation].

(** A web session that has been greeted and is asked for the name. *)
Definition session_at_name : Session :=
  set_first_interaction false
    (set_current_step step1_name (new_session (py "web-1") web clock0)).

Definition world_at_name : World :=
  set_store {[ py "web-1" := session_at_name ]} empty_world.

(** ** Finalization that goes through *)

(** What finalization hands to the dispatcher. *)
Definition finalization_call (sid : str) (sd : Session) (phone : str)
  : DispatchCall :=
  let ld := lead_data sd in
  {| lead_name := ld_get_or ld "identification" (py "Cliente");
     lead_phone := phone;
     category := ld_get_or ld "area_qualification" (py "não especificada");
     info_case_details :=
       ld_get_or ld "case_details" (py "aguardando mais detalhes");
     info_platform := platform sd;
     info_session_id := sid;
     info_lead_source := completed_flow |}.

(** The session after a finalization in which every step succeeded. *)
Definition finalized (sd : Session) (phone : str) (clk : Clock) : Session :=
  set_lawyers_notified_at (Some (now clk))
    (set_lawyers_notified true
       (set_lead_data (<["phone"%string := phone]> (lead_data sd))
          (set_last_updated (now clk)
             (set_lead_qualified (Some true)
                (set_phone_submitted true
                   (set_phone_formatted (Some (_format_brazilian_phone phone))
                      (set_phone_number (Some (Some phone)) sd))))))).


(** The record [end_session] writes for a stored session. *)
Definition closed (sd : Session) (clk : Clock) : Session :=
  set_current_step ended
    (set_ended_at (Some (now clk)) (set_session_ended true sd)).

(** ** Notified sessions and the dispatcher log *)

(** Finalization has invoked the dispatcher for the lead that the record
    [s] of the session [k] holds: the log has an invocation made for that
    session on its channel, with the name, the phone number, the area and
    the case details the record has. *)
Definition dispatched_for (k : str) (s : Session) (w : World) : Prop :=
  exists c,
    In c (dispatched w) /\
    info_session_id c = k /\ info_platform c = platform s /\
    info_lead_source c = completed_flow /\
    lead_name c = ld_get_or (lead_data s) "identification" (py "Cliente") /\
    lead_phone c = ld_get (lead_data s) "phone" /\
    category c
    = ld_get_or (lead_data s) "area_qualification" (py "não especificada") /\
    info_case_details c
    = ld_get_or (lead_data s) "case_details" (py "aguardando mais detalhes").

(** The record [s] is filed under its own identifier [k], and if it is
    marked notified it has completed the flow and the dispatcher has been
    invoked for its lead. *)
Definition record_backed (k : str) (s : Session) (w : World) : Prop :=
  session_id s = k /\
  (lawyers_notified s = true ->
   flow_completed s = true /\ dispatched_for k s w).

Definition notified_backed (w : World) : Prop :=
  forall k s, store w !! k = Some s -> record_backed k s w.

(** The same for the session [k] held in memory. *)
Definition backed (k : str) (st : FlowSt) : Prop :=
  notified_backed (world st) /\ record_backed k (mem st) (world st).

(** The session held in memory is not marked notified. *)
Definition unnotified (k : str) (st : FlowSt) : Prop :=
  notified_backed (world st) /\ session_id (mem st) = k /\
  lawyers_notified (mem st) = false.

(** Moreover it has completed the flow. *)
Definition unnotified_completed (k : str) (st : FlowSt) : Prop :=
  unnotified k st /\ flow_completed (mem st) = true.

(** A finalization under way: moreover the session is on the channel [p]
    and holds the lead data [ld]. *)
Definition finalizing (k : str) (p : Platform) (ld : LeadData)
  (st : FlowSt) : Prop :=
  unnotified_completed k st /\ platform (mem st) = p /\
  lead_data (mem st) = ld.

(** Moreover the dispatcher has been invoked with [c]. *)
Definition called (k : str) (p : Platform) (ld : LeadData)
  (c : DispatchCall) (st : FlowSt) : Prop :=
  finalizing k p ld st /\ In c (dispatched (world st)).

(** * Properties *)

Example py_decodes_utf8 :
  py "João" = [74; 111; 227; 111]%N /\ len (py "João Silva") = 10 /\
  split (py "  João   Silva ") = [py "João"; py "Silva"] /\
  strip (py "  a b  ") = py "a b" /\
  lower (py "SAÚDE Penal") = py "saúde penal" /\
  replace (py "{x}") (py "Ana") (py "a {x} b {x}") = py "a Ana b Ana".
Proof. vm_compute. repeat split; reflexivity. Qed.

(** ** Rules for computations *)

Section Rules.
Context {S : Type}.
Implicit Types P Q R : S -> Prop.

Lemma carries_ret {A} P Q (a : A) :
  (forall st, P st -> Q st) -> carries P Q (ret a).
Proof. intros H st HP. exact (H st HP). Qed.

Lemma carries_raise {A} P Q e :
  (forall st, P st -> Q st) -> carries P Q (@raise S A e).
Proof. intros H st HP. exact (H st HP). Qed.

Lemma carries_bind {A B} P R Q (m : M S A) (k : A -> M S B) :
  carries P R m -> (forall st, R st -> Q st) ->
  (forall a, carries R Q (k a)) -> carries P Q (bind m k).
Proof.
  intros Hm HRQ Hk st HP. specialize (Hm st HP). unfold bind.
  destruct (m st) as [[a | e] st']; simpl in *.
  - apply Hk, Hm.
  - apply HRQ, Hm.
Qed.

Lemma carries_try {A} P R Q (m : M S A) (h : exn -> M S A) :
  carries P R m -> (forall st, R st -> Q st) ->
  (forall e, carries R Q (h e)) -> carries P Q (try_catch m h).
Proof.
  intros Hm HRQ Hh st HP. specialize (Hm st HP). unfold try_catch.
  destruct (m st) as [[a | e] st']; simpl in *.
  - apply HRQ, Hm.
  - apply Hh, Hm.
Qed.

(** A computation whose shape depends on the state it starts in. *)
Lemma carries_pointwise {A} P Q (m : M S A) :
  (forall st0, P st0 -> carries (fun st => st = st0) Q m) ->
  carries P Q m.
Proof. intros H st HP. exact (H st HP st eq_refl). Qed.

Lemma yields_ret {A} (a : A) (Q : A -> Prop) : Q a -> yields (@ret S A a) Q.
Proof. intros H st a' st' E. injection E as <- _. exact H. Qed.

Lemma yields_bind {A B} (m : M S A) (k : A -> M S B) (Q : B -> Prop) :
  (forall a, yields (k a) Q) -> yields (bind m k) Q.
Proof.
  intros Hk st b st' E. unfold bind in E.
  destruct (m st) as [[a | e] st1]; [| discriminate].
  exact (Hk a st1 b st' E).
Qed.

End Rules.

Lemma carries_get_mem (P Q : FlowSt -> Prop) :
  (forall st, P st -> Q st) -> carries P Q get_mem.
Proof. intros H st HP. exact (H st HP). Qed.

Lemma carries_upd (P Q : FlowSt -> Prop) (f : Session -> Session) :
  (forall st, P st -> Q (mkFlowSt (f (mem st)) (world st))) ->
  carries P Q (upd f).
Proof. intros H st HP. exact (H st HP). Qed.

Lemma yields_with_session {A} (sd : Session) (m : M FlowSt A)
  (Q : A -> Prop) : yields m Q -> yields (with_session sd m) Q.
Proof.
  intros H w a w' E. unfold with_session in E.
  destruct (m (mkFlowSt sd w)) as [r st] eqn:Em.
  injection E as -> _. exact (H _ _ _ Em).
Qed.

Lemma carries_with_session {A} (P Q : World -> Prop) (sd : Session)
  (m : M FlowSt A) :
  carries (fun st => mem st = sd /\ P (world st)) (fun st => Q (world st)) m ->
  carries P Q (with_session sd m).
Proof.
  intros H w HP. unfold with_session.
  specialize (H (mkFlowSt sd w) (conj eq_refl HP)).
  destruct (m (mkFlowSt sd w)) as [r st]. exact H.
Qed.

(** Step equations: a computation whose result is known runs on. *)
Lemma bind_val {S A B} (m : M S A) (k : A -> M S B) st a st' :
  m st = (Val a, st') -> bind m k st = k a st'.
Proof. intros E. unfold bind. rewrite E. reflexivity. Qed.

Lemma bind_exn {S A B} (m : M S A) (k : A -> M S B) st e st' :
  m st = (Exn e, st') -> bind m k st = (Exn e, st').
Proof. intros E. unfold bind. rewrite E. reflexivity. Qed.

Lemma try_catch_val {S A} (m : M S A) (h : exn -> M S A) st a st' :
  m st = (Val a, st') -> try_catch m h st = (Val a, st').
Proof. intros E. unfold try_catch. rewrite E. reflexivity. Qed.

Lemma try_catch_exn {S A} (m : M S A) (h : exn -> M S A) st e st' :
  m st = (Exn e, st') -> try_catch m h st = h e st'.
Proof. intros E. unfold try_catch. rewrite E. reflexivity. Qed.

Lemma lift_val {A} (m : M World A) st a w' :
  m (world st) = (Val a, w') -> lift m st = (Val a, mkFlowSt (mem st) w').
Proof. intros E. unfold lift. rewrite E. reflexivity. Qed.

(** ** What the collaborators may do to the world *)

Lemma get_user_session_frame (sid : str) (w : World) :
  same_but_script w (get_user_session sid w).2.
Proof.
  unfold get_user_session, bind, next_outcome, same_but_script.
  destruct (script w) as [| [] rest]; simpl; repeat split; reflexivity.
Qed.

(** A read gives a stored record or nothing. *)
Lemma get_user_session_value (sid : str) (w : World) (r : option Session)
  (w' : World) :
  get_user_session sid w = (Val r, w') -> r = store w !! sid \/ r = None.
Proof.
  unfold get_user_session, bind, next_outcome.
  destruct (script w) as [| [] rest]; simpl; intros E;
    try discriminate; injection E as <- _; auto.
Qed.

(** A save writes the record under its identifier or leaves the store
    alone; it touches nothing else. *)
Lemma save_user_session_frame (sid : str) (sd : Session) (w : World) :
  let w' := (save_user_session sid sd w).2 in
  (store w' = store w \/ store w' = <[sid := sd]> (store w)) /\
  dispatched w' = dispatched w /\ outbox w' = outbox w /\ leads w' = leads w.
Proof.
  unfold save_user_session, bind, next_outcome.
  destruct (script w) as [| [] rest]; simpl; auto.
Qed.

Lemma notify_frame (c : DispatchCall) (w : World) :
  let w' := (notify_lawyers_of_new_lead c w).2 in
  store w' = store w /\ dispatched w' = dispatched w ++ [c] /\
  outbox w' = outbox w /\ leads w' = leads w.
Proof.
  unfold notify_lawyers_of_new_lead, bind, next_outcome, modify.
  simpl. destruct (script w) as [| [] rest]; simpl; auto.
Qed.

Lemma send_text_message_frame (a t : str) (w : World) :
  let w' := (send_text_message a t w).2 in
  store w' = store w /\ dispatched w' = dispatched w /\
  outbox w' = outbox w ++ [(_format_phone_number a, t)] /\
  leads w' = leads w.
Proof.
  unfold send_text_message, try_catch, bind, next_outcome, modify.
  simpl. destruct (script w) as [| [] rest]; simpl; auto.
Qed.

(** The messaging client catches what the request raises: a send always
    returns. *)
Lemma send_text_message_returns (a t : str) (w : World) :
  exists b, (send_text_message a t w).1 = Val b.
Proof.
  unfold send_text_message, try_catch, bind, next_outcome, modify.
  simpl. destruct (script w) as [| [] rest]; simpl; eauto.
Qed.

Lemma save_lead_data_frame (l : list Answer) (w : World) :
  let w' := (save_lead_data l w).2 in
  store w' = store w /\ dispatched w' = dispatched w /\
  outbox w' = outbox w /\ (leads w' = leads w \/ leads w' = leads w ++ [l]).
Proof.
  unfold save_lead_data, bind, next_outcome.
  destruct (script w) as [| [] rest]; simpl; auto.
Qed.

(** ** Strings *)

Lemma truthy_true (s : str) : truthy s = true <-> s <> [].
Proof. destruct s; simpl; split; congruence. Qed.

Lemma len_pos_truthy (s : str) : 0 < len s -> truthy s = true.
Proof. destruct s; unfold len; simpl; [lia | reflexivity]. Qed.

(** ** The validator *)

(** C7. The validator decides the six answers of the correctness table as
    the table says: "Jo" is no full name and "João Silva" is one;
    "preciso de ajuda" names no practice area and "preciso de um advogado
    penal" does; "11999999999" is a web phone number and "123" is not. *)
Theorem validator_correctness_table :
  (_validate_answer (py "Jo") step1_name web).1 = false /\
  (_validate_answer (py "João Silva") step1_name web).1 = true /\
  (_validate_answer (py "preciso de ajuda") step3_area web).1 = false /\
  (_validate_answer (py "preciso de um advogado penal") step3_area web).1
    = true /\
  (_validate_answer (py "11999999999") phone_collection web).1 = true /\
  (_validate_answer (py "123") phone_collection web).1 = false.
Proof. vm_compute. repeat split; reflexivity. Qed.

(** ** The qualification scorer *)

(** The score depends on the lead through nine tests only; whatever they
    answer, the capped sum lies between 0 and 1. *)
Lemma score_in_unit_interval (ld : LeadData) (p : Platform) :
  fle 0 (_calculate_qualification_score ld p) = true /\
  fle (_calculate_qualification_score ld p) 1 = true.
Proof.
  unfold _calculate_qualification_score.
  generalize (3 <=? len (strip (ld_get ld "identification"))).
  generalize
    (2 <=? Z.of_nat (length (split (strip (ld_get ld "identification"))))).
  generalize (truthy (strip (ld_get ld "phone")) &&
              (10 <=? len (strip (ld_get ld "phone")))).
  generalize (truthy (strip (ld_get ld "area_qualification"))).
  generalize (any_in high_value_keywords
                (lower (strip (ld_get ld "area_qualification")))).
  generalize (truthy (strip (ld_get ld "case_details"))).
  generalize (20 <=? len (strip (ld_get ld "case_details"))).
  generalize (50 <=? len (strip (ld_get ld "case_details"))).
  generalize (truthy (strip (ld_get ld "confirmation"))).
  intros b1 b2 b3 b4 b5 b6 b7 b8 b9.
  destruct b1, b2, b3, b4, b5, b6, b7, b8, b9; vm_compute; split; reflexivity.
Qed.

Lemma score_empty (p : Platform) : _calculate_qualification_score ∅ p = 0%float.
Proof. vm_compute. reflexivity. Qed.

(** A lead that passes every test of the scorer gets every point, and the
    binary64 sum of the nine point values is 1.0. *)
Lemma score_maximal (ld : LeadData) (p : Platform) :
  maximal_lead ld -> _calculate_qualification_score ld p = 1%float.
Proof.
  intros (H1 & H2 & H3 & H4 & H5 & H6).
  assert (H20 : 20 <= len (strip (ld_get ld "case_details"))) by lia.
  assert (Ha : strip (ld_get ld "area_qualification") <> []).
  { intros E. rewrite E in H4. vm_compute in H4. discriminate. }
  unfold _calculate_qualification_score.
  rewrite (proj2 (Z.leb_le _ _) H1), (proj2 (Z.leb_le _ _) H2),
    (proj2 (Z.leb_le _ _) H3), H4, (proj2 (Z.leb_le 50 _) H5),
    (proj2 (Z.leb_le 20 _) H20).
  rewrite (len_pos_truthy (strip (ld_get ld "phone"))) by lia.
  rewrite (len_pos_truthy (strip (ld_get ld "case_details"))) by lia.
  rewrite (proj2 (truthy_true _) H6), (proj2 (truthy_true _) Ha).
  vm_compute. reflexivity.
Qed.

Lemma point_values_sum : (fold_right Qplus 0 point_values == 1)%Q.
Proof. vm_compute. reflexivity. Qed.

Lemma lead_complete_maximal : maximal_lead lead_complete.
Proof.
  unfold maximal_lead. vm_compute.
  repeat split; try discriminate; reflexivity.
Qed.

(** C8, as stated, fails: a lead whose confirmation is a single blank is
    fully populated in the words of the specification (the confirmation is not
    empty), and the scorer, which looks at the trimmed text, gives it 0.9. *)
Lemma scorer_untrimmed_counterexample :
  maximal_lead_as_stated lead_blank_confirmation /\
  fge (_calculate_qualification_score lead_blank_confirmation web)
    0.95%float = false.
Proof.
  unfold maximal_lead_as_stated. vm_compute.
  repeat split; try discriminate; reflexivity.
Qed.

(** C8, amended. For every lead and channel the score lies in [0, 1]; the
    empty lead scores 0.0; a lead that is fully populated once every field
    is trimmed (name of at least 3 characters and 2 tokens, phone of at
    least 10 characters, area with a high-value keyword, details of at
    least 50 characters, confirmation not blank) scores at least 0.95; and
    the nine point values sum to exactly 1, as decimals and as the
    binary64 sum the scorer forms. *)
Theorem scorer_bounds (ld : LeadData) (p : Platform) :
  (fle 0 (_calculate_qualification_score ld p) = true /\
   fle (_calculate_qualification_score ld p) 1 = true) /\
  _calculate_qualification_score ∅ p = 0%float /\
  (maximal_lead ld ->
   fge (_calculate_qualification_score ld p) 0.95%float = true) /\
  (fold_right Qplus 0 point_values == 1)%Q /\
  (0 + 0.15 + 0.10 + 0.25 + 0.15 + 0.10 + 0.08 + 0.04 + 0.03 + 0.10
   = 1)%float.
Proof.
  split; [apply score_in_unit_interval |].
  split; [apply score_empty |].
  split; [| split; [apply point_values_sum | vm_compute; reflexivity]].
  intros H. rewrite (score_maximal ld p H). vm_compute. reflexivity.
Qed.

Lemma scorer_bounds_witness :
  maximal_lead lead_complete /\
  fge (_calculate_qualification_score lead_complete web) 0.95%float = true.
Proof.
  split; [exact lead_complete_maximal |].
  exact (proj1 (proj2 (proj2 (scorer_bounds lead_complete web)))
           lead_complete_maximal).
Defined.

(** ** The notification gate *)

Lemma web_condition_iff (sd : Session) :
  (flow_completed sd &&
   has_fields (lead_data sd)
     ["identification"; "area_qualification"; "case_details"; "phone";
      "confirmation"]%string &&
   (3 <=? len (strip (ld_get (lead_data sd) "identification"))) &&
   (15 <=? len (strip (ld_get (lead_data sd) "case_details"))) &&
   (10 <=? len (strip (ld_get (lead_data sd) "phone"))) &&
   fge (_calculate_qualification_score (lead_data sd) web) 0.8%float) = true
  <-> web_criteria sd.
Proof.
  unfold web_criteria, has_fields, nonempty. cbn [forallb].
  rewrite !andb_true_iff, !truthy_true, !Z.leb_le. tauto.
Qed.

Lemma whatsapp_condition_iff (sd : Session) :
  ((3 <=? message_count sd) &&
   has_fields (lead_data sd)
     ["identification"; "area_qualification"; "phone"]%string &&
   (3 <=? len (strip (ld_get (lead_data sd) "identification"))) &&
   (3 <=? len (strip (ld_get (lead_data sd) "area_qualification"))) &&
   (10 <=? len (strip (ld_get (lead_data sd) "phone"))) &&
   (bool_decide (current_step sd = step5_confirmation) ||
    bool_decide (current_step sd = completed)) &&
   fge (_calculate_qualification_score (lead_data sd) whatsapp) 0.7%float) = true
  <-> whatsapp_criteria sd.
Proof.
  unfold whatsapp_criteria, whatsapp_criteria_as_stated, has_fields, nonempty.
  cbn [forallb].
  rewrite !andb_true_iff, orb_true_iff, !bool_decide_eq_true, !truthy_true, !Z.leb_le. tauto.
Qed.

(** C2, as stated, fails on the WhatsApp side: this session meets every
    criterion the specification lists, and the gate still declines, because the
    area answer is shorter than three characters. *)
Lemma gate_whatsapp_area_counterexample :
  lawyers_notified session_short_area = false /\
  whatsapp_criteria_as_stated session_short_area /\
  should_notify (should_notify_lawyers session_short_area whatsapp) = false.
Proof.
  split; [reflexivity |]. split; [| vm_compute; reflexivity].
  unfold whatsapp_criteria_as_stated, nonempty.
  vm_compute. repeat split; try discriminate. left. reflexivity.
Qed.

(** C2, amended. For a session that has not been notified the gate says
    yes exactly when: on web, the flow is completed, the five fields are
    non-empty, the trimmed name, details and phone have at least 3, 15 and
    10 characters and the score is at least 0.8; on WhatsApp, at least 3
    messages were counted, name, area and phone are non-empty, the trimmed
    name, area and phone have at least 3, 3 and 10 characters, the step is
    the confirmation or completed, and the score is at least 0.7.
    Whenever it says no, the reason is "not_qualified_yet". *)
Theorem notification_gate_criteria (sd : Session) :
  lawyers_notified sd = false ->
  (should_notify (should_notify_lawyers sd web) = true <-> web_criteria sd) /\
  (should_notify (should_notify_lawyers sd whatsapp) = true <->
   whatsapp_criteria sd) /\
  (forall p, should_notify (should_notify_lawyers sd p) = false ->
             reason (should_notify_lawyers sd p) = not_qualified_yet).
Proof.
  intros Hn. unfold should_notify_lawyers. rewrite Hn.
  split; [| split].
  - rewrite <- web_condition_iff.
    destruct (_ && fge _ _); simpl; split; congruence.
  - rewrite <- whatsapp_condition_iff.
    destruct (_ && fge _ _); simpl; split; congruence.
  - intros [] ; try reflexivity.
    + destruct (_ && fge _ _); simpl; congruence.
    + destruct (_ && fge _ _); simpl; congruence.
Qed.

Lemma notification_gate_criteria_witness :
  lawyers_notified session_web_done = false /\
  (should_notify (should_notify_lawyers session_web_done web) = true <->
   web_criteria session_web_done).
Proof.
  split; [reflexivity |].
  exact (proj1 (notification_gate_criteria session_web_done eq_refl)).
Defined.

(** ** Single-fire notification *)

Lemma frozen_save_mem d sid :
  carries (notified_frozen d) (notified_frozen d) (save_mem sid).
Proof.
  intros [sd w] [Hn Hd]. unfold save_mem, bind, get_mem, lift. simpl in *.
  generalize (save_user_session_frame sid sd w). cbv zeta.
  destruct (save_user_session sid sd w) as [r w']. simpl.
  intros (_ & Hdisp & _). split; simpl; [assumption | congruence].
Qed.

Lemma frozen_save_lead d l :
  carries (notified_frozen d) (notified_frozen d) (lift (save_lead_data l)).
Proof.
  intros [sd w] [Hn Hd]. unfold lift. simpl in *.
  generalize (save_lead_data_frame l w). cbv zeta.
  destruct (save_lead_data l w) as [r w']. simpl.
  intros (_ & Hdisp & _). split; simpl; [assumption | congruence].
Qed.

Lemma frozen_send d a t :
  carries (notified_frozen d) (notified_frozen d) (lift (send_text_message a t)).
Proof.
  intros [sd w] [Hn Hd]. unfold lift. simpl in *.
  generalize (send_text_message_frame a t w). cbv zeta.
  destruct (send_text_message a t w) as [r w']. simpl.
  intros (_ & Hdisp & _). split; simpl; [assumption | congruence].
Qed.

Ltac frozen_step d :=
  match goal with
  | |- carries _ _ (bind get_mem (fun s => if negb (lawyers_notified s) then _ else _)) =>
      apply carries_pointwise; intros ? [? ?] ? ->;
      unfold bind, get_mem; simpl;
      match goal with H : lawyers_notified _ = true |- _ => simpl in H; rewrite H end;
      simpl; split; assumption
  | |- carries _ _ (bind _ _) =>
      apply (carries_bind (notified_frozen d) (notified_frozen d) (notified_frozen d));
      [ | auto | intros ? ]
  | |- carries _ _ (try_catch _ _) =>
      apply (carries_try (notified_frozen d) (notified_frozen d) (notified_frozen d));
      [ | auto | intros ? ]
  | |- carries _ _ (ret _) => apply carries_ret; auto
  | |- carries _ _ (raise _) => apply carries_raise; auto
  | |- carries _ _ get_mem => apply carries_get_mem; auto
  | |- carries _ _ (upd _) =>
      apply carries_upd; intros [? ?] [? ?]; split; simpl in *; assumption
  | |- carries _ _ (save_mem _) => apply frozen_save_mem
  | |- carries _ _ (lift (save_lead_data _)) => apply frozen_save_lead
  | |- carries _ _ (lift (send_text_message _ _)) => apply frozen_send
  | |- carries _ _ (first_name_of _ _) => unfold first_name_of
  | |- carries _ _ (_get_strategic_whatsapp_message _ _ _) =>
      unfold _get_strategic_whatsapp_message
  | |- carries _ _ (if ?b then _ else _) => destruct b
  | |- carries _ _ (match ?x with _ => _ end) => destruct x
  end.

Lemma finalization_frozen d sid clk :
  carries (notified_frozen d) (notified_frozen d) (_handle_lead_finalization sid clk).
Proof.
  unfold _handle_lead_finalization.
  repeat frozen_step d.
Qed.

Lemma notify_frozen d sid p clk :
  carries (notified_frozen d) (notified_frozen d) (notify_lawyers_if_qualified sid p clk).
Proof.
  apply carries_pointwise. intros st0 [Hn Hd] st ->.
  unfold notify_lawyers_if_qualified, try_catch, bind, get_mem, should_notify_lawyers.
  rewrite Hn. simpl. split; assumption.
Qed.

Lemma run_paths_frozen (d : list DispatchCall) (cs : list PathCall)
  (st : FlowSt) : notified_frozen d st -> notified_frozen d (run_paths cs st).
Proof.
  revert st. induction cs as [| c cs IH]; intros st H; [exact H |].
  simpl. apply IH. destruct c; simpl.
  - apply (notify_frozen d sid p clk st H).
  - apply (finalization_frozen d sid clk st H).
Qed.

(** C1. Once [lawyers_notified] is true: the gate answers no with reason
    "already_notified" whatever else the session holds; finalization does
    not invoke the dispatcher; and in any sequence of calls of the two
    notification paths on the session, no call made after the flag has
    become true invokes the dispatcher, the flag staying true. *)
Theorem single_fire_notification :
  (forall sd p, lawyers_notified sd = true ->
     should_notify_lawyers sd p = already_notified_result) /\
  (forall sid clk st, lawyers_notified (mem st) = true ->
     dispatched (world (_handle_lead_finalization sid clk st).2)
     = dispatched (world st)) /\
  (forall earlier later st,
     lawyers_notified (mem (run_paths earlier st)) = true ->
     dispatched (world (run_paths (earlier ++ later) st))
     = dispatched (world (run_paths earlier st)) /\
     lawyers_notified (mem (run_paths (earlier ++ later) st)) = true).
Proof.
  split; [| split].
  - intros sd p H. unfold should_notify_lawyers. rewrite H. reflexivity.
  - intros sid clk st H.
    apply (finalization_frozen (dispatched (world st)) sid clk st).
    split; [exact H | reflexivity].
  - intros earlier later st H. unfold run_paths. rewrite fold_left_app.
    fold (run_paths earlier st). fold (run_paths later (run_paths earlier st)).
    destruct (run_paths_frozen (dispatched (world (run_paths earlier st)))
                later (run_paths earlier st)) as [Hn Hd].
    + split; [exact H | reflexivity].
    + split; assumption.
Qed.

Lemma single_fire_notification_witness :
  lawyers_notified (set_lawyers_notified true session_web_done) = true /\
  should_notify_lawyers (set_lawyers_notified true session_web_done) web
  = already_notified_result.
Proof.
  split; [reflexivity |].
  exact (proj1 single_fire_notification
           (set_lawyers_notified true session_web_done) web eq_refl).
Defined.

(** ** Authorization from the landing page *)

(** A gate that says no leaves everything as it is. *)
Lemma notify_declined (sid : str) (p : Platform) (clk : Clock) (st : FlowSt) :
  should_notify (should_notify_lawyers (mem st) p) = false ->
  notify_lawyers_if_qualified sid p clk st
  = (Val {| notified := false; success := None;
            report_reason := Some (reason (should_notify_lawyers (mem st) p)) |},
     st).
Proof.
  intros H. unfold notify_lawyers_if_qualified, try_catch, bind, get_mem.
  rewrite H. reflexivity.
Qed.

(** ** The entry point is total *)

Lemma greeting_nonempty (clk : Clock) : _get_personalized_greeting clk <> [].
Proof.
  unfold _get_personalized_greeting.
  destruct (_ && _); [| destruct (_ && _)]; vm_compute; discriminate.
Qed.

Lemma flow_result_nonempty p sid resp sd :
  response (flow_result p sid resp sd) <> [].
Proof.
  unfold flow_result; simpl. destruct resp; simpl; [vm_compute|]; discriminate.
Qed.

Lemma error_result_nonempty p sid clk e :
  response (error_result p sid clk e) <> [].
Proof.
  unfold error_result; simpl.
  destruct (truthy (_get_personalized_greeting clk)) eqn:E.
  - apply greeting_nonempty.
  - vm_compute; discriminate.
Qed.

Lemma unauthorized_result_nonempty p sid :
  response (unauthorized_result p sid) <> [].
Proof. vm_compute; discriminate. Qed.

Lemma no_session_result_nonempty p : response (no_session_result p) <> [].
Proof. vm_compute; discriminate. Qed.

Lemma process_session_yields message sid phone p clk :
  yields (process_session message sid phone p clk)
    (fun r => response r <> []).
Proof.
  unfold process_session.
  apply yields_bind. intros [|].
  - apply yields_ret, unauthorized_result_nonempty.
  - repeat (apply yields_bind; intros ?).
    apply yields_ret, flow_result_nonempty.
Qed.

(** C9. [process_message] never raises: for every message, session
    identifier, phone number, channel, clock reading and world (so
    whatever the collaborators do), it returns a result record, and the
    response of that record is not empty. *)
Theorem process_message_total (message sid : str) (phone : option str)
  (p : Platform) (clk : Clock) (w : World) :
  exists r w', process_message message sid phone p clk w = (Val r, w') /\
               response r <> [].
Proof.
  assert (Hbody :
    yields
      (if negb (truthy sid) || bool_decide (strip sid = [])
       then ret (no_session_result p)
       else bind (_get_or_create_session sid p phone clk)
              (fun session_data =>
                 with_session session_data
                   (process_session message sid phone p clk)))
      (fun r => response r <> [])).
  { destruct (_ || _).
    - apply yields_ret, no_session_result_nonempty.
    - apply yields_bind. intros sd.
      apply yields_with_session, process_session_yields. }
  unfold process_message, try_catch.
  match goal with
  | |- context [match ?m w with _ => _ end] =>
      destruct (m w) as [[r | e] w1] eqn:E
  end.
  - exists r, w1. split; [reflexivity | exact (Hbody w r w1 E)].
  - exists (error_result p sid clk e), w1.
    split; [reflexivity | apply error_result_nonempty].
Qed.

(** ** Equations of the path on which the collaborators succeed *)

Lemma save_user_session_ok sid sd w :
  script w = [] ->
  save_user_session sid sd w = (Val tt, set_store (<[sid := sd]> (store w)) w).
Proof.
  intros Hs. unfold save_user_session, bind, next_outcome. rewrite Hs. reflexivity.
Qed.

Lemma save_mem_ok sid st :
  script (world st) = [] ->
  save_mem sid st
  = (Val tt, mkFlowSt (mem st)
               (set_store (<[sid := mem st]> (store (world st))) (world st))).
Proof.
  intros Hs. unfold save_mem, bind, get_mem, lift.
  rewrite (save_user_session_ok _ _ _ Hs). reflexivity.
Qed.

Lemma valid_session_id (sid : str) :
  strip sid <> [] -> negb (truthy sid) || bool_decide (strip sid = []) = false.
Proof.
  intros H. rewrite (bool_decide_eq_false_2 _ H).
  destruct sid; [exfalso; apply H; reflexivity | reflexivity].
Qed.

Lemma process_message_with_session message sid phone p clk w sd w1 :
  strip sid <> [] ->
  _get_or_create_session sid p phone clk w = (Val sd, w1) ->
  process_message message sid phone p clk w =
  try_catch (with_session sd (process_session message sid phone p clk))
    (fun e => ret (error_result p sid clk e)) w1.
Proof.
  intros Hsid Hgoc. unfold process_message.
  rewrite (valid_session_id sid Hsid).
  unfold try_catch, bind. rewrite Hgoc. reflexivity.
Qed.

Lemma get_or_create_stored sid p phone clk w old :
  script w = [] -> store w !! sid = Some old ->
  session_ended old = false -> flow_completed old = false ->
  _get_or_create_session sid p phone clk w = (Val (with_phone phone old), w).
Proof.
  intros Hs Hst He Hc. unfold _get_or_create_session, get_user_session, bind, next_outcome.
  rewrite Hs. simpl. rewrite Hst, He, Hc. reflexivity.
Qed.

Lemma get_or_create_unseen sid p phone clk w :
  script w = [] -> store w !! sid = None ->
  _get_or_create_session sid p phone clk w
  = (Val (with_phone phone (new_session sid p clk)),
     set_store (<[sid := new_session sid p clk]> (store w)) w).
Proof.
  intros Hs Hst. unfold _get_or_create_session, get_user_session, save_user_session, bind, next_outcome.
  rewrite Hs. simpl. rewrite Hst. simpl. rewrite Hs. reflexivity.
Qed.

Lemma get_or_create_terminal sid p phone clk w old :
  script w = [] -> store w !! sid = Some old ->
  session_ended old || flow_completed old = true ->
  _get_or_create_session sid p phone clk w
  = (Val (reset_session old sid p phone clk),
     set_store (<[sid := reset_session old sid p phone clk]> (store w)) w).
Proof.
  intros Hs Hst Ht. unfold _get_or_create_session, get_user_session, save_user_session, bind, next_outcome.
  rewrite Hs. simpl. rewrite Hst, Ht. simpl. rewrite Hs. reflexivity.
Qed.

Lemma with_phone_frame phone sd :
  whatsapp_authorized (with_phone phone sd) = whatsapp_authorized sd /\
  lead_data (with_phone phone sd) = lead_data sd.
Proof. unfold with_phone. destruct (opt_truthy phone); split; reflexivity. Qed.

Lemma seed_whatsapp_phone_frame p phone sd :
  let s := seed_whatsapp_phone p phone sd in
  session_id s = session_id sd /\ reset_count s = reset_count sd /\
  whatsapp_authorized s = whatsapp_authorized sd /\
  authorization_source s = authorization_source sd /\
  current_step s = current_step sd /\ flow_completed s = flow_completed sd /\
  session_ended s = session_ended sd /\ message_count s = message_count sd.
Proof.
  unfold seed_whatsapp_phone.
  destruct p, phone as [ph |]; try destruct (truthy ph); cbn; repeat split.
Qed.

(** The first message of a (re)created session. *)
Lemma flow_first_interaction message clk st :
  script (world st) = [] -> session_ended (mem st) = false ->
  first_interaction (mem st) = true ->
  let sd' := set_current_step step1_name (set_first_interaction false (mem st)) in
  _process_conversation_flow message clk st
  = (Val (_get_personalized_greeting clk ++ nl2 ++ question_name),
     mkFlowSt sd'
       (set_store (<[session_id (mem st) := sd']> (store (world st))) (world st))).
Proof.
  intros Hs He Hf sd'. unfold _process_conversation_flow.
  unfold try_catch, bind at 1, get_mem. rewrite He, Hf.
  unfold bind at 1, upd, modify. unfold bind at 1.
  rewrite save_mem_ok by exact Hs. 
  reflexivity.
Qed.

Lemma process_session_first message sid phone p clk sd w1 :
  script w1 = [] -> session_ended sd = false -> first_interaction sd = true ->
  (p = whatsapp -> whatsapp_authorized sd = true) ->
  let seeded := seed_whatsapp_phone p phone sd in
  let mid := set_current_step step1_name (set_first_interaction false seeded) in
  let final := set_last_updated (now clk)
                 (set_message_count (message_count mid + 1) mid) in
  process_session message sid phone p clk (mkFlowSt sd w1)
  = (Val (flow_result p sid
            (_get_personalized_greeting clk ++ nl2 ++ question_name) final),
     mkFlowSt final
       (set_store (<[sid := final]> (<[session_id seeded := mid]> (store w1))) w1)).
Proof.
  intros Hs He Hf Ha seeded mid final.
  assert (Hblocked : whatsapp_authorization_check sid p (mkFlowSt sd w1)
                     = (Val false, mkFlowSt sd w1)).
  { unfold whatsapp_authorization_check. destruct p; try reflexivity.
    unfold bind at 1, get_mem. cbn [mem]. rewrite (Ha eq_refl).
    cbn [negb andb]. rewrite andb_false_r. reflexivity. }
  unfold process_session. unfold bind at 1. rewrite Hblocked.
  unfold bind at 1, upd at 1, modify. cbn [mem world]. fold seeded.
  unfold bind at 1.
  assert (Hes : session_ended seeded = false /\ first_interaction seeded = true).
  { subst seeded. unfold seed_whatsapp_phone.
    destruct p, phone as [ph |]; try destruct (truthy ph); auto. }
  rewrite (flow_first_interaction message clk (mkFlowSt seeded w1) Hs (proj1 Hes) (proj2 Hes)).
  cbn [mem world]. fold mid.
  unfold bind at 1, upd, modify. cbn [mem world]. fold final.
  unfold bind at 1. rewrite save_mem_ok by exact Hs.
  reflexivity.
Qed.


(** ** Unauthorized WhatsApp senders *)

Lemma blocked_session message sid phone clk sd w1 :
  whatsapp_authorized sd = false -> lead_data sd = ∅ ->
  process_session message sid phone whatsapp clk (mkFlowSt sd w1)
  = (Val (unauthorized_result whatsapp sid), mkFlowSt sd w1).
Proof.
  intros Ha Hl. unfold process_session, whatsapp_authorization_check.
  unfold bind at 1. unfold bind at 1. unfold get_mem.
  cbn [mem]. rewrite Ha, Hl. 
  rewrite (bool_decide_eq_true_2 (∅ = ∅) eq_refl). reflexivity.
Qed.

(** What [_get_or_create_session] writes, whatever the collaborators do:
    nothing, a new session, or the replacement of a stored record that is
    ended or completed. *)
Lemma get_or_create_frame sid p phone clk w :
  let w1 := (_get_or_create_session sid p phone clk w).2 in
  dispatched w1 = dispatched w /\ outbox w1 = outbox w /\
  leads w1 = leads w /\
  (store w1 = store w \/
   store w1 = <[sid := new_session sid p clk]> (store w) \/
   exists old,
     store w !! sid = Some old /\
     session_ended old || flow_completed old = true /\
     store w1 = <[sid := reset_session old sid p phone clk]> (store w)).
Proof.
  cbv zeta.
  destruct (_get_or_create_session sid p phone clk w) as [r w1] eqn:E.
  cbn [snd]. revert E.
  unfold _get_or_create_session. unfold bind at 1.
  destruct (get_user_session_frame sid w) as (Gs & Gd & Go & Gl).
  pose proof (get_user_session_value sid w) as Gv.
  destruct (get_user_session sid w) as [[o | e] w0]; cbn [fst snd] in *.
  - specialize (Gv o w0 eq_refl). cbv zeta.
    assert (Hsave : forall sd (x : Session),
              bind (save_user_session sid sd) (fun _ => ret x) w0 = (r, w1) ->
              dispatched w1 = dispatched w /\ outbox w1 = outbox w /\
              leads w1 = leads w /\
              (store w1 = store w \/ store w1 = <[sid := sd]> (store w))).
    { intros sd x. unfold bind.
      destruct (save_user_session_frame sid sd w0) as (Ss & Sd & So & Sl).
      destruct (save_user_session sid sd w0) as [[[] | e] w2];
        simpl in *; intros [= <- <-]; rewrite Sd, So, Sl, Gd, Go, Gl;
        (repeat split; [reflexivity .. |]);
        rewrite <- Gs; exact Ss. }
    destruct o as [old |].
    + destruct Gv as [Gv | Gv]; [| discriminate].
      destruct (session_ended old || flow_completed old) eqn:Ht.
      * intros E. destruct (Hsave _ _ E) as (H1 & H2 & H3 & [H4 | H4]);
          (split; [exact H1 |]); (split; [exact H2 |]);
          (split; [exact H3 |]); [left; exact H4 |].
        right. right. exists old. auto.
      * intros [= <- <-]. auto.
    + intros E. destruct (Hsave _ _ E) as (H1 & H2 & H3 & [H4 | H4]);
        (split; [exact H1 |]); (split; [exact H2 |]);
        (split; [exact H3 |]); auto.
  - intros [= <- <-]. auto.
Qed.

(** C6, as stated, fails. A WhatsApp message from a sender the store does
    not know gets the redirect message, the session handed over being
    unauthorized and without lead data; yet the store, which held nothing
    under the sender's identifier, holds a session record under it
    afterwards: a session has been created. *)
Lemma unauthorized_creates_session :
  let sid := py "5511987654321" in
  let run := process_message (py "oi") sid (Some sid) whatsapp clock0
               empty_world in
  exists sd w1 r,
    _get_or_create_session sid whatsapp (Some sid) clock0 empty_world
    = (Val sd, w1) /\
    whatsapp_authorized sd = false /\ lead_data sd = ∅ /\
    run.1 = Val r /\ response r = _get_whatsapp_unauthorized_message /\
    store empty_world !! sid = None /\
    store run.2 !! sid = Some (new_session sid whatsapp clock0) /\
    store run.2 <> store empty_world.
Proof.
  cbv zeta. eexists _, _, _.
  split; [vm_compute; reflexivity |].
  split; [reflexivity |]. split; [reflexivity |].
  split; [vm_compute; reflexivity |].
  split; [vm_compute; reflexivity |].
  split; [reflexivity |].
  assert (E : store (process_message (py "oi") (py "5511987654321")
                       (Some (py "5511987654321")) whatsapp clock0
                       empty_world).2
              = <[py "5511987654321"
                  := new_session (py "5511987654321") whatsapp clock0]> ∅).
  { assert (Hsid : strip (py "5511987654321") <> [])
      by (vm_compute; discriminate).
    rewrite (process_message_with_session _ _ _ _ _ _ _ _ Hsid
               (get_or_create_unseen (py "5511987654321") whatsapp
                  (Some (py "5511987654321")) clock0 empty_world
                  eq_refl eq_refl)).
    unfold try_catch, with_session.
    rewrite blocked_session by reflexivity. reflexivity. }
  rewrite E. split; [apply lookup_insert_eq |].
  intros H.
  apply (f_equal (fun m => m !! py "5511987654321")) in H.
  rewrite lookup_insert_eq in H. discriminate H.
Qed.

(** C6, amended. A WhatsApp message whose session, as
    [_get_or_create_session] hands it over, is not authorized and has no
    lead data gets the fixed message that sends the sender to the landing
    page, and after the session has been loaded or created nothing is
    written, counted or sent: the flow does not run. Whatever the
    collaborators do, the dispatcher log, the outbox and the lead store
    are as before the call, and the store is as before or differs in the
    one record [_get_or_create_session] saves under the sender's
    identifier: a new session, or the replacement of a stored record that
    was ended or completed. When the collaborators respond: a stored
    record that is neither ended nor completed leaves the world
    unchanged; an identifier the store does not know gets a new,
    unauthorized session; an ended or completed record that was not
    authorized is replaced. *)
Theorem unauthorized_whatsapp_blocked (message sid : str)
  (phone : option str) (clk : Clock) (w : World) :
  strip sid <> [] ->
  (forall sd w1,
     _get_or_create_session sid whatsapp phone clk w = (Val sd, w1) ->
     whatsapp_authorized sd = false -> lead_data sd = ∅ ->
     exists r,
       process_message message sid phone whatsapp clk w = (Val r, w1) /\
       r = unauthorized_result whatsapp sid /\
       response r = unauthorized_text /\ response r <> [] /\
       startswith (py "Olá! 👋") (response r) = true /\
       contains (py "precisamos que você acesse nossa página oficial")
         (response r) = true /\
       contains (py "https://mlima.adv.br") (response r) = true /\
       response_type r = whatsapp_unauthorized /\
       r_whatsapp_authorized r = Some false /\
       dispatched w1 = dispatched w /\ outbox w1 = outbox w /\
       leads w1 = leads w /\
       (store w1 = store w \/
        store w1 = <[sid := new_session sid whatsapp clk]> (store w) \/
        exists old,
          store w !! sid = Some old /\
          session_ended old || flow_completed old = true /\
          store w1
          = <[sid := reset_session old sid whatsapp phone clk]> (store w))) /\
  (forall old,
     script w = [] -> store w !! sid = Some old ->
     session_ended old = false -> flow_completed old = false ->
     whatsapp_authorized old = false -> lead_data old = ∅ ->
     process_message message sid phone whatsapp clk w
     = (Val (unauthorized_result whatsapp sid), w)) /\
  (script w = [] -> store w !! sid = None ->
   process_message message sid phone whatsapp clk w
   = (Val (unauthorized_result whatsapp sid),
      set_store (<[sid := new_session sid whatsapp clk]> (store w)) w)) /\
  (forall old,
     script w = [] -> store w !! sid = Some old ->
     session_ended old || flow_completed old = true ->
     whatsapp_authorized old = false ->
     process_message message sid phone whatsapp clk w
     = (Val (unauthorized_result whatsapp sid),
        set_store
          (<[sid := reset_session old sid whatsapp phone clk]> (store w)) w)).
Proof.
  intros Hsid.
  assert (Hblock : forall sd w1,
     _get_or_create_session sid whatsapp phone clk w = (Val sd, w1) ->
     whatsapp_authorized sd = false -> lead_data sd = ∅ ->
     process_message message sid phone whatsapp clk w
     = (Val (unauthorized_result whatsapp sid), w1)).
  { intros sd w1 Hgoc Ha Hl.
    rewrite (process_message_with_session _ _ _ _ _ _ _ _ Hsid Hgoc).
    unfold try_catch, with_session.
    rewrite (blocked_session message sid phone clk sd w1 Ha Hl). reflexivity. }
  split; [| split; [| split]].
  - intros sd w1 Hgoc Ha Hl.
    exists (unauthorized_result whatsapp sid).
    split; [exact (Hblock sd w1 Hgoc Ha Hl) |].
    split; [reflexivity |]. split; [reflexivity |].
    split; [vm_compute; discriminate |].
    split; [vm_compute; reflexivity |].
    split; [vm_compute; reflexivity |].
    split; [vm_compute; reflexivity |].
    split; [reflexivity |]. split; [reflexivity |].
    pose proof (get_or_create_frame sid whatsapp phone clk w) as Hf.
    cbv zeta in Hf. rewrite Hgoc in Hf. exact Hf.
  - intros old Hs Hst He Hc Ha Hl.
    apply (Hblock (with_phone phone old)).
    + apply get_or_create_stored; assumption.
    + rewrite (proj1 (with_phone_frame phone old)). exact Ha.
    + rewrite (proj2 (with_phone_frame phone old)). exact Hl.
  - intros Hs Hst.
    apply (Hblock (with_phone phone (new_session sid whatsapp clk))).
    + apply get_or_create_unseen; assumption.
    + rewrite (proj1 (with_phone_frame _ _)). reflexivity.
    + rewrite (proj2 (with_phone_frame _ _)). reflexivity.
  - intros old Hs Hst Ht Ha.
    apply (Hblock (reset_session old sid whatsapp phone clk)).
    + apply get_or_create_terminal; assumption.
    + exact Ha.
    + reflexivity.
Qed.

Lemma unauthorized_whatsapp_blocked_witness :
  process_message (py "oi") (py "5511987654321") (Some (py "5511987654321"))
    whatsapp clock0 empty_world
  = (Val (unauthorized_result whatsapp (py "5511987654321")),
     set_store
       (<[py "5511987654321" := new_session (py "5511987654321") whatsapp clock0]>
          (store empty_world)) empty_world).
Proof.
  apply (unauthorized_whatsapp_blocked (py "oi") (py "5511987654321")
           (Some (py "5511987654321")) clock0 empty_world).
  - vm_compute. discriminate.
  - reflexivity.
  - reflexivity.
Defined.

(** ** Reset of a terminal session *)

(** C4. When the stored record of a session is completed or ended and
    the collaborators respond, an inbound message makes
    [process_message] replace the record by a newly created session:
    empty [lead_data], [current_step] greeting, [first_interaction] true,
    [reset_count] one more than before, and on WhatsApp the old
    [whatsapp_authorized], [authorization_source] and [phone_number].
    Unless the WhatsApp authorization check turns the sender away, the
    first-interaction handling then runs on that new session: the record
    the store holds in the end is the new session, seeded with the
    channel's phone number, at [step1_name] with one message counted; the
    old record is not advanced. A WhatsApp sender the old record did not
    authorize gets the redirect message, and the store holds the new
    session as created. *)
Theorem reset_on_terminal (message sid : str) (phone : option str)
  (p : Platform) (clk : Clock) (w : World) (old : Session) :
  strip sid <> [] -> script w = [] -> store w !! sid = Some old ->
  flow_completed old = true \/ session_ended old = true ->
  let fresh := reset_session old sid p phone clk in
  (_get_or_create_session sid p phone clk w
   = (Val fresh, set_store (<[sid := fresh]> (store w)) w)) /\
  (lead_data fresh = ∅ /\ current_step fresh = greeting /\
   first_interaction fresh = true /\ flow_completed fresh = false /\
   session_ended fresh = false /\ message_count fresh = 0 /\
   reset_count fresh = Some (default 0 (reset_count old) + 1)) /\
  (p = whatsapp ->
   whatsapp_authorized fresh = whatsapp_authorized old /\
   authorization_source fresh = Some (default [] (authorization_source old)) /\
   phone_number fresh = Some (default phone (phone_number old))) /\
  (p <> whatsapp \/ whatsapp_authorized old = true ->
   exists r w' final,
     process_message message sid phone p clk w = (Val r, w') /\
     r_current_step r = Some step1_name /\
     store w' !! sid = Some final /\
     final = set_last_updated (now clk)
               (set_message_count 1
                  (set_current_step step1_name
                     (set_first_interaction false
                        (seed_whatsapp_phone p phone fresh)))) /\
     current_step final = step1_name /\
     reset_count final = Some (default 0 (reset_count old) + 1)) /\
  (p = whatsapp -> whatsapp_authorized old = false ->
   process_message message sid phone p clk w
   = (Val (unauthorized_result whatsapp sid),
      set_store (<[sid := fresh]> (store w)) w)).
Proof.
  intros Hsid Hs Hst Hterm fresh.
  assert (Ht : session_ended old || flow_completed old = true).
  { destruct Hterm as [-> | ->]; [apply orb_true_r | reflexivity]. }
  pose proof (get_or_create_terminal sid p phone clk w old Hs Hst Ht) as Hgoc.
  fold fresh in Hgoc.
  split; [exact Hgoc |]. split; [repeat split |].
  split; [intros ->; repeat split |].
  split; [| intros Hp Hu; subst p;
            rewrite (process_message_with_session _ _ _ _ _ _ _ _ Hsid Hgoc);
            unfold try_catch, with_session;
            rewrite blocked_session by (exact Hu || reflexivity);
            reflexivity].
  intros Hopen.
  rewrite (process_message_with_session _ _ _ _ _ _ _ _ Hsid Hgoc).
  unfold try_catch, with_session.
  rewrite process_session_first; try reflexivity; try exact Hs.
  - cbn [fst snd world].
    destruct (seed_whatsapp_phone_frame p phone fresh)
      as (Hid & Hrc & _ & _ & _ & _ & _ & Hmc).
    rewrite Hid.
    eexists _, _, _. split; [reflexivity |].
    split; [reflexivity |]. split; [apply lookup_insert_eq |].
    split; [| split].
    + cbn. rewrite Hmc. reflexivity.
    + reflexivity.
    + cbn. rewrite Hrc. reflexivity.
  - intros ->. destruct Hopen as [H | H]; [congruence | exact H].
Qed.

Lemma reset_on_terminal_witness :
  _get_or_create_session (py "web-1") web None clock0 world_one_completed
  = (Val (reset_session session_web_done (py "web-1") web None clock0),
     set_store
       (<[py "web-1" := reset_session session_web_done (py "web-1") web None
                          clock0]> (store world_one_completed))
       world_one_completed).
Proof.
  apply (reset_on_terminal (py "oi") (py "web-1") None web clock0
           world_one_completed session_web_done).
  - vm_compute. discriminate.
  - reflexivity.
  - vm_compute. reflexivity.
  - left. reflexivity.
Defined.

(** ** Finalization without a usable phone *)

Lemma finalization_aborts sid clk st :
  no_usable_phone (mem st) -> has_first_name (mem st) ->
  _handle_lead_finalization sid clk st = (Val (reprompt (mem st)), st).
Proof.
  intros [Hlead Hsess] Hname.
  unfold _handle_lead_finalization, try_catch, bind at 1, get_mem.
  unfold reprompt, first_name_or_cliente.
  unfold has_first_name in Hname.
  set (user_name := ld_get_or (lead_data (mem st)) "identification" (py "Cliente")) in *.
  assert (Hfirst : first_name_of (S := FlowSt) user_name (py "Cliente") st
                   = (Val (match split user_name with t :: _ => t | [] => py "Cliente" end), st)).
  { unfold first_name_of. destruct user_name as [| c u] eqn:E.
    - reflexivity.
    - cbn [truthy]. destruct Hname as [H | H]; [discriminate |].
      destruct (split (c :: u)); [congruence | reflexivity]. }
  unfold bind at 1. rewrite Hfirst.
  unfold resolve_phone.
  destruct (truthy (ld_get (lead_data (mem st)) "phone")) eqn:Ht.
  - rewrite (proj2 (Z.ltb_lt _ _) Hlead), orb_true_r. reflexivity.
  - destruct (phone_number (mem st)) as [[ph |] |].
    + rewrite (proj2 (Z.ltb_lt _ _) Hsess), orb_true_r. reflexivity.
    + reflexivity.
    + reflexivity.
Qed.

Lemma ld_get_insert_ne (ld : LeadData) (k k' : string) (v : str) :
  k <> k' -> ld_get (<[k := v]> ld) k' = ld_get ld k'.
Proof. intros H. unfold ld_get. rewrite lookup_insert_ne by exact H. reflexivity. Qed.

Lemma ld_get_or_insert_ne (ld : LeadData) (k k' : string) (v d : str) :
  k <> k' -> ld_get_or (<[k := v]> ld) k' d = ld_get_or ld k' d.
Proof. intros H. unfold ld_get_or. rewrite lookup_insert_ne by exact H. reflexivity. Qed.

Lemma confirmation_keeps_abort (sd : Session) (v : str) :
  let sd' := set_flow_completed true
               (set_current_step completed
                  (set_lead_data (<["confirmation"%string := v]> (lead_data sd)) sd)) in
  (no_usable_phone sd -> no_usable_phone sd') /\
  (has_first_name sd -> has_first_name sd') /\
  reprompt sd' = reprompt sd.
Proof.
  unfold no_usable_phone, has_first_name, reprompt, first_name_or_cliente.
  cbn [lead_data phone_number set_flow_completed set_current_step set_lead_data].
  rewrite ld_get_insert_ne by discriminate.
  rewrite ld_get_or_insert_ne by discriminate.
  auto.
Qed.

Lemma confirmation_step_config p clk :
  _get_flow_steps p clk step5_confirmation
  = Some {| question := question_confirmation;
            field := Some "confirmation"%string; next_step := completed |}.
Proof. reflexivity. Qed.

Lemma flow_confirmation_aborts message clk st :
  script (world st) = [] ->
  session_ended (mem st) = false -> first_interaction (mem st) = false ->
  current_step (mem st) = step5_confirmation ->
  (_validate_answer message step5_confirmation (platform (mem st))).1 = true ->
  no_usable_phone (mem st) -> has_first_name (mem st) ->
  let sd' := set_flow_completed true
               (set_current_step completed
                  (set_lead_data
                     (<["confirmation"%string := strip message]> (lead_data (mem st)))
                     (mem st))) in
  _process_conversation_flow message clk st
  = (Val (reprompt (mem st)),
     mkFlowSt sd'
       (set_store (<[session_id (mem st) := sd']> (store (world st))) (world st))).
Proof.
  intros Hs He Hf Hstep Hvalid Hphone Hname sd'.
  unfold _process_conversation_flow.
  unfold try_catch at 1, bind at 1, get_mem. rewrite He, Hf, Hstep.
  cbn [bool_decide decide_rel].
  rewrite (bool_decide_eq_false_2 (step5_confirmation = greeting)) by discriminate.
  rewrite (bool_decide_eq_false_2 (step5_confirmation = completed)) by discriminate.
  rewrite (bool_decide_eq_false_2 (step5_confirmation = phone_collection)) by discriminate.
  rewrite confirmation_step_config.
  destruct (_validate_answer message step5_confirmation (platform (mem st))) as [ok err].
  simpl in Hvalid. subst ok. cbn [negb field next_step].
  unfold bind at 1, upd at 1, modify. cbn [mem world].
  unfold bind at 1, upd at 1, modify. cbn [mem world].
  unfold bind at 1. rewrite save_mem_ok by exact Hs. cbn [mem world].
  fold sd'.
  destruct (confirmation_keeps_abort (mem st) (strip message))
    as (Hp' & Hn' & Hr').
  fold sd' in Hp', Hn', Hr'.
  rewrite finalization_aborts by (cbn [mem]; auto).
  cbn [mem]. rewrite Hr'. reflexivity.
Qed.

(** C5 against the code. A WhatsApp sender whose channel identifier has
    five characters is authorized and answers every step; no phone number
    of ten characters is known when the confirmation arrives. The answer
    "sim" gets the re-prompt for a phone number, as the claim says, but
    the record the store then holds is at [completed] with
    [flow_completed] true and not notified: the completed step has been
    recorded. The phone number the sender then types is not collected:
    the completed record is replaced by a fresh one, the reply is the
    greeting with the name question, the name, the area and the case
    details are gone, the dispatcher has not been invoked and no lead has
    been saved. *)
Theorem finalization_abort_loses_lead :
  let sid := py "12345" in
  let ask :=
    process_message (py "sim") sid (Some sid) whatsapp clock0
      world_before_confirmation in
  let answer :=
    process_message (py "11987654321") sid (Some sid) whatsapp clock0 ask.2 in
  exists before r1 stored r2 after_,
    (store world_before_confirmation !! sid = Some before /\
     current_step before = step5_confirmation /\
     ld_get (lead_data before) "identification" = py "Maria Souza" /\
     no_usable_phone before) /\
    (ask.1 = Val r1 /\ response r1 = reprompt before /\
     store ask.2 !! sid = Some stored /\
     current_step stored = completed /\ flow_completed stored = true /\
     lawyers_notified stored = false /\
     dispatched ask.2 = [] /\ leads ask.2 = []) /\
    (answer.1 = Val r2 /\
     response r2 = _get_personalized_greeting clock0 ++ nl2 ++ question_name /\
     store answer.2 !! sid = Some after_ /\
     current_step after_ = step1_name /\ flow_completed after_ = false /\
     lawyers_notified after_ = false /\
     ld_get (lead_data after_) "identification" = [] /\
     ld_get (lead_data after_) "area_qualification" = [] /\
     ld_get (lead_data after_) "case_details" = [] /\
     ld_get (lead_data after_) "phone" = py "12345" /\
     dispatched answer.2 = [] /\ leads answer.2 = [] /\ outbox answer.2 = []).
Proof.
  cbv zeta. eexists _, _, _, _, _.
  split; [| split].
  - split; [vm_compute; reflexivity |].
    split; [vm_compute; reflexivity |].
    split; [vm_compute; reflexivity |].
    split; vm_compute; reflexivity.
  - split; [vm_compute; reflexivity |].
    split; [vm_compute; reflexivity |].
    split; [vm_compute; reflexivity |].
    repeat split; vm_compute; reflexivity.
  - split; [vm_compute; reflexivity |].
    split; [vm_compute; reflexivity |].
    split; [vm_compute; reflexivity |].
    repeat split; vm_compute; reflexivity.
Qed.

(** ** A lead of the landing page after its authorization *)

(** C10, as stated, fails in its last clause. The lead of the landing
    page chat is stored, completed and not notified, by its authorization.
    The next inbound message on that session does not notify it: the
    completed record is replaced, the name is gone and the dispatcher has
    not been invoked. What does notify it is no inbound message: phone
    collection, which the submission of a phone number runs on the stored
    record, finalizes the lead and invokes the dispatcher with its name. *)
Lemma landing_lead_after_authorization :
  let sid := py "5511987654321" in
  let w1 := (handle_whatsapp_authorization landing_event clock0
               empty_world).2 in
  let inbound := process_message (py "oi") sid (Some sid) whatsapp clock0 w1 in
  exists stored after_ submitted,
    (store w1 !! sid = Some stored /\
     ld_get (lead_data stored) "identification" = py "Maria Souza" /\
     lawyers_notified stored = false /\ dispatched w1 = []) /\
    (store inbound.2 !! sid = Some after_ /\
     ld_get (lead_data after_) "identification" = [] /\
     lawyers_notified after_ = false /\ dispatched inbound.2 = []) /\
    (get_user_session sid w1 = (Val (Some stored), w1) /\
     (_handle_phone_collection (py "5511987654321") sid clock0
        (mkFlowSt stored w1)).2 = submitted /\
     lawyers_notified (mem submitted) = true /\
     map lead_name (dispatched (world submitted)) = [py "Maria Souza"] /\
     map info_session_id (dispatched (world submitted)) = [sid]).
Proof.
  cbv zeta. eexists _, _, _.
  split; [| split].
  - split; [vm_compute; reflexivity |].
    repeat split; vm_compute; reflexivity.
  - split; [vm_compute; reflexivity |].
    repeat split; vm_compute; reflexivity.
  - split; [vm_compute; reflexivity |].
    split; [reflexivity |].
    repeat split; vm_compute; reflexivity.
Qed.

(** C10, amended. An authorization event with non-empty [user_data] and
    source "landing_chat" synthesizes a completed WhatsApp session with
    [message_count] 1 and stores it; the gate it then runs on that
    session fails the engagement criterion and answers no with
    "not_qualified_yet", changing nothing; so the dispatcher is not
    invoked at authorization time, whatever the collaborators do, and
    nothing is sent or saved as a lead. When the collaborators respond,
    the store holds the synthesized session under the identifier and the
    handler reports a pre-populated authorization. A later inbound
    message does not notify the lead either: the record being completed,
    the message replaces it by a fresh session, the reply is the greeting
    with the name question, the lead's name, area and case details are
    gone and the dispatcher is still not invoked. *)
Theorem authorization_never_dispatches (a : AuthData) (clk : Clock)
  (w : World) (ud : gmap string str) :
  user_data a = Some ud -> ud <> ∅ ->
  auth_source a = Some (py "landing_chat") ->
  let sid := default [] (auth_session_id a) in
  let phone := default [] (auth_phone_number a) in
  let sd := landing_session sid phone (py "landing_chat") ud clk in
  let run := handle_whatsapp_authorization a clk w in
  (message_count sd = 1 /\ platform sd = whatsapp /\
   lawyers_notified sd = false /\ flow_completed sd = true /\
   current_step sd = completed) /\
  ((3 <=? message_count sd) = false /\
   should_notify (should_notify_lawyers sd whatsapp) = false /\
   reason (should_notify_lawyers sd whatsapp) = not_qualified_yet /\
   forall w1,
     notify_lawyers_if_qualified sid whatsapp clk (mkFlowSt sd w1)
     = (Val {| notified := false; success := None;
               report_reason := Some not_qualified_yet |},
        mkFlowSt sd w1)) /\
  (dispatched run.2 = dispatched w /\ outbox run.2 = outbox w /\
   leads run.2 = leads w /\
   (store run.2 = store w \/ store run.2 = <[sid := sd]> (store w))) /\
  (responding w ->
   run = (Val (authorization_processed sid phone (py "landing_chat") true),
          set_store (<[sid := sd]> (store w)) w)) /\
  (responding w -> strip sid <> [] ->
   forall message phone' p clk',
     let next := process_message message sid phone' p clk' run.2 in
     exists r after_,
       next.1 = Val r /\
       response r = _get_personalized_greeting clk' ++ nl2 ++ question_name /\
       r_current_step r = Some step1_name /\
       r_lawyers_notified r = Some false /\
       store next.2 !! sid = Some after_ /\
       current_step after_ = step1_name /\ flow_completed after_ = false /\
       lawyers_notified after_ = false /\
       ld_get (lead_data after_) "identification" = [] /\
       ld_get (lead_data after_) "area_qualification" = [] /\
       ld_get (lead_data after_) "case_details" = [] /\
       dispatched next.2 = dispatched w).
Proof.
  intros Hud Hne Hsrc sid phone sd run.
  assert (Hgate : forall w1,
     notify_lawyers_if_qualified sid whatsapp clk (mkFlowSt sd w1)
     = (Val {| notified := false; success := None;
               report_reason := Some not_qualified_yet |},
        mkFlowSt sd w1)).
  { intros w1.
    exact (notify_declined sid whatsapp clk (mkFlowSt sd w1) eq_refl). }
  assert (Hrun : run
    = try_catch
        (bind (bind (save_user_session sid sd)
                 (fun _ => bind (with_session sd
                                   (notify_lawyers_if_qualified sid whatsapp
                                      clk))
                             (fun _ => ret tt)))
           (fun _ => ret (authorization_processed sid phone
                            (py "landing_chat") true)))
        (fun e => ret (authorization_error e)) w).
  { subst run. unfold handle_whatsapp_authorization. rewrite Hud, Hsrc.
    fold sid. fold phone. cbv [default from_option id].
    rewrite (bool_decide_eq_false_2 _ Hne).
    rewrite (bool_decide_eq_true_2 (py "landing_chat" = py "landing_chat")
               eq_refl).
    reflexivity. }
  assert (Hok : responding w ->
     run = (Val (authorization_processed sid phone (py "landing_chat") true),
            set_store (<[sid := sd]> (store w)) w)).
  { intros Hr. rewrite Hrun. apply try_catch_val.
    rewrite (bind_val _ _ w tt (set_store (<[sid := sd]> (store w)) w));
      [reflexivity |].
    rewrite (bind_val _ _ w tt (set_store (<[sid := sd]> (store w)) w)
               (save_user_session_ok sid sd w Hr)).
    unfold bind, with_session. rewrite Hgate. reflexivity. }
  split; [repeat split |]. split; [repeat split; exact Hgate |].
  split; [| split; [exact Hok |]].
  - rewrite Hrun.
    match goal with
    | |- context [try_catch ?m ?h w] =>
        destruct (try_catch m h w) as [res wf] eqn:E
    end.
    cbn [snd]. revert E. unfold try_catch, bind, with_session.
    destruct (save_user_session_frame sid sd w) as (Hs & Hd & Ho & Hl).
    destruct (save_user_session sid sd w) as [[[] | e] w1]; cbn [fst snd] in *.
    + rewrite Hgate. cbn [world ret]. intros [= _ <-]. auto.
    + cbn [ret]. intros [= _ <-]. auto.
  - intros Hr Hsid message phone' p clk' next. subst next.
    rewrite (Hok Hr). cbn [snd].
    set (w1 := set_store (<[sid := sd]> (store w)) w).
    assert (Hr1 : script w1 = []) by exact Hr.
    assert (Hst : store w1 !! sid = Some sd) by apply lookup_insert_eq.
    pose proof (get_or_create_terminal sid p phone' clk' w1 sd Hr1 Hst
                  eq_refl) as Hgoc.
    set (fresh := reset_session sd sid p phone' clk') in *.
    rewrite (process_message_with_session _ _ _ _ _ _ _ _ Hsid Hgoc).
    unfold try_catch, with_session.
    rewrite process_session_first;
      [| exact Hr1 | reflexivity | reflexivity
       | intros ->; reflexivity ].
    cbn [fst snd world].
    destruct (seed_whatsapp_phone_frame p phone' fresh)
      as (Hid & _ & _ & _ & _ & _ & _ & _).
    eexists _, _. split; [reflexivity |].
    split.
    { cbn [response flow_result].
      destruct (_get_personalized_greeting clk' ++ nl2 ++ question_name)
        eqn:E; [| reflexivity].
      apply app_eq_nil in E. destruct E as [E _].
      destruct (greeting_nonempty clk' E). }
    split; [reflexivity |]. split.
    { cbn. unfold seed_whatsapp_phone.
      destruct p, phone' as [ph |]; try destruct (truthy ph); reflexivity. }
    split; [apply lookup_insert_eq |].
    assert (Hld : forall k, k <> "phone"%string ->
              ld_get (lead_data (seed_whatsapp_phone p phone' fresh)) k = []).
    { intros k Hk. unfold seed_whatsapp_phone.
      destruct p, phone' as [ph |]; try destruct (truthy ph);
        try reflexivity.
      cbn [lead_data set_lead_data set_phone_number].
      rewrite ld_get_insert_ne by (intros E; apply Hk; symmetry; exact E).
      reflexivity. }
    split; [reflexivity |].
    split.
    { cbn. unfold seed_whatsapp_phone.
      destruct p, phone' as [ph |]; try destruct (truthy ph); reflexivity. }
    split.
    { cbn. unfold seed_whatsapp_phone.
      destruct p, phone' as [ph |]; try destruct (truthy ph); reflexivity. }
    split; [apply Hld; discriminate |].
    split; [apply Hld; discriminate |].
    split; [apply Hld; discriminate |].
    reflexivity.
Qed.

Lemma authorization_never_dispatches_witness :
  dispatched (handle_whatsapp_authorization landing_event clock0 empty_world).2
  = [].
Proof.
  exact (proj1 (proj1 (proj2 (proj2
    (authorization_never_dispatches landing_event clock0 empty_world
       (lead_of [("name", py "Maria Souza");
                 ("area", py "Direito Penal");
                 ("problem", sixty_chars)]%string)
       eq_refl ltac:(vm_compute; discriminate) eq_refl))))).
Defined.

(** ** [current_step] and [flow_completed] in reachable worlds *)

Lemma active_good st : active st -> good st.
Proof.
  intros (Hs & Hf & Hc). split; [exact Hs |]. split; [congruence |].
  rewrite Hf. discriminate.
Qed.

Lemma store_consistent_insert w sid sd w' :
  store_consistent w -> step_flag_consistent sd ->
  store w' = store w \/ store w' = <[sid := sd]> (store w) ->
  store_consistent w'.
Proof.
  intros Hw Hsd [E | E] k s; rewrite E.
  - apply Hw.
  - destruct (decide (sid = k)) as [-> | Hne].
    + rewrite lookup_insert_eq. intros [= <-]. exact Hsd.
    + rewrite lookup_insert_ne by exact Hne. apply Hw.
Qed.

Lemma store_consistent_same w w' :
  store_consistent w -> store w' = store w -> store_consistent w'.
Proof. intros Hw E k s. rewrite E. apply Hw. Qed.

Lemma save_consistent sid sd :
  step_flag_consistent sd ->
  carries store_consistent store_consistent (save_user_session sid sd).
Proof.
  intros Hsd w Hw.
  destruct (save_user_session_frame sid sd w) as (Hs & _).
  exact (store_consistent_insert w sid sd _ Hw Hsd Hs).
Qed.

Lemma good_save_mem sid : carries good good (save_mem sid).
Proof.
  intros [sd w] [Hw Hsd]. unfold save_mem, bind, get_mem, lift. simpl in *.
  pose proof (save_consistent sid sd Hsd w Hw) as H.
  destruct (save_user_session sid sd w) as [r w']. simpl in *. split; assumption.
Qed.

Lemma active_save_mem sid : carries active active (save_mem sid).
Proof.
  intros [sd w] (Hw & Hf & Hc). unfold save_mem, bind, get_mem, lift. simpl in *.
  assert (Hsd : step_flag_consistent sd).
  { exact (proj2 (active_good (mkFlowSt sd w) (conj Hw (conj Hf Hc)))). }
  pose proof (save_consistent sid sd Hsd w Hw) as H.
  destruct (save_user_session sid sd w) as [r w']. simpl in *.
  exact (conj H (conj Hf Hc)).
Qed.

Lemma good_lift_notify c : carries good good (lift (notify_lawyers_of_new_lead c)).
Proof.
  intros [sd w] [Hw Hsd]. unfold lift. simpl in *.
  destruct (notify_frame c w) as (Hs & _).
  destruct (notify_lawyers_of_new_lead c w) as [r w']. simpl in *.
  split; [exact (store_consistent_same w w' Hw Hs) | exact Hsd].
Qed.

Lemma good_lift_send a t : carries good good (lift (send_text_message a t)).
Proof.
  intros [sd w] [Hw Hsd]. unfold lift. simpl in *.
  destruct (send_text_message_frame a t w) as (Hs & _).
  destruct (send_text_message a t w) as [r w']. simpl in *.
  split; [exact (store_consistent_same w w' Hw Hs) | exact Hsd].
Qed.

Lemma good_lift_save_lead l : carries good good (lift (save_lead_data l)).
Proof.
  intros [sd w] [Hw Hsd]. unfold lift. simpl in *.
  destruct (save_lead_data_frame l w) as (Hs & _).
  destruct (save_lead_data l w) as [r w']. simpl in *.
  split; [exact (store_consistent_same w w' Hw Hs) | exact Hsd].
Qed.

(** Mutations of the session in memory. *)
Ltac solve_upd :=
  apply carries_upd; intros [[] ?];
  unfold good, active, step_flag_consistent, seed_whatsapp_phone; simpl;
  repeat match goal with
         | |- context [match ?x with _ => _ end] => destruct x; simpl
         end;
  intuition (congruence || discriminate || eauto).

Ltac good_step :=
  match goal with
  | |- carries good good (bind _ _) =>
      apply (carries_bind good good good); [ | auto | intros ? ]
  | |- carries good good (try_catch _ _) =>
      apply (carries_try good good good); [ | auto | intros ? ]
  | |- carries _ _ (ret _) => apply carries_ret; auto using active_good
  | |- carries _ _ (raise _) => apply carries_raise; auto using active_good
  | |- carries _ _ get_mem => apply carries_get_mem; auto using active_good
  | |- carries good good (save_mem _) => apply good_save_mem
  | |- carries active active (save_mem _) => apply active_save_mem
  | |- carries good good (lift (notify_lawyers_of_new_lead _)) => apply good_lift_notify
  | |- carries good good (lift (save_lead_data _)) => apply good_lift_save_lead
  | |- carries good good (lift (send_text_message _ _)) => apply good_lift_send
  | |- carries _ _ (first_name_of _ _) => unfold first_name_of
  | |- carries _ _ (question_of _ _) => unfold question_of
  | |- carries _ _ (_get_strategic_whatsapp_message _ _ _) =>
      unfold _get_strategic_whatsapp_message
  | |- carries _ _ (upd _) => solve [solve_upd]
  | |- carries _ _ (let _ := _ in _) => cbv zeta
  | |- carries _ _ (if ?b then _ else _) => destruct b
  | |- carries _ _ (match ?x with _ => _ end) => destruct x
  end.

Lemma finalization_good sid clk :
  carries good good (_handle_lead_finalization sid clk).
Proof. unfold _handle_lead_finalization. repeat good_step. Qed.

Lemma notify_good sid p clk :
  carries good good (notify_lawyers_if_qualified sid p clk).
Proof. unfold notify_lawyers_if_qualified. repeat good_step. Qed.

Ltac flow_step :=
  match goal with
  | |- carries active good (bind _ _) =>
      first
        [ apply (carries_bind active active good);
          [ solve [repeat flow_step] | exact active_good | intros ? ]
        | apply (carries_bind active good good);
          [ solve [repeat flow_step] | auto | intros ? ] ]
  | |- carries active active (bind _ _) =>
      apply (carries_bind active active active); [ | auto | intros ? ]
  | |- carries active good (try_catch _ _) =>
      apply (carries_try active good good); [ | auto | intros ? ]
  | |- carries good good (_handle_lead_finalization _ _) =>
      apply finalization_good
  | _ => good_step
  end.

Lemma flow_good message clk :
  carries active good (_process_conversation_flow message clk).
Proof. unfold _process_conversation_flow. repeat flow_step. Qed.

Lemma authorization_check_active sid p :
  carries active active (whatsapp_authorization_check sid p).
Proof. unfold whatsapp_authorization_check. repeat flow_step. Qed.

Lemma process_session_good message sid phone p clk :
  carries active good (process_session message sid phone p clk).
Proof.
  unfold process_session.
  apply (carries_bind active active good);
    [apply authorization_check_active | exact active_good | intros blocked].
  destruct blocked; [apply carries_ret; exact active_good |].
  apply (carries_bind active active good);
    [solve [repeat flow_step] | exact active_good | intros _].
  apply (carries_bind active good good);
    [apply flow_good | auto | intros resp].
  repeat flow_step.
Qed.

Lemma with_phone_flags phone sd :
  flow_completed (with_phone phone sd) = flow_completed sd /\
  current_step (with_phone phone sd) = current_step sd /\
  session_ended (with_phone phone sd) = session_ended sd.
Proof. unfold with_phone. destruct (opt_truthy phone); repeat split. Qed.

Lemma get_user_session_consistent sid w :
  store_consistent w ->
  store_consistent (get_user_session sid w).2 /\
  forall sd, (get_user_session sid w).1 = Val (Some sd) ->
             step_flag_consistent sd.
Proof.
  intros Hw. split.
  - destruct (get_user_session_frame sid w) as (Hs & _).
    exact (store_consistent_same w _ Hw Hs).
  - intros sd E.
    destruct (get_user_session sid w) as [r w'] eqn:Eg. simpl in E. subst r.
    destruct (get_user_session_value sid w _ _ Eg) as [H | H];
      [| discriminate].
    exact (Hw sid sd (eq_sym H)).
Qed.

Lemma get_or_create_active sid p phone clk w :
  store_consistent w ->
  match _get_or_create_session sid p phone clk w with
  | (Val sd, w') => active (mkFlowSt sd w')
  | (Exn _, w') => store_consistent w'
  end.
Proof.
  intros Hw. unfold _get_or_create_session, bind.
  destruct (get_user_session_consistent sid w Hw) as [Hw1 Hv].
  destruct (get_user_session sid w) as [[[old |] | e] w1]; simpl in *.
  - specialize (Hv old eq_refl).
    destruct (session_ended old || flow_completed old) eqn:Et.
    + pose proof (save_consistent sid (reset_session old sid p phone clk)) as Hsave.
      specialize (Hsave ltac:(split; simpl; [discriminate | discriminate]) w1 Hw1).
      destruct (save_user_session sid _ w1) as [[[] | e] w2]; simpl in *.
      * split; [exact Hsave |]. split; [reflexivity | discriminate].
      * exact Hsave.
    + apply orb_false_iff in Et. destruct Et as [Hend Hfc].
      destruct (with_phone_flags phone old) as (E1 & E2 & _).
      split; [exact Hw1 |]. simpl. rewrite E1, E2. split; [exact Hfc |].
      intros Hc. destruct Hv as [Hv _]. specialize (Hv Hc). congruence.
  - pose proof (save_consistent sid (new_session sid p clk)) as Hsave.
    specialize (Hsave ltac:(split; simpl; [discriminate | discriminate]) w1 Hw1).
    destruct (save_user_session sid _ w1) as [[[] | e] w2]; simpl in *.
    + destruct (with_phone_flags phone (new_session sid p clk)) as (E1 & E2 & _).
      split; [exact Hsave |]. simpl. rewrite E1, E2.
      split; [reflexivity | discriminate].
    + exact Hsave.
  - exact Hw1.
Qed.

Lemma process_message_consistent message sid phone p clk :
  carries store_consistent store_consistent
    (process_message message sid phone p clk).
Proof.
  intros w Hw. unfold process_message, try_catch.
  destruct (negb (truthy sid) || bool_decide (strip sid = [])); [exact Hw |].
  unfold bind.
  pose proof (get_or_create_active sid p phone clk w Hw) as Hgoc.
  destruct (_get_or_create_session sid p phone clk w) as [[sd | e] w1];
    [| exact Hgoc].
  unfold with_session.
  pose proof (process_session_good message sid phone p clk _ Hgoc) as Hps.
  destruct (process_session message sid phone p clk (mkFlowSt sd w1))
    as [[r | e] st2]; simpl in *; exact (proj1 Hps).
Qed.

Lemma authorization_consistent a clk :
  carries store_consistent store_consistent
    (handle_whatsapp_authorization a clk).
Proof.
  unfold handle_whatsapp_authorization. cbv zeta.
  apply (carries_try store_consistent store_consistent store_consistent);
    [| auto | intros e; apply carries_ret; auto].
  apply (carries_bind store_consistent store_consistent store_consistent);
    [| auto | intros _; apply carries_ret; auto].
  destruct (_ && _).
  - apply (carries_bind store_consistent store_consistent store_consistent);
      [| auto |].
    + apply save_consistent. split; simpl; [reflexivity | auto].
    + intros _.
      apply (carries_bind store_consistent store_consistent store_consistent);
        [| auto | intros _; apply carries_ret; auto].
      apply carries_with_session.
      intros st [Hm Hw].
      apply (notify_good _ whatsapp clk st).
      split; [exact Hw |]. rewrite Hm. split; simpl; [reflexivity | auto].
  - intros w Hw. unfold bind.
    match goal with
    | |- context [get_user_session ?k w] =>
        destruct (get_user_session_consistent k w Hw) as [Hw1 Hv];
        destruct (get_user_session k w) as [[[sd |] | e] w1]; simpl in *;
        [| | exact Hw1]
    end.
    + apply save_consistent; [| exact Hw1].
      specialize (Hv sd eq_refl). destruct sd; exact Hv.
    + apply save_consistent; [| exact Hw1].
      split; simpl; discriminate.
Qed.

Lemma end_session_consistent sid clk :
  carries store_consistent store_consistent (end_session sid clk).
Proof.
  intros w Hw. unfold end_session, try_catch, bind.
  destruct (get_user_session_consistent sid w Hw) as [Hw1 Hv].
  destruct (get_user_session sid w) as [[[sd |] | e] w1]; simpl in *;
    try exact Hw1.
  pose proof (save_consistent sid
                (set_current_step ended
                   (set_ended_at (Some (now clk)) (set_session_ended true sd))))
    as Hsave.
  specialize (Hsave ltac:(split; simpl; [discriminate | auto]) w1 Hw1).
  destruct (save_user_session sid _ w1) as [[[] | e] w2]; simpl in *;
    exact Hsave.
Qed.

Lemma reachable_converse sid phone p clk msgs w :
  reachable w -> reachable (converse sid phone p clk msgs w).
Proof.
  revert w. induction msgs as [| m msgs IH]; intros w H; [exact H |].
  apply IH. apply reach_process_message. exact H.
Qed.

Lemma world_web_done_reachable : reachable world_web_done.
Proof. apply reachable_converse, reach_empty. Qed.

(** C3, as stated, fails. The web scenario of the specification completes
    the flow; [end_session], which is meant to be called then, moves the
    record to [ended] and leaves [flow_completed] true. *)
Lemma completed_then_ended_counterexample :
  reachable world_web_ended /\
  exists s, store world_web_ended !! py "web-1" = Some s /\
            ~ (flow_completed s = true <-> current_step s = completed).
Proof.
  split.
  - apply reach_end_session, world_web_done_reachable.
  - eexists. split; [vm_compute; reflexivity |].
    intros [H _]. specialize (H eq_refl). discriminate H.
Qed.

(** C3, amended. In every world reachable through [process_message],
    [handle_whatsapp_authorization] and [end_session], each stored record
    whose [current_step] is [completed] has [flow_completed] true, and
    each record with [flow_completed] true is at [completed] or, once
    [end_session] has closed it, at [ended] with [session_ended] true. *)
Theorem reachable_step_flag (w : World) :
  reachable w ->
  forall sid s, store w !! sid = Some s ->
    (current_step s = completed -> flow_completed s = true) /\
    (flow_completed s = true ->
     current_step s = completed \/
     (current_step s = ended /\ session_ended s = true)).
Proof.
  intros H. change (store_consistent w).
  induction H.
  - intros sid s E. vm_compute in E. discriminate.
  - exact IHreachable.
  - apply process_message_consistent, IHreachable.
  - apply authorization_consistent, IHreachable.
  - apply end_session_consistent, IHreachable.
Qed.

Lemma reachable_step_flag_witness :
  exists s, store world_web_done !! py "web-1" = Some s /\
            (current_step s = completed -> flow_completed s = true).
Proof.
  eexists. split; [vm_compute; reflexivity |].
  apply (reachable_step_flag world_web_done world_web_done_reachable
           (py "web-1")).
  vm_compute. reflexivity.
Defined.

(** ** The end-to-end web scenario *)

(** The six inputs of the scenario drive a fresh web session to
    [completed]; the dispatcher is invoked once, for the category the lead
    gave, one follow-up message is sent and one lead is stored. *)
Example web_scenario_completes :
  exists s,
    store world_web_done !! py "web-1" = Some s /\
    current_step s = completed /\ flow_completed s = true /\
    lawyers_notified s = true /\ message_count s = 6 /\
    map category (dispatched world_web_done) = [py "Direito Penal"] /\
    length (outbox world_web_done) = 1%nat /\
    length (leads world_web_done) = 1%nat.
Proof. eexists. vm_compute. repeat split; reflexivity. Qed.
(** ** Phone number formatting *)

Lemma digits_of_all_digits (s : str) : all_digits (digits_of s).
Proof.
  unfold all_digits, digits_of. induction s as [| c s IH]; [reflexivity |].
  simpl. destruct (isdigit c) eqn:E; [simpl; rewrite E; exact IH | exact IH].
Qed.

Lemma digits_of_id (s : str) : all_digits s -> digits_of s = s.
Proof.
  unfold all_digits, digits_of. induction s as [| c s IH]; [reflexivity |].
  simpl. intros H. apply andb_true_iff in H. destruct H as [Hc Hs].
  rewrite Hc, (IH Hs). reflexivity.
Qed.

Lemma all_digits_app (a b : str) :
  all_digits (a ++ b) <-> all_digits a /\ all_digits b.
Proof.
  unfold all_digits. rewrite forallb_app, andb_true_iff. reflexivity.
Qed.

Lemma all_digits_take (n : nat) (s : str) : all_digits s -> all_digits (take n s).
Proof.
  intros H. rewrite <- (take_drop n s) in H. apply all_digits_app in H. tauto.
Qed.

Lemma all_digits_drop (n : nat) (s : str) : all_digits s -> all_digits (drop n s).
Proof.
  intros H. rewrite <- (take_drop n s) in H. apply all_digits_app in H. tauto.
Qed.

Lemma startswith_app (p s : str) : startswith p (p ++ s) = true.
Proof. induction p as [| c p IH]; [reflexivity |]. simpl. rewrite N.eqb_refl. exact IH. Qed.

Lemma startswith_split (p s : str) :
  startswith p s = true -> s = p ++ drop (length p) s.
Proof.
  revert s. induction p as [| a p IH]; intros s H; [reflexivity |].
  destruct s as [| b s]; [discriminate |]. simpl in H.
  apply andb_true_iff in H. destruct H as [Hab Hp].
  apply N.eqb_eq in Hab. subst b. simpl. f_equal. exact (IH s Hp).
Qed.

(** The formatter written with [national_digits] and
    [with_ninth_digit]. *)
Lemma format_brazilian_phone_shape (phone : str) :
  _format_brazilian_phone phone
  = if truthy phone then py "55" ++ with_ninth_digit (national_digits phone)
    else [].
Proof.
  unfold _format_brazilian_phone, with_ninth_digit, national_digits.
  destruct (truthy phone); [| reflexivity]. cbn [negb].
  set (d := if startswith (py "55") (digits_of phone)
            then drop 2 (digits_of phone) else digits_of phone).
  destruct (len d =? 8) eqn:E8.
  { apply Z.eqb_eq in E8. assert ((len d =? 10) = false) as -> by (apply Z.eqb_neq; lia).
    destruct (drop 2 d); reflexivity. }
  destruct (len d =? 9) eqn:E9.
  { apply Z.eqb_eq in E9. assert ((len d =? 10) = false) as -> by (apply Z.eqb_neq; lia).
    destruct (drop 2 d); reflexivity. }
  destruct (len d =? 10) eqn:E10.
  { apply Z.eqb_eq in E10.
    assert (Hl : (len (drop 2 d) =? 8) = true).
    { apply Z.eqb_eq. unfold len in *. rewrite length_drop. lia. }
    destruct (drop 2 d) as [| c r] eqn:Ed.
    - discriminate Hl.
    - rewrite Hl. cbn [andb].
      destruct (existsb (N.eqb c) [54; 55; 56; 57]%N); [reflexivity |].
      rewrite <- Ed, take_drop. reflexivity. }
  destruct (len d =? 11) eqn:E11.
  { rewrite take_drop. destruct (drop 2 d); reflexivity. }
  destruct (drop 2 d); reflexivity.
Qed.

Lemma national_digits_all_digits (phone : str) :
  all_digits (national_digits phone).
Proof.
  unfold national_digits. destruct (startswith _ _).
  - apply all_digits_drop, digits_of_all_digits.
  - apply digits_of_all_digits.
Qed.

Lemma with_ninth_digit_all_digits (d : str) :
  all_digits d -> all_digits (with_ninth_digit d).
Proof.
  intros H. unfold with_ninth_digit.
  destruct (drop 2 d) as [| c r] eqn:E; [exact H |].
  destruct (_ && _); [| exact H].
  apply all_digits_app. split; [apply all_digits_take, H |].
  apply all_digits_app. split; [reflexivity |].
  rewrite <- E. apply all_digits_drop, H.
Qed.

(** Once the ninth digit is there, or when none is due, the step changes
    nothing more. *)
Lemma with_ninth_digit_idempotent (d : str) :
  with_ninth_digit (with_ninth_digit d) = with_ninth_digit d.
Proof.
  destruct (drop 2 d) as [| c r] eqn:E.
  { assert (with_ninth_digit d = d) as ->
      by (unfold with_ninth_digit; rewrite E; reflexivity).
    unfold with_ninth_digit. rewrite E. reflexivity. }
  destruct ((len d =? 10) && existsb (N.eqb c) [54; 55; 56; 57]%N) eqn:Hc.
  - assert (with_ninth_digit d = take 2 d ++ py "9" ++ c :: r) as ->
      by (unfold with_ninth_digit; rewrite E, Hc; reflexivity).
    apply andb_true_iff in Hc. destruct Hc as [Hl _]. apply Z.eqb_eq in Hl.
    assert (Hlen : len (take 2 d ++ py "9" ++ c :: r) = 11).
    { unfold len in *. rewrite !length_app, length_take, <- E, length_drop.
      change (length (py "9")) with 1%nat. lia. }
    unfold with_ninth_digit.
    destruct (drop 2 (take 2 d ++ py "9" ++ c :: r)); [reflexivity |].
    rewrite Hlen. reflexivity.
  - assert (with_ninth_digit d = d) as ->
      by (unfold with_ninth_digit; rewrite E, Hc; reflexivity).
    unfold with_ninth_digit. rewrite E, Hc. reflexivity.
Qed.

(** X1. The address [_format_brazilian_phone] builds is empty for the
    empty string and otherwise the country code 55 followed by digits:
    nothing but digits ever comes out. *)
Theorem format_brazilian_phone_digits (phone : str) :
  all_digits (_format_brazilian_phone phone) /\
  (_format_brazilian_phone phone = [] <-> phone = []) /\
  (phone <> [] ->
   _format_brazilian_phone phone
   = py "55" ++ drop 2 (_format_brazilian_phone phone)).
Proof.
  rewrite format_brazilian_phone_shape.
  destruct phone as [| c s]; cbn [truthy].
  - split; [reflexivity |]. split; [tauto | congruence].
  - split.
    + apply all_digits_app. split; [reflexivity |].
      apply with_ninth_digit_all_digits, national_digits_all_digits.
    + split; [split; discriminate | reflexivity].
Qed.

Lemma format_brazilian_phone_digits_witness :
  _format_brazilian_phone (py "(11) 98765-4321")
  = py "55" ++ drop 2 (_format_brazilian_phone (py "(11) 98765-4321")).
Proof.
  apply (format_brazilian_phone_digits (py "(11) 98765-4321")).
  vm_compute. discriminate.
Defined.

(** X2. Formatting is idempotent: an address that
    [_format_brazilian_phone] has built is left as it is when it is
    formatted again. *)
Theorem format_brazilian_phone_idempotent (phone : str) :
  _format_brazilian_phone (_format_brazilian_phone phone)
  = _format_brazilian_phone phone.
Proof.
  rewrite (format_brazilian_phone_shape phone).
  destruct (truthy phone); [| reflexivity].
  set (y := with_ninth_digit (national_digits phone)).
  assert (Hy : all_digits y)
    by apply with_ninth_digit_all_digits, national_digits_all_digits.
  rewrite format_brazilian_phone_shape. cbn [truthy app py].
  change (truthy (py "55" ++ y)) with true. cbv iota.
  assert (Hn : national_digits (py "55" ++ y) = y).
  { unfold national_digits. rewrite digits_of_id.
    - rewrite startswith_app. reflexivity.
    - apply all_digits_app. split; [reflexivity | exact Hy]. }
  rewrite Hn. unfold y. rewrite with_ninth_digit_idempotent. reflexivity.
Qed.

Lemma two_digit_prefix (ddd x p : str) :
  length ddd = 2%nat -> length p = 2%nat ->
  startswith p (ddd ++ x) = true -> ddd = p.
Proof.
  intros Hd Hp H. apply startswith_split in H.
  rewrite Hp, drop_app_length' in H by (symmetry; exact Hd).
  apply app_inv_tail in H. exact H.
Qed.

(** X3. A mobile number given with ten digits (area code and an
    eight-digit number that begins with 6, 7, 8 or 9) and the same number
    given with its ninth digit are formatted to one and the same address:
    55, the area code, 9 and the eight digits. *)
Theorem format_brazilian_phone_ninth_digit (ddd c r : str) :
  all_digits ddd -> all_digits (c ++ r) ->
  length ddd = 2%nat -> length c = 1%nat -> length r = 7%nat ->
  ddd <> py "55" ->
  c = py "6" \/ c = py "7" \/ c = py "8" \/ c = py "9" ->
  _format_brazilian_phone (ddd ++ c ++ r) = py "55" ++ ddd ++ py "9" ++ c ++ r /\
  _format_brazilian_phone (ddd ++ py "9" ++ c ++ r)
  = py "55" ++ ddd ++ py "9" ++ c ++ r.
Proof.
  intros Hddd Hn Hl2 Hl1 Hl7 H55 Hc.
  assert (Hnat : forall x, all_digits x ->
            national_digits (ddd ++ x) = ddd ++ x).
  { intros x Hx. unfold national_digits.
    rewrite digits_of_id by (apply all_digits_app; split; assumption).
    destruct (startswith (py "55") (ddd ++ x)) eqn:E; [| reflexivity].
    exfalso. apply H55. exact (two_digit_prefix ddd x (py "55") Hl2 eq_refl E). }
  assert (Htr : forall x, truthy (ddd ++ x) = true).
  { intros x. destruct ddd; [discriminate | reflexivity]. }
  destruct c as [| c0 [| ? ?]]; try discriminate. clear Hl1.
  split.
  - rewrite format_brazilian_phone_shape, Htr, (Hnat _ Hn).
    unfold with_ninth_digit.
    rewrite drop_app_length' by (symmetry; exact Hl2). rewrite take_app_length' by (symmetry; exact Hl2).
    cbn [app].
    assert (Hlen : (len (ddd ++ c0 :: r) =? 10) = true).
    { apply Z.eqb_eq. unfold len. rewrite length_app. simpl. lia. }
    rewrite Hlen.
    assert (He : existsb (N.eqb c0) [54; 55; 56; 57]%N = true).
    { destruct Hc as [H | [H | [H | H]]]; injection H as ->; reflexivity. }
    rewrite He. reflexivity.
  - assert (H9 : all_digits (py "9" ++ [c0] ++ r))
      by (apply all_digits_app; split; [reflexivity | exact Hn]).
    rewrite format_brazilian_phone_shape, Htr, (Hnat _ H9).
    unfold with_ninth_digit.
    rewrite drop_app_length' by (symmetry; exact Hl2).
    assert (Hlen : (len (ddd ++ py "9" ++ [c0] ++ r) =? 10) = false).
    { apply Z.eqb_neq. unfold len. rewrite !length_app. simpl. lia. }
    rewrite Hlen. reflexivity.
Qed.

Lemma format_brazilian_phone_ninth_digit_witness :
  _format_brazilian_phone (py "11" ++ py "8" ++ py "7654321")
  = py "55" ++ py "11" ++ py "9" ++ py "8" ++ py "7654321".
Proof.
  apply (format_brazilian_phone_ninth_digit (py "11") (py "8") (py "7654321"));
    try reflexivity.
  - vm_compute. discriminate.
  - right. right. left. reflexivity.
Defined.

(** X4. Digits that begin with 55 are taken to carry the country code
    already: unless exactly ten digits follow, the address is those
    digits and nothing is put in front. An eleven-digit national number
    of area code 55 therefore goes out without a country code. *)
Theorem format_brazilian_phone_leading_55 (phone : str) :
  startswith (py "55") (digits_of phone) = true ->
  len (digits_of phone) <> 12 ->
  _format_brazilian_phone phone = digits_of phone.
Proof.
  intros H55 Hlen.
  assert (Ht : truthy phone = true).
  { destruct phone; [discriminate H55 | reflexivity]. }
  rewrite format_brazilian_phone_shape, Ht.
  unfold national_digits. rewrite H55.
  pose proof (startswith_split _ _ H55) as Hs.
  change (length (py "55")) with 2%nat in Hs.
  assert (Hl : (len (drop 2 (digits_of phone)) =? 10) = false).
  { apply Z.eqb_neq. unfold len in *. rewrite length_drop.
    assert (2 <= length (digits_of phone))%nat.
    { rewrite Hs, length_app. simpl. lia. }
    lia. }
  unfold with_ninth_digit. rewrite Hl. cbn [andb].
  destruct (drop 2 (drop 2 (digits_of phone))); symmetry; exact Hs.
Qed.

Lemma format_brazilian_phone_leading_55_witness :
  _format_brazilian_phone (py "55999998888") = digits_of (py "55999998888").
Proof.
  apply format_brazilian_phone_leading_55.
  - reflexivity.
  - vm_compute. discriminate.
Defined.

Lemma isdigit_not_at (c : N) : isdigit c = true -> c <> 64%N.
Proof. intros H ->. discriminate H. Qed.

Lemma replace_go_digits (o new d t : str) :
  all_digits d ->
  replace_go (64%N :: o) new 0 (d ++ t) = d ++ replace_go (64%N :: o) new 0 t.
Proof.
  unfold all_digits. induction d as [| c d IH]; intros H; [reflexivity |].
  simpl in H. apply andb_true_iff in H as [Hc Hd].
  cbn [app replace_go startswith].
  assert ((64 =? c)%N = false) as ->.
  { apply N.eqb_neq. intros E. apply (isdigit_not_at c Hc). congruence. }
  cbn [andb]. rewrite IH by exact Hd. reflexivity.
Qed.

Lemma replace_digits (o new d : str) :
  all_digits d -> replace (64%N :: o) new d = d.
Proof.
  intros H. unfold replace.
  rewrite <- (app_nil_r d) at 1. rewrite replace_go_digits by exact H.
  simpl. apply app_nil_r.
Qed.

Lemma clean_sender_digits (d : str) : all_digits d -> clean_sender d = d.
Proof.
  intros H. unfold clean_sender.
  change whatsapp_suffix with (64%N :: py "s.whatsapp.net").
  change group_suffix with (64%N :: py "g.us").
  rewrite (replace_digits (py "s.whatsapp.net")) by exact H.
  apply replace_digits. exact H.
Qed.

(** X5. The address the orchestrator computes is what the messaging
    client sends to: formatting it again for delivery changes no digit
    and only appends the WhatsApp domain. *)
Theorem format_phone_number_after_brazilian (phone : str) :
  _format_phone_number (_format_brazilian_phone phone)
  = _format_brazilian_phone phone ++ whatsapp_suffix.
Proof.
  rewrite format_brazilian_phone_shape.
  destruct (truthy phone); [| reflexivity].
  set (y := with_ninth_digit (national_digits phone)).
  assert (Hy : all_digits (py "55" ++ y)).
  { apply all_digits_app. split; [reflexivity |].
    apply with_ninth_digit_all_digits, national_digits_all_digits. }
  unfold _format_phone_number.
  rewrite digits_of_id by exact Hy.
  fold (clean_sender (py "55" ++ y)).
  rewrite clean_sender_digits by exact Hy.
  rewrite startswith_app. reflexivity.
Qed.

(** X6. The webhook's cleaning of a sender id undoes the client's
    formatting: from a delivery address it recovers exactly the digits,
    for a personal chat as well as for a group, and it leaves a bare
    digit string as it is. *)
Theorem clean_sender_round_trip (d : str) :
  all_digits d ->
  clean_sender (d ++ whatsapp_suffix) = d /\
  clean_sender (d ++ group_suffix) = d /\
  clean_sender d = d /\
  forall phone, clean_sender (_format_phone_number phone) ++ whatsapp_suffix
                = _format_phone_number phone.
Proof.
  intros H.
  assert (Hw : forall x, all_digits x -> clean_sender (x ++ whatsapp_suffix) = x).
  { intros x Hx. unfold clean_sender, replace.
    change whatsapp_suffix with (64%N :: py "s.whatsapp.net") at 1.
    rewrite replace_go_digits by exact Hx.
    change (replace_go (64%N :: py "s.whatsapp.net") [] 0 whatsapp_suffix)
      with (@nil N).
    rewrite app_nil_r. fold (replace group_suffix [] x).
    change group_suffix with (64%N :: py "g.us").
    apply replace_digits. exact Hx. }
  repeat split.
  - apply Hw. exact H.
  - unfold clean_sender, replace.
    change whatsapp_suffix with (64%N :: py "s.whatsapp.net").
    rewrite replace_go_digits by exact H.
    change (replace_go (64%N :: py "s.whatsapp.net") [] 0 group_suffix)
      with group_suffix.
    change group_suffix with (64%N :: py "g.us") at 1 2.
    rewrite replace_go_digits by exact H.
    change (replace_go (64%N :: py "g.us") [] 0 (64%N :: py "g.us"))
      with (@nil N).
    apply app_nil_r.
  - apply clean_sender_digits. exact H.
  - intros phone. unfold _format_phone_number.
    fold (clean_sender (digits_of phone)).
    rewrite (clean_sender_digits (digits_of phone)) by apply digits_of_all_digits.
    set (x := if negb (startswith (py "55") (digits_of phone)) then _ else _).
    assert (Hx : all_digits x).
    { subst x. pose proof (digits_of_all_digits phone) as Hd.
      assert (H55 : all_digits (py "55" ++ digits_of phone))
        by (apply all_digits_app; split; [reflexivity | exact Hd]).
      destruct (negb _); [| exact Hd].
      destruct (_ =? 11); [exact H55 |].
      destruct (_ =? 10); [exact H55 | exact Hd]. }
    rewrite Hw by exact Hx. reflexivity.
Qed.

Lemma clean_sender_round_trip_witness :
  clean_sender (py "5511987654321" ++ whatsapp_suffix) = py "5511987654321".
Proof.
  apply (clean_sender_round_trip (py "5511987654321")). reflexivity.
Defined.

Lemma isspace_not_digit (c : N) : isspace c = true -> isdigit c = false.
Proof.
  unfold isspace. intros H.
  repeat (apply orb_true_iff in H; destruct H as [H | H]);
    repeat match goal with
           | H : (_ && _)%bool = true |- _ => apply andb_true_iff in H; destruct H
           | H : (_ <=? _)%N = true |- _ => apply N.leb_le in H
           | H : (_ =? _)%N = true |- _ => apply N.eqb_eq in H
           end.
  - assert (c = 9 \/ c = 10 \/ c = 11 \/ c = 12 \/ c = 13)%N as E by lia.
    intuition subst; reflexivity.
  - assert (c = 28 \/ c = 29 \/ c = 30 \/ c = 31 \/ c = 32)%N as E by lia.
    intuition subst; reflexivity.
  - subst; reflexivity.
  - subst; reflexivity.
  - subst; reflexivity.
  - assert (c = 8192 \/ c = 8193 \/ c = 8194 \/ c = 8195 \/ c = 8196 \/ c = 8197
            \/ c = 8198 \/ c = 8199 \/ c = 8200 \/ c = 8201 \/ c = 8202)%N as E by lia.
    intuition subst; reflexivity.
  - subst; reflexivity.
  - subst; reflexivity.
  - subst; reflexivity.
  - subst; reflexivity.
  - subst; reflexivity.
Qed.

Lemma digits_of_lstrip (s : str) : digits_of (lstrip s) = digits_of s.
Proof.
  induction s as [| c t IH]; [reflexivity |].
  simpl. destruct (isspace c) eqn:E.
  - rewrite (isspace_not_digit c E). exact IH.
  - reflexivity.
Qed.

Lemma digits_of_rev (s : str) : digits_of (rev s) = rev (digits_of s).
Proof.
  unfold digits_of. induction s as [| c t IH]; [reflexivity |].
  simpl. rewrite List.filter_app, IH. simpl.
  destruct (isdigit c); simpl; [reflexivity | apply app_nil_r].
Qed.

Lemma digits_of_strip (s : str) : digits_of (strip s) = digits_of s.
Proof.
  unfold strip, rstrip.
  rewrite digits_of_rev, digits_of_lstrip, digits_of_rev, rev_involutive.
  apply digits_of_lstrip.
Qed.

Lemma digits_le_strip (s : str) : len (digits_of s) <= len (strip s).
Proof.
  rewrite <- digits_of_strip. unfold len, digits_of.
  apply inj_le. apply List.filter_length_le.
Qed.

(** X7. On the web channel the validator's verdict on a phone answer is
    exactly the phone test: an answer passes if and only if it holds ten
    to thirteen digits, whatever else it contains; the general checks on
    empty and too-short answers never reject such an answer. *)
Theorem validate_phone_is_phone_number (answer : str) (p : Platform) :
  p <> whatsapp ->
  (_validate_answer answer phone_collection p).1 = _is_phone_number answer.
Proof.
  intros Hp. unfold _validate_answer, _is_phone_number.
  pose proof (digits_le_strip answer) as Hle.
  destruct (negb (truthy answer) || (len (strip answer) <? 2)) eqn:E.
  - simpl. symmetry. apply andb_false_iff. left. apply Z.leb_gt.
    apply orb_true_iff in E as [E | E].
    + destruct answer; [vm_compute; reflexivity | discriminate E].
    + apply Z.ltb_lt in E. lia.
  - assert (Hc : forall (b : bool) (x y : bool * str),
              (if b then x else y).1 = if b then x.1 else y.1)
      by (intros []; reflexivity).
    destruct p; [| congruence |]; rewrite Hc; simpl;
      destruct (Z.leb_spec 10 (len (digits_of answer)));
      destruct (Z.leb_spec (len (digits_of answer)) 13);
      destruct (Z.ltb_spec (len (digits_of answer)) 10);
      destruct (Z.ltb_spec 13 (len (digits_of answer)));
      simpl; try reflexivity; lia.
Qed.

Lemma validate_phone_is_phone_number_witness :
  (_validate_answer (py "(11) 98765-4321") phone_collection web).1
  = _is_phone_number (py "(11) 98765-4321").
Proof. apply validate_phone_is_phone_number. discriminate. Defined.

(** ** More rules for computations *)

Lemma carries_pre {S A} (P P' Q : S -> Prop) (m : M S A) :
  (forall st, P st -> P' st) -> carries P' Q m -> carries P Q m.
Proof. intros H Hm st HP. apply Hm, H, HP. Qed.

Lemma carries_post {S A} (P Q Q' : S -> Prop) (m : M S A) :
  carries P Q m -> (forall st, Q st -> Q' st) -> carries P Q' m.
Proof. intros Hm H st HP. apply H, Hm, HP. Qed.

(** The session read from memory is the one the precondition speaks of. *)
Lemma carries_bind_get_mem {A} (P Q : FlowSt -> Prop)
  (k : Session -> M FlowSt A) :
  (forall sd, carries (fun st => P st /\ mem st = sd) Q (k sd)) ->
  carries P Q (bind get_mem k).
Proof. intros H st HP. exact (H (mem st) st (conj HP eq_refl)). Qed.

Lemma on_world_upd (J : World -> Prop) (f : Session -> Session) :
  carries (on_world J) (on_world J) (upd f).
Proof. intros st H. exact H. Qed.

Lemma on_world_lift {A} (J J' : World -> Prop) (m : M World A) :
  carries J J' m -> carries (on_world J) (on_world J') (lift m).
Proof.
  intros H st HJ. unfold lift. specialize (H (world st) HJ).
  destruct (m (world st)) as [r w']. exact H.
Qed.

Lemma on_world_save_mem (J : World -> Prop) (sid : str) :
  (forall sd, carries J J (save_user_session sid sd)) ->
  carries (on_world J) (on_world J) (save_mem sid).
Proof.
  intros H st HJ. unfold save_mem, bind, get_mem.
  exact (on_world_lift J J _ (H (mem st)) st HJ).
Qed.

Lemma on_world_with_session {A} (J J' : World -> Prop) (sd : Session)
  (m : M FlowSt A) :
  carries (on_world J) (on_world J') m -> carries J J' (with_session sd m).
Proof.
  intros H. apply carries_with_session. intros st [_ HJ]. exact (H st HJ).
Qed.

Lemma on_mem_lift {A} (J : Session -> Prop) (m : M World A) :
  carries (on_mem J) (on_mem J) (lift m).
Proof.
  intros st H. unfold lift. destruct (m (world st)) as [r w']. exact H.
Qed.

Lemma on_mem_save_mem (J : Session -> Prop) (sid : str) :
  carries (on_mem J) (on_mem J) (save_mem sid).
Proof.
  intros st H. unfold save_mem, bind, get_mem.
  exact (on_mem_lift J _ st H).
Qed.

Lemma on_mem_upd (J J' : Session -> Prop) (f : Session -> Session) :
  (forall sd, J sd -> J' (f sd)) -> carries (on_mem J) (on_mem J') (upd f).
Proof. intros H st HJ. exact (H (mem st) HJ). Qed.

(** ** Effects of one call *)

Lemma grown_by_refl {A} (n : nat) (l : list A) : grown_by n l l.
Proof. exists []. split; [symmetry; apply app_nil_r | simpl; lia]. Qed.

Lemma grown_by_mono {A} (n n' : nat) (l0 l : list A) :
  (n <= n')%nat -> grown_by n l0 l -> grown_by n' l0 l.
Proof. intros Hn (ext & E & Hl). exists ext. split; [exact E | lia]. Qed.

Lemma grown_by_snoc {A} (l0 l : list A) (x : A) :
  grown_by 0 l0 l -> grown_by 1 l0 (l ++ [x]).
Proof.
  intros (ext & E & Hl). destruct ext; [| simpl in Hl; lia].
  rewrite app_nil_r in E. subst l. exists [x]. split; [reflexivity | simpl; lia].
Qed.

Lemma grown_by_zero {A} (l0 l : list A) : grown_by 0 l0 l <-> l = l0.
Proof.
  split.
  - intros (ext & E & Hl). destruct ext; [| simpl in Hl; lia].
    rewrite app_nil_r in E. exact E.
  - intros ->. apply grown_by_refl.
Qed.

Lemma effects_within_refl (a b c : nat) (w : World) : effects_within a b c w w.
Proof. repeat split; apply grown_by_refl. Qed.

Lemma effects_within_mono (a b c a' b' c' : nat) (w0 : World) :
  (a <= a')%nat -> (b <= b')%nat -> (c <= c')%nat ->
  forall st, on_world (effects_within a b c w0) st ->
             on_world (effects_within a' b' c' w0) st.
Proof.
  intros Ha Hb Hc st (H1 & H2 & H3).
  repeat split; eapply grown_by_mono; eassumption.
Qed.

Lemma effects_within_same (a b c : nat) (w0 w w' : World) :
  dispatched w' = dispatched w -> outbox w' = outbox w -> leads w' = leads w ->
  effects_within a b c w0 w -> effects_within a b c w0 w'.
Proof.
  intros E1 E2 E3 (H1 & H2 & H3). unfold effects_within.
  rewrite E1, E2, E3. auto.
Qed.

Lemma within_get (a b c : nat) (w0 : World) (sid : str) :
  carries (effects_within a b c w0) (effects_within a b c w0)
    (get_user_session sid).
Proof.
  intros w H. destruct (get_user_session_frame sid w) as (_ & E1 & E2 & E3).
  exact (effects_within_same _ _ _ _ _ _ E1 E2 E3 H).
Qed.

Lemma within_save (a b c : nat) (w0 : World) (sid : str) (sd : Session) :
  carries (effects_within a b c w0) (effects_within a b c w0)
    (save_user_session sid sd).
Proof.
  intros w H. destruct (save_user_session_frame sid sd w) as (_ & E1 & E2 & E3).
  exact (effects_within_same _ _ _ _ _ _ E1 E2 E3 H).
Qed.

Lemma within_notify (b c : nat) (w0 : World) (call : DispatchCall) :
  carries (effects_within 0 b c w0) (effects_within 1 b c w0)
    (notify_lawyers_of_new_lead call).
Proof.
  intros w (H1 & H2 & H3).
  destruct (notify_frame call w) as (_ & E1 & E2 & E3).
  unfold effects_within. rewrite E1, E2, E3.
  auto using grown_by_snoc.
Qed.

Lemma within_send (a c : nat) (w0 : World) (address text : str) :
  carries (effects_within a 0 c w0) (effects_within a 1 c w0)
    (send_text_message address text).
Proof.
  intros w (H1 & H2 & H3).
  destruct (send_text_message_frame address text w) as (_ & E1 & E2 & E3).
  unfold effects_within. rewrite E1, E2, E3.
  auto using grown_by_snoc.
Qed.

Lemma within_lead (a b : nat) (w0 : World) (l : list Answer) :
  carries (effects_within a b 0 w0) (effects_within a b 1 w0)
    (save_lead_data l).
Proof.
  intros w (H1 & H2 & H3).
  destruct (save_lead_data_frame l w) as (_ & E1 & E2 & [E3 | E3]);
    unfold effects_within; rewrite E1, E2, E3; repeat split; try assumption.
  - apply (grown_by_mono 0 1); [lia | exact H3].
  - apply grown_by_snoc, H3.
Qed.

Ltac eff_mono := solve [apply effects_within_mono; lia].

Ltac eff_bind w0 a b c a' b' c' Q :=
  apply (carries_bind (on_world (effects_within a b c w0))
           (on_world (effects_within a' b' c' w0)) Q).

Ltac eff_step :=
  match goal with
  | |- carries (on_world (effects_within ?a ?b ?c ?w0)) ?Q (bind _ _) =>
      first
        [ eff_bind w0 a b c a b c Q;
          [ solve [repeat eff_step] | eff_mono | intros ? ]
        | eff_bind w0 a b c 1%nat b c Q;
          [ solve [repeat eff_step] | eff_mono | intros ? ]
        | eff_bind w0 a b c a b 1%nat Q;
          [ solve [repeat eff_step] | eff_mono | intros ? ]
        | eff_bind w0 a b c a 1%nat c Q;
          [ solve [repeat eff_step] | eff_mono | intros ? ]
        | eff_bind w0 a b c 1%nat 1%nat 1%nat Q;
          [ solve [repeat eff_step] | eff_mono | intros ? ] ]
  | |- carries ?P ?Q (try_catch _ _) =>
      apply (carries_try P Q Q); [ | auto | intros ? ]
  | |- carries _ _ (ret _) => apply carries_ret; eff_mono
  | |- carries _ _ (raise _) => apply carries_raise; eff_mono
  | |- carries _ _ get_mem => apply carries_get_mem; eff_mono
  | |- carries _ _ (upd _) =>
      eapply carries_post; [apply on_world_upd | eff_mono]
  | |- carries _ _ (save_mem _) =>
      eapply carries_post;
      [apply on_world_save_mem; intros ?; apply within_save | eff_mono]
  | |- carries _ _ (lift (notify_lawyers_of_new_lead _)) =>
      eapply carries_post; [apply on_world_lift, within_notify | eff_mono]
  | |- carries _ _ (lift (save_lead_data _)) =>
      eapply carries_post; [apply on_world_lift, within_lead | eff_mono]
  | |- carries _ _ (lift (send_text_message _ _)) =>
      eapply carries_post; [apply on_world_lift, within_send | eff_mono]
  | |- carries _ _ (first_name_of _ _) => unfold first_name_of
  | |- carries _ _ (question_of _ _) => unfold question_of
  | |- carries _ _ (_get_strategic_whatsapp_message _ _ _) =>
      unfold _get_strategic_whatsapp_message
  | |- carries _ _ (let _ := _ in _) => cbv zeta
  | |- carries _ _ (if ?b then _ else _) => destruct b
  | |- carries _ _ (match ?x with _ => _ end) => destruct x
  end.

Lemma finalization_within (w0 : World) (sid : str) (clk : Clock) :
  carries (on_world (effects_within 0 0 0 w0))
    (on_world (effects_within 1 1 1 w0)) (_handle_lead_finalization sid clk).
Proof. unfold _handle_lead_finalization. repeat eff_step. Qed.

Ltac eff_flow_step :=
  match goal with
  | |- carries _ _ (_handle_lead_finalization _ _) =>
      eapply carries_post; [apply finalization_within | eff_mono]
  | _ => eff_step
  end.

Lemma flow_within (w0 : World) (message : str) (clk : Clock) :
  carries (on_world (effects_within 0 0 0 w0))
    (on_world (effects_within 1 1 1 w0))
    (_process_conversation_flow message clk).
Proof. unfold _process_conversation_flow. repeat eff_flow_step. Qed.

Lemma get_or_create_within (a b c : nat) (w0 : World) sid p phone clk :
  carries (effects_within a b c w0) (effects_within a b c w0)
    (_get_or_create_session sid p phone clk).
Proof.
  set (J := effects_within a b c w0).
  assert (Hsave : forall sd (x : Session),
            carries J J (bind (save_user_session sid sd) (fun _ => ret x))).
  { intros sd x. apply (carries_bind J J J); [apply within_save | auto |].
    intros _. apply carries_ret. auto. }
  unfold _get_or_create_session.
  apply (carries_bind J J J); [apply within_get | auto | intros [sd |]].
  - cbv zeta. destruct (_ || _); [apply Hsave | apply carries_ret; auto].
  - apply Hsave.
Qed.

Lemma authorization_check_within (a b c : nat) (w0 : World) sid p :
  carries (on_world (effects_within a b c w0))
    (on_world (effects_within a b c w0)) (whatsapp_authorization_check sid p).
Proof.
  set (J := on_world (effects_within a b c w0)).
  assert (Hsave : carries J J (save_mem sid)).
  { apply on_world_save_mem. intros sd. apply within_save. }
  unfold whatsapp_authorization_check.
  destruct p; try (apply carries_ret; auto).
  apply (carries_bind J J J); [apply carries_get_mem; auto | auto | intros sd].
  cbv zeta. destruct (_ && _); [apply carries_ret; auto |].
  apply (carries_bind J J J); [| auto | intros _; apply carries_ret; auto].
  destruct (_ && _); [| apply carries_ret; auto].
  apply (carries_bind J J J); [apply on_world_upd | auto | intros _; exact Hsave].
Qed.

Lemma process_session_within (w0 : World) message sid phone p clk :
  carries (on_world (effects_within 0 0 0 w0))
    (on_world (effects_within 1 1 1 w0))
    (process_session message sid phone p clk).
Proof.
  set (J0 := on_world (effects_within 0 0 0 w0)).
  set (J1 := on_world (effects_within 1 1 1 w0)).
  assert (H01 : forall st, J0 st -> J1 st)
    by (apply effects_within_mono; lia).
  unfold process_session.
  apply (carries_bind J0 J0 J1);
    [apply authorization_check_within | exact H01 | intros blocked].
  destruct blocked; [apply carries_ret; exact H01 |].
  apply (carries_bind J0 J0 J1); [apply on_world_upd | exact H01 | intros _].
  apply (carries_bind J0 J1 J1); [apply flow_within | auto | intros resp].
  apply (carries_bind J1 J1 J1); [apply on_world_upd | auto | intros _].
  apply (carries_bind J1 J1 J1);
    [apply on_world_save_mem; intros sd; apply within_save | auto | intros _].
  apply (carries_bind J1 J1 J1);
    [apply carries_get_mem; auto | auto | intros sd; apply carries_ret; auto].
Qed.

(** X8. One inbound message, whatever it says and whatever the
    collaborators do, makes the orchestrator invoke the notification
    dispatcher at most once, send at most one outbound message and store
    at most one lead record; what those three logs held before is kept. *)
Theorem process_message_effects (message sid : str) (phone : option str)
  (p : Platform) (clk : Clock) (w : World) :
  effects_within 1 1 1 w (process_message message sid phone p clk w).2.
Proof.
  set (J0 := effects_within 0 0 0 w).
  set (J1 := effects_within 1 1 1 w).
  assert (H01 : forall w', J0 w' -> J1 w').
  { intros w' H. exact (effects_within_mono 0 0 0 1 1 1 w ltac:(lia) ltac:(lia)
                          ltac:(lia) (mkFlowSt (new_session [] web clk) w') H). }
  assert (H : carries J0 J1 (process_message message sid phone p clk)).
  { unfold process_message.
    apply (carries_try J0 J1 J1); [| auto | intros e; apply carries_ret; auto].
    destruct (_ || _); [apply carries_ret; exact H01 |].
    apply (carries_bind J0 J0 J1);
      [apply get_or_create_within | exact H01 | intros sd].
    apply on_world_with_session, process_session_within. }
  apply H. apply effects_within_refl.
Qed.

(** X9. Only an accepted answer to the confirmation question has effects
    outside the session store: on any other message, and whatever the
    collaborators do, the conversation flow invokes no dispatcher, sends
    nothing and stores no lead. *)
Theorem flow_effects_only_on_confirmation (message : str) (clk : Clock)
  (st : FlowSt) :
  confirms message (mem st) = false ->
  let w' := world (_process_conversation_flow message clk st).2 in
  dispatched w' = dispatched (world st) /\ outbox w' = outbox (world st) /\
  leads w' = leads (world st).
Proof.
  intros Hc w'.
  set (J := on_world (effects_within 0 0 0 (world st))).
  assert (HJ : forall x, J x -> J x) by auto.
  assert (H : carries (fun x => J x /\ confirms message (mem x) = false) J
                (_process_conversation_flow message clk)).
  { unfold _process_conversation_flow.
    apply (carries_try _ J J); [| auto | intros e; apply carries_ret; auto].
    apply carries_bind_get_mem. intros sd.
    destruct (confirms message sd) eqn:Hsd.
    { intros x [[_ Hx] <-]. congruence. }
    apply (carries_pre _ J); [intros x [[Hx _] _]; exact Hx |].
    unfold confirms in Hsd. subst J.
    destruct sd as [sid0 p0 f3 step ld f6 f7 f8 f9 f10 first f12 ended f14 f15 f16 f17 f18 f19 f20 f21].
    cbn [current_step first_interaction session_ended platform session_id
         lead_data] in *.
    destruct ended; [cbv beta iota zeta; repeat eff_step |].
    destruct first; [cbv beta iota zeta; repeat eff_step |].
    destruct step; unfold _get_flow_steps;
      cbv beta iota zeta delta [next_step field question];
      try solve [repeat eff_step].
    rewrite !(bool_decide_eq_false_2 (step5_confirmation = _)) by discriminate.
    rewrite (bool_decide_eq_true_2 (step5_confirmation = step5_confirmation))
      in Hsd by reflexivity.
    cbn [negb andb] in Hsd.
    destruct (_validate_answer message step5_confirmation p0) as [v err].
    cbn [fst] in Hsd. subst v. cbn [negb]. repeat eff_step. }
  specialize (H st (conj (effects_within_refl 0 0 0 (world st)) Hc)).
  destruct H as (H1 & H2 & H3).
  apply grown_by_zero in H1, H2, H3. auto.
Qed.

Lemma flow_effects_only_on_confirmation_witness :
  dispatched
    (world (_process_conversation_flow (py "Direito Penal") clock0
              (mkFlowSt session_short_area empty_world)).2)
  = dispatched empty_world.
Proof.
  apply (flow_effects_only_on_confirmation (py "Direito Penal") clock0
           (mkFlowSt session_short_area empty_world)).
  reflexivity.
Defined.

(** ** The step table *)

(** The state the computation starts in is known when memory is read. *)
Lemma carries_bind_get_mem_at {A} (P Q : FlowSt -> Prop)
  (k : Session -> M FlowSt A) :
  (forall st0, P st0 -> carries (fun st => st = st0) Q (k (mem st0))) ->
  carries P Q (bind get_mem k).
Proof. intros H st HP. exact (H st HP st eq_refl). Qed.

Lemma at_steps_incl (L L' : list Step) :
  incl L L' -> forall st, at_steps L st -> at_steps L' st.
Proof. intros H st Hst. exact (H _ Hst). Qed.

Lemma at_steps_upd (L L' : list Step) (f : Session -> Session) :
  (forall sd, In (current_step sd) L -> In (current_step (f sd)) L') ->
  carries (at_steps L) (at_steps L') (upd f).
Proof. intros H. apply on_mem_upd. exact H. Qed.

Ltac steps_incl :=
  solve [ auto
        | apply at_steps_incl; intros ? ?; simpl in *; tauto ].

Ltac steps_upd :=
  apply at_steps_upd; intros [] ?; simpl in *;
  repeat match goal with
         | |- context [match ?x with _ => _ end] => destruct x; simpl
         end;
  solve [assumption | tauto].

Ltac steps_step :=
  match goal with
  | |- carries (at_steps ?L) (at_steps ?L') (bind _ _) =>
      first
        [ apply (carries_bind (at_steps L) (at_steps L) (at_steps L'));
          [ solve [repeat steps_step] | steps_incl | intros ? ]
        | apply (carries_bind (at_steps L) (at_steps L') (at_steps L'));
          [ solve [repeat steps_step] | steps_incl | intros ? ] ]
  | |- carries ?P ?Q (try_catch _ _) =>
      apply (carries_try P Q Q); [ | auto | intros ? ]
  | |- carries _ _ (ret _) => apply carries_ret; steps_incl
  | |- carries _ _ (raise _) => apply carries_raise; steps_incl
  | |- carries _ _ get_mem => apply carries_get_mem; steps_incl
  | |- carries _ _ (save_mem _) =>
      eapply carries_post; [apply on_mem_save_mem | steps_incl]
  | |- carries _ _ (lift _) =>
      eapply carries_post; [apply on_mem_lift | steps_incl]
  | |- carries _ _ (upd _) => steps_upd
  | |- carries _ _ (first_name_of _ _) => unfold first_name_of
  | |- carries _ _ (question_of _ _) => unfold question_of
  | |- carries _ _ (_get_strategic_whatsapp_message _ _ _) =>
      unfold _get_strategic_whatsapp_message
  | |- carries _ _ (let _ := _ in _) => cbv zeta
  | |- carries _ _ (if ?b then _ else _) => destruct b
  | |- carries _ _ (match ?x with _ => _ end) => destruct x
  end.

(** Finalization leaves [current_step] alone. *)
Lemma finalization_keeps_step (L : list Step) (sid : str) (clk : Clock) :
  carries (at_steps L) (at_steps L) (_handle_lead_finalization sid clk).
Proof. unfold _handle_lead_finalization. repeat steps_step. Qed.

Ltac decide_steps :=
  repeat match goal with
         | |- context [bool_decide (?x = ?y)] =>
             first [ rewrite (bool_decide_eq_true_2 (x = y)) by reflexivity
                   | rewrite (bool_decide_eq_false_2 (x = y)) by discriminate ]
         end;
  cbv beta iota zeta.

Ltac table_step :=
  match goal with
  | |- carries _ _ (_handle_lead_finalization _ _) =>
      eapply carries_post; [apply finalization_keeps_step | steps_incl]
  | _ => steps_step
  end.

Lemma flow_steps_from (message : str) (clk : Clock) (sd : Session) :
  carries (fun st => mem st = sd) (at_steps (step_after sd))
    (_process_conversation_flow message clk).
Proof.
  unfold _process_conversation_flow.
  apply (carries_try _ (at_steps (step_after sd)) (at_steps (step_after sd)));
    [| auto | intros e; apply carries_ret; auto].
  apply carries_bind_get_mem_at. intros st0 <-.
  apply (carries_pre _ (at_steps [current_step (mem st0)]));
    [intros st ->; left; reflexivity |].
  destruct st0 as [sd w0]. cbn [mem].
  destruct sd as [sid0 p0 f3 step ld f6 f7 f8 f9 f10 first f12 ended f14
                    f15 f16 f17 f18 f19 f20 f21].
  unfold step_after.
  cbn [current_step first_interaction session_ended platform session_id
       lead_data].
  destruct ended; [cbv beta iota zeta; repeat table_step |].
  destruct first; [cbv beta iota zeta; repeat table_step |].
  destruct step; decide_steps; unfold _get_flow_steps;
    cbv beta iota zeta delta [next_step field question];
    repeat table_step.
Qed.

(** X10. One call of the conversation flow never skips a row of the step
    table, whatever the message and whatever the collaborators do: an
    ended session stays where it is, a first interaction leads to the name
    question, and otherwise the session stays at its step or moves to the
    one the table names next; a completed session is not moved. *)
Theorem flow_follows_step_table (message : str) (clk : Clock) (st : FlowSt) :
  In (current_step (mem (_process_conversation_flow message clk st).2))
     (step_after (mem st)).
Proof. exact (flow_steps_from message clk (mem st) st eq_refl). Qed.

(** ** Worlds in which the collaborators respond *)

Lemma next_outcome_responding (w : World) :
  responding w -> next_outcome w = (Val Ok, w).
Proof. unfold responding, next_outcome. intros ->. reflexivity. Qed.

Lemma get_user_session_ok (sid : str) (w : World) :
  responding w -> get_user_session sid w = (Val (store w !! sid), w).
Proof.
  intros H. unfold get_user_session, bind.
  rewrite (next_outcome_responding w H). reflexivity.
Qed.

Lemma notify_ok (c : DispatchCall) (w : World) :
  responding w ->
  notify_lawyers_of_new_lead c w
  = (Val true, set_dispatched (dispatched w ++ [c]) w).
Proof.
  intros H. unfold notify_lawyers_of_new_lead, bind, modify.
  rewrite next_outcome_responding by exact H. reflexivity.
Qed.

Lemma send_text_message_ok (a t : str) (w : World) :
  responding w ->
  send_text_message a t w
  = (Val true, set_outbox (outbox w ++ [(_format_phone_number a, t)]) w).
Proof.
  unfold responding. intros H.
  unfold send_text_message, try_catch, bind, modify, next_outcome.
  cbn. rewrite H. reflexivity.
Qed.

Lemma save_lead_data_ok (l : list Answer) (w : World) :
  responding w ->
  save_lead_data l w = (Val tt, set_leads (leads w ++ [l]) w).
Proof.
  intros H. unfold save_lead_data, bind.
  rewrite next_outcome_responding by exact H. reflexivity.
Qed.

Lemma responding_get sid : carries responding responding (get_user_session sid).
Proof. intros w H. rewrite get_user_session_ok by exact H. exact H. Qed.

Lemma responding_save sid sd :
  carries responding responding (save_user_session sid sd).
Proof. intros w H. rewrite save_user_session_ok by exact H. exact H. Qed.

Lemma responding_notify c :
  carries responding responding (notify_lawyers_of_new_lead c).
Proof. intros w H. rewrite notify_ok by exact H. exact H. Qed.

Lemma responding_send a t :
  carries responding responding (send_text_message a t).
Proof. intros w H. rewrite send_text_message_ok by exact H. exact H. Qed.

Lemma responding_lead l : carries responding responding (save_lead_data l).
Proof. intros w H. rewrite save_lead_data_ok by exact H. exact H. Qed.

Ltac responding_step :=
  match goal with
  | |- carries ?P ?P (bind _ _) =>
      apply (carries_bind P P P); [ | auto | intros ? ]
  | |- carries ?P ?P (try_catch _ _) =>
      apply (carries_try P P P); [ | auto | intros ? ]
  | |- carries _ _ (ret _) => apply carries_ret; auto
  | |- carries _ _ (raise _) => apply carries_raise; auto
  | |- carries _ _ get_mem => apply carries_get_mem; auto
  | |- carries _ _ (upd _) => apply on_world_upd
  | |- carries _ _ (save_mem _) =>
      apply on_world_save_mem; intros ?; apply responding_save
  | |- carries _ _ (lift (notify_lawyers_of_new_lead _)) =>
      apply on_world_lift, responding_notify
  | |- carries _ _ (lift (save_lead_data _)) =>
      apply on_world_lift, responding_lead
  | |- carries _ _ (lift (send_text_message _ _)) =>
      apply on_world_lift, responding_send
  | |- carries _ _ (first_name_of _ _) => unfold first_name_of
  | |- carries _ _ (question_of _ _) => unfold question_of
  | |- carries _ _ (_get_strategic_whatsapp_message _ _ _) =>
      unfold _get_strategic_whatsapp_message
  | |- carries _ _ (let _ := _ in _) => cbv zeta
  | |- carries _ _ (if ?b then _ else _) => destruct b
  | |- carries _ _ (match ?x with _ => _ end) => destruct x
  end.

Lemma finalization_responding sid clk :
  carries (on_world responding) (on_world responding)
    (_handle_lead_finalization sid clk).
Proof. unfold _handle_lead_finalization. repeat responding_step. Qed.

Lemma flow_responding message clk :
  carries (on_world responding) (on_world responding)
    (_process_conversation_flow message clk).
Proof.
  unfold _process_conversation_flow.
  repeat first [apply finalization_responding | responding_step].
Qed.

(** The flow handles every exception itself. *)
Lemma flow_returns message clk st :
  exists resp st', _process_conversation_flow message clk st = (Val resp, st').
Proof.
  unfold _process_conversation_flow, try_catch.
  match goal with
  | |- context [match ?m st with _ => _ end] => destruct (m st) as [[r | e] st1]
  end; eauto.
Qed.

(** The authorization check when the store responds. *)
Lemma authorization_check_ok sid p st :
  responding (world st) ->
  exists blocked st',
    whatsapp_authorization_check sid p st = (Val blocked, st') /\
    responding (world st') /\
    (blocked = true -> st' = st) /\
    (blocked = true ->
     p = whatsapp /\ whatsapp_authorized (mem st) = false /\
     lead_data (mem st) = ∅) /\
    ((p = whatsapp -> whatsapp_authorized (mem st) = true) ->
     blocked = false /\ st' = st).
Proof.
  intros Hr. unfold whatsapp_authorization_check.
  destruct p;
    try (exists false, st; split; [reflexivity |]; split; [exact Hr |];
         split; [discriminate |]; split; [discriminate |]; auto).
  unfold bind at 1, get_mem.
  destruct (whatsapp_authorized (mem st)) eqn:Ha; cbn [negb andb].
  - rewrite andb_false_r. exists false, st. unfold bind, ret.
    split; [reflexivity |]. split; [exact Hr |].
    split; [discriminate |]. split; [discriminate |]. auto.
  - destruct (bool_decide (lead_data (mem st) = ∅)) eqn:Hl.
    + apply bool_decide_eq_true_1 in Hl. exists true, st.
      split; [reflexivity |]. split; [exact Hr |].
      split; [reflexivity |]. split; [auto |].
      intros Hp. specialize (Hp eq_refl). discriminate.
    + cbn [negb andb]. unfold bind at 1. unfold bind at 1, upd, modify.
      rewrite save_mem_ok by exact Hr.
      eexists false, _. split; [reflexivity |]. split; [exact Hr |].
      split; [discriminate |]. split; [discriminate |].
      intros Hp. specialize (Hp eq_refl). discriminate.
Qed.

(** What [process_session] does after the flow has answered. *)
Lemma process_session_tail p sid resp clk st :
  responding (world st) ->
  let final := set_last_updated (now clk)
                 (set_message_count (message_count (mem st) + 1) (mem st)) in
  (upd (fun s => set_last_updated (now clk)
                   (set_message_count (message_count s + 1) s)) ;;;
   save_mem sid ;;;
   sd <- get_mem ;; ret (flow_result p sid resp sd)) st
  = (Val (flow_result p sid resp final),
     mkFlowSt final
       (set_store (<[sid := final]> (store (world st))) (world st))).
Proof.
  intros Hr final. unfold bind at 1, upd, modify. unfold bind at 1.
  rewrite save_mem_ok by exact Hr. reflexivity.
Qed.

(** With a responding store, [process_session] turns the sender away and
    changes nothing, or answers with the result of the flow, built from
    the session it has just saved. *)
Lemma process_session_ok message sid phone p clk st :
  responding (world st) ->
  exists r st',
    process_session message sid phone p clk st = (Val r, st') /\
    responding (world st') /\
    ((r = unauthorized_result p sid /\ st' = st /\ p = whatsapp /\
      whatsapp_authorized (mem st) = false /\ lead_data (mem st) = ∅) \/
     (exists resp, r = flow_result p sid resp (mem st') /\
                   store (world st') !! sid = Some (mem st'))).
Proof.
  intros Hr. unfold process_session. unfold bind at 1.
  destruct (authorization_check_ok sid p st Hr)
    as (blocked & st1 & -> & Hr1 & Hsame & Hwhy & _).
  destruct blocked.
  - exists (unauthorized_result p sid), st1.
    rewrite (Hsame eq_refl). destruct (Hwhy eq_refl) as (? & ? & ?).
    split; [reflexivity |]. split; [exact Hr |]. left. repeat split; assumption.
  - unfold bind at 1, upd at 1, modify. unfold bind at 1.
    set (st2 := mkFlowSt (seed_whatsapp_phone p phone (mem st1)) (world st1)).
    assert (Hr2 : on_world responding st2) by exact Hr1.
    pose proof (flow_responding message clk st2 Hr2) as Hr3.
    destruct (flow_returns message clk st2) as (resp & st3 & E).
    rewrite E in Hr3 |- *. cbn [snd] in Hr3.
    rewrite (process_session_tail p sid resp clk st3 Hr3).
    eexists _, _. split; [reflexivity |]. split; [exact Hr3 |].
    right. exists resp. split; [reflexivity |]. cbn [world mem store set_store].
    apply lookup_insert_eq.
Qed.

Lemma get_or_create_ok sid p phone clk w :
  responding w ->
  exists sd w1,
    _get_or_create_session sid p phone clk w = (Val sd, w1) /\ responding w1 /\
    (forall old, store w !! sid = Some old -> whatsapp_authorized old = true ->
                 p = whatsapp -> whatsapp_authorized sd = true).
Proof.
  intros Hr. destruct (store w !! sid) as [old |] eqn:Hst.
  - destruct (session_ended old || flow_completed old) eqn:Ht.
    + rewrite (get_or_create_terminal sid p phone clk w old Hr Hst Ht).
      eexists _, _. split; [reflexivity |]. split; [exact Hr |].
      intros old' [= <-] Ha ->. exact Ha.
    + apply orb_false_iff in Ht as [He Hc].
      rewrite (get_or_create_stored sid p phone clk w old Hr Hst He Hc).
      eexists _, _. split; [reflexivity |]. split; [exact Hr |].
      intros old' [= <-] Ha _.
      rewrite (proj1 (with_phone_frame phone old)). exact Ha.
  - rewrite (get_or_create_unseen sid p phone clk w Hr Hst).
    eexists _, _. split; [reflexivity |]. split; [exact Hr |].
    intros old' [=].
Qed.

Lemma get_session_context_ok sid w sd :
  responding w -> store w !! sid = Some sd ->
  get_session_context sid w = (Val (context_found (context_of sid sd)), w).
Proof.
  intros Hr Hst. unfold get_session_context, try_catch, bind.
  rewrite get_user_session_ok by exact Hr. rewrite Hst. reflexivity.
Qed.

(** X11. When every collaborator call succeeds, [process_message] with a
    usable session identifier never gives the error result, and what a
    flow result reports is what the store then holds: a status query made
    right after it finds the session with the same step, flags, answers
    and message count. *)
Theorem context_after_message (message sid : str) (phone : option str)
  (p : Platform) (clk : Clock) (w : World) :
  responding w -> strip sid <> [] ->
  exists r w',
    process_message message sid phone p clk w = (Val r, w') /\
    responding w' /\ r_error r = None /\
    (response_type r = platform_flow ->
     exists c,
       get_session_context sid w' = (Val (context_found c), w') /\
       r_current_step r = Some (ctx_current_step c) /\
       r_flow_completed r = Some (ctx_flow_completed c) /\
       r_lawyers_notified r = Some (ctx_lawyers_notified c) /\
       r_phone_submitted r = Some (ctx_phone_submitted c) /\
       r_lead_data r = Some (ctx_lead_data c) /\
       r_message_count r = Some (ctx_message_count c) /\
       r_whatsapp_authorized r = Some (ctx_whatsapp_authorized c) /\
       r_session_ended r = Some (ctx_session_ended c)).
Proof.
  intros Hr Hsid.
  destruct (get_or_create_ok sid p phone clk w Hr) as (sd & w1 & Hgoc & Hr1 & _).
  rewrite (process_message_with_session _ _ _ _ _ _ _ _ Hsid Hgoc).
  unfold try_catch, with_session.
  destruct (process_session_ok message sid phone p clk (mkFlowSt sd w1) Hr1)
    as (r & st' & -> & Hr' & Hcase).
  exists r, (world st'). split; [reflexivity |]. split; [exact Hr' |].
  destruct Hcase as [(-> & _) | (resp & -> & Hst)].
  - split; [reflexivity | discriminate].
  - split; [reflexivity |]. intros _.
    exists (context_of sid (mem st')).
    split; [apply get_session_context_ok; assumption |].
    repeat split.
Qed.

Lemma context_after_message_witness :
  exists r w',
    process_message (py "Maria Souza") (py "web-1") None web clock0 empty_world
    = (Val r, w') /\ r_error r = None.
Proof.
  destruct (context_after_message (py "Maria Souza") (py "web-1") None web
              clock0 empty_world)
    as (r & w' & E & _ & He & _).
  - reflexivity.
  - vm_compute. discriminate.
  - exists r, w'. split; assumption.
Defined.

Lemma authorization_ok (a : AuthData) (clk : Clock) (w : World) :
  responding w ->
  let w1 := (handle_whatsapp_authorization a clk w).2 in
  responding w1 /\
  exists sd, store w1 !! default [] (auth_session_id a) = Some sd /\
             whatsapp_authorized sd = true.
Proof.
  intros Hr. unfold handle_whatsapp_authorization. cbv zeta.
  set (sid := default [] (auth_session_id a)).
  set (phone := default [] (auth_phone_number a)).
  set (source := default (py "unknown") (auth_source a)).
  set (ud := default ∅ (user_data a)).
  clearbody sid phone source ud.
  destruct (negb (bool_decide (ud = ∅)) &&
            bool_decide (source = py "landing_chat")).
  - unfold try_catch, bind, with_session.
    rewrite save_user_session_ok by exact Hr.
    rewrite (notify_declined sid whatsapp clk) by reflexivity.
    simpl. split; [exact Hr |].
    eexists. split; [apply lookup_insert_eq | reflexivity].
  - unfold try_catch, bind.
    rewrite get_user_session_ok by exact Hr.
    destruct (store w !! sid) as [sd |];
      rewrite save_user_session_ok by exact Hr; simpl;
      (split; [exact Hr |]);
      (eexists; split; [apply lookup_insert_eq | reflexivity]).
Qed.

(** X12. An authorization opens the WhatsApp channel: when every
    collaborator call succeeds, the next WhatsApp message on the
    authorized session identifier is answered by the conversation flow
    and not by the redirect to the landing page, whatever the store held
    for that identifier before. *)
Theorem authorization_unlocks (a : AuthData) (clk clk' : Clock) (w : World)
  (message : str) (phone : option str) :
  responding w ->
  strip (default [] (auth_session_id a)) <> [] ->
  exists r w',
    process_message message (default [] (auth_session_id a)) phone whatsapp
      clk' (handle_whatsapp_authorization a clk w).2 = (Val r, w') /\
    response_type r = platform_flow.
Proof.
  intros Hr Hsid.
  destruct (authorization_ok a clk w Hr) as (Hr1 & old & Hst & Ha).
  set (w1 := (handle_whatsapp_authorization a clk w).2) in *.
  set (sid := default [] (auth_session_id a)) in *.
  destruct (get_or_create_ok sid whatsapp phone clk' w1 Hr1)
    as (sd & w2 & Hgoc & Hr2 & Hauth).
  specialize (Hauth old Hst Ha eq_refl).
  rewrite (process_message_with_session _ _ _ _ _ _ _ _ Hsid Hgoc).
  unfold try_catch, with_session.
  destruct (process_session_ok message sid phone whatsapp clk' (mkFlowSt sd w2) Hr2)
    as (r & st' & -> & _ & Hcase).
  exists r, (world st'). split; [reflexivity |].
  destruct Hcase as [(_ & _ & _ & Hna & _) | (resp & -> & _)].
  - simpl in Hna. congruence.
  - reflexivity.
Qed.

Lemma authorization_unlocks_witness :
  exists r w',
    process_message (py "oi") (py "12345") (Some (py "12345")) whatsapp clock0
      (handle_whatsapp_authorization button_event clock0 empty_world).2
    = (Val r, w') /\ response_type r = platform_flow.
Proof.
  apply (authorization_unlocks button_event clock0 clock0 empty_world).
  - reflexivity.
  - vm_compute. discriminate.
Defined.

(** ** Rejected answers and first messages *)

Lemma flow_rejects message clk st :
  session_ended (mem st) = false -> first_interaction (mem st) = false ->
  In (current_step (mem st)) answering_steps ->
  (_validate_answer message (current_step (mem st)) (platform (mem st))).1
  = false ->
  _process_conversation_flow message clk st
  = (Val (_validate_answer message (current_step (mem st))
            (platform (mem st))).2, st).
Proof.
  intros He Hf Hstep Hv.
  unfold _process_conversation_flow, try_catch, bind at 1, get_mem.
  rewrite He, Hf.
  destruct (_validate_answer message (current_step (mem st))
              (platform (mem st))) as [v err] eqn:Ev.
  cbn [fst snd] in *. subst v.
  unfold answering_steps in Hstep. simpl in Hstep.
  destruct Hstep as [H | [H | [H | [H | [H | []]]]]];
    rewrite <- H in *; unfold _get_flow_steps;
    cbv beta iota zeta delta [next_step field question];
    decide_steps; try rewrite Ev; reflexivity.
Qed.

(** X13. An answer the validator rejects costs the conversation nothing:
    when the store responds, a session that is under way stays at its
    step with the answers it had, only the message is counted and the
    time noted, and the reply is the validator's request to try again. *)
Theorem rejected_answer_keeps_session (message sid : str)
  (phone : option str) (p : Platform) (clk : Clock) (w : World)
  (old : Session) :
  responding w -> strip sid <> [] -> store w !! sid = Some old ->
  session_ended old = false -> flow_completed old = false ->
  first_interaction old = false ->
  In (current_step old) answering_steps ->
  p <> whatsapp ->
  (_validate_answer message (current_step old) (platform old)).1 = false ->
  let kept := set_last_updated (now clk)
                (set_message_count (message_count old + 1)
                   (with_phone phone old)) in
  let err := (_validate_answer message (current_step old) (platform old)).2 in
  process_message message sid phone p clk w
  = (Val (flow_result p sid err kept),
     set_store (<[sid := kept]> (store w)) w) /\
  current_step kept = current_step old /\ lead_data kept = lead_data old /\
  flow_completed kept = false /\ lawyers_notified kept = lawyers_notified old.
Proof.
  intros Hr Hsid Hst He Hc Hf Hstep Hp Hv kept err.
  assert (Hwp : session_ended (with_phone phone old) = session_ended old /\
                first_interaction (with_phone phone old) = first_interaction old /\
                current_step (with_phone phone old) = current_step old /\
                platform (with_phone phone old) = platform old /\
                lead_data (with_phone phone old) = lead_data old /\
                flow_completed (with_phone phone old) = flow_completed old /\
                lawyers_notified (with_phone phone old) = lawyers_notified old /\
                message_count (with_phone phone old) = message_count old).
  { unfold with_phone. destruct (opt_truthy phone); repeat split. }
  destruct Hwp as (W1 & W2 & W3 & W4 & W5 & W6 & W7 & W8).
  split.
  - rewrite (process_message_with_session _ _ _ _ _ _ _ _ Hsid
               (get_or_create_stored sid p phone clk w old Hr Hst He Hc)).
    unfold try_catch, with_session, process_session. unfold bind at 1.
    assert (Hcheck : whatsapp_authorization_check sid p
                       (mkFlowSt (with_phone phone old) w)
                     = (Val false, mkFlowSt (with_phone phone old) w))
      by (destruct p; [reflexivity | congruence | reflexivity]).
    rewrite Hcheck. unfold bind at 1, upd at 1, modify. unfold bind at 1.
    assert (Hseed : seed_whatsapp_phone p phone (with_phone phone old)
                    = with_phone phone old)
      by (destruct p; [reflexivity | congruence | reflexivity]).
    cbn [mem world]. rewrite Hseed.
    rewrite (flow_rejects message clk (mkFlowSt (with_phone phone old) w));
      cbn [mem world]; rewrite ?W1, ?W2, ?W3, ?W4; try assumption.
    rewrite (process_session_tail p sid _ clk (mkFlowSt (with_phone phone old) w) Hr).
    cbn [mem world fst snd]. rewrite W8. reflexivity.
  - subst kept. cbn. rewrite W3, W5, W6, W7. auto.
Qed.

Lemma rejected_answer_keeps_session_witness :
  current_step
    (set_last_updated (now clock0)
       (set_message_count (message_count session_at_name + 1)
          (with_phone None session_at_name)))
  = current_step session_at_name.
Proof.
  refine (proj1 (proj2
    (rejected_answer_keeps_session (py "x") (py "web-1") None web clock0
       world_at_name session_at_name _ _ _ _ _ _ _ _ _))).
  - reflexivity.
  - vm_compute. discriminate.
  - vm_compute. reflexivity.
  - reflexivity.
  - reflexivity.
  - reflexivity.
  - left. reflexivity.
  - discriminate.
  - vm_compute. reflexivity.
Defined.

Lemma flow_first_any message1 message2 clk st :
  first_interaction (mem st) = true ->
  _process_conversation_flow message1 clk st
  = _process_conversation_flow message2 clk st.
Proof.
  intros Hf. unfold _process_conversation_flow, try_catch.
  match goal with
  | |- (let (_, _) := ?b1 st in _) = (let (_, _) := ?b2 st in _) =>
      assert (E : b1 st = b2 st); [| rewrite E; reflexivity]
  end.
  assert (Hget : forall (k1 k2 : Session -> M FlowSt str),
            k1 (mem st) st = k2 (mem st) st ->
            bind get_mem k1 st = bind get_mem k2 st)
    by (intros k1 k2 H; exact H).
  apply Hget. rewrite Hf.
  destruct (session_ended (mem st)); reflexivity.
Qed.

Lemma first_interaction_save_mem sid :
  carries (on_mem (fun s => first_interaction s = true))
    (on_mem (fun s => first_interaction s = true)) (save_mem sid).
Proof. apply on_mem_save_mem. Qed.

Lemma authorization_check_first sid p :
  carries (on_mem (fun s => first_interaction s = true))
    (on_mem (fun s => first_interaction s = true))
    (whatsapp_authorization_check sid p).
Proof.
  set (J := on_mem (fun s => first_interaction s = true)).
  unfold whatsapp_authorization_check.
  destruct p; try (apply carries_ret; auto).
  apply (carries_bind J J J); [apply carries_get_mem; auto | auto | intros sd].
  cbv zeta. destruct (_ && _); [apply carries_ret; auto |].
  apply (carries_bind J J J); [| auto | intros _; apply carries_ret; auto].
  destruct (_ && _); [| apply carries_ret; auto].
  apply (carries_bind J J J);
    [| auto | intros _; apply first_interaction_save_mem].
  apply on_mem_upd. intros [] H. exact H.
Qed.

Lemma process_session_first_any message1 message2 sid phone p clk st :
  first_interaction (mem st) = true ->
  process_session message1 sid phone p clk st
  = process_session message2 sid phone p clk st.
Proof.
  intros Hf. unfold process_session. unfold bind at 1 7.
  pose proof (authorization_check_first sid p st Hf) as H1.
  destruct (whatsapp_authorization_check sid p st) as [[[|] | e] st1];
    try reflexivity.
  unfold bind at 1 6, upd at 1 3, modify. unfold bind at 1 5.
  rewrite (flow_first_any message1 message2).
  - reflexivity.
  - cbn [mem]. unfold on_mem in H1. cbn [snd] in H1.
    unfold seed_whatsapp_phone.
    destruct p, phone as [ph |]; try destruct (truthy ph); exact H1.
Qed.

(** X14. The first message of a conversation is never taken as an answer:
    for a session that has not been greeted yet, or that is ended or
    completed and so about to be replaced, and for an identifier the store
    does not know, the reply and everything written depend on the
    message in no way, whatever the collaborators do. *)
Theorem first_message_discarded (message1 message2 sid : str)
  (phone : option str) (p : Platform) (clk : Clock) (w : World) :
  (forall old, store w !! sid = Some old ->
     first_interaction old = true \/ session_ended old = true \/
     flow_completed old = true) ->
  process_message message1 sid phone p clk w
  = process_message message2 sid phone p clk w.
Proof.
  intros Hold. unfold process_message, try_catch.
  destruct (negb (truthy sid) || bool_decide (strip sid = [])); [reflexivity |].
  unfold bind.
  assert (Hgoc : forall sd w1,
            _get_or_create_session sid p phone clk w = (Val sd, w1) ->
            first_interaction sd = true).
  { intros sd w1. unfold _get_or_create_session, bind.
    destruct (get_user_session sid w) as [[r | e] w0] eqn:Eg; [| discriminate].
    assert (Hwp : forall s, first_interaction (with_phone phone s)
                            = first_interaction s)
      by (intros s; unfold with_phone; destruct (opt_truthy phone); reflexivity).
    destruct r as [old |].
    - destruct (get_user_session_value sid w _ _ Eg) as [Hv | Hv];
        [| discriminate].
      specialize (Hold old (eq_sym Hv)). cbv zeta.
      destruct (session_ended old || flow_completed old) eqn:Et.
      + destruct (save_user_session sid _ w0) as [[[] | e] w2];
          [| discriminate].
        intros [= <- _]. reflexivity.
      + apply orb_false_iff in Et as [E1 E2].
        intros [= <- _]. rewrite Hwp.
        destruct Hold as [H | [H | H]]; congruence.
    - destruct (save_user_session sid _ w0) as [[[] | e] w2]; [| discriminate].
      intros [= <- _]. rewrite Hwp. reflexivity. }
  destruct (_get_or_create_session sid p phone clk w) as [[sd | e] w1];
    [| reflexivity].
  unfold with_session.
  rewrite (process_session_first_any message1 message2 sid phone p clk
             (mkFlowSt sd w1) (Hgoc sd w1 eq_refl)).
  reflexivity.
Qed.

Lemma first_message_discarded_witness :
  process_message (py "Maria Souza") (py "web-1") None web clock0 empty_world
  = process_message (py "oi") (py "web-1") None web clock0 empty_world.
Proof.
  apply first_message_discarded. intros old H. vm_compute in H. discriminate.
Defined.

(** ** Finalization that goes through *)

(** Equations for running a computation step by step. *)
Lemma first_name_of_value (name dflt : str) :
  name = [] \/ split name <> [] ->
  exists first,
    forall S (st : S), @first_name_of S name dflt st = (Val first, st).
Proof.
  intros [-> | H]; unfold first_name_of.
  - eexists. reflexivity.
  - destruct (truthy name); [| eexists; reflexivity].
    destruct (split name); [congruence | eexists; reflexivity].
Qed.

Lemma world_eq (a b : World) :
  store a = store b -> dispatched a = dispatched b ->
  outbox a = outbox b -> leads a = leads b -> script a = script b -> a = b.
Proof. destruct a, b; simpl; intros; subst; reflexivity. Qed.

(** Run the computation at the head of the goal with the equation that
    [tac] proves for it. *)
Ltac run tac :=
  match goal with
  | |- context [bind ?m ?k ?s] =>
      let E := fresh "E" in
      eassert (E : m s = (Val _, _)) by tac;
      rewrite (bind_val m k s _ _ E); clear E; cbv beta iota
  end.

(** State the equation of the computation at the head of the goal. *)
Ltac block E :=
  match goal with
  | |- context [bind ?m ?k ?s] => eassert (E : m s = (Val _, _))
  end.

Ltac norm :=
  cbn [mem world store dispatched outbox leads script set_store set_dispatched
       set_outbox set_leads].

Ltac ran E :=
  match goal with
  | |- context [bind ?m ?k ?s] =>
      rewrite (bind_val m k s _ _ E); clear E; cbv beta iota
  end.

Lemma finalization_ok (sid : str) (clk : Clock) (sd : Session) (w : World)
  (phone : str) :
  responding w -> lawyers_notified sd = false ->
  resolve_phone sd = Some phone -> 10 <= len phone ->
  has_first_name sd ->
  exists reply text,
    _handle_lead_finalization sid clk (mkFlowSt sd w)
    = (Val reply,
       mkFlowSt (finalized sd phone clk)
         (let w1 := set_dispatched
                      (dispatched w ++ [finalization_call sid sd phone]) w in
          let w2 := set_store (<[sid := finalized sd phone clk]> (store w)) w1 in
          let w3 := set_leads
                      (leads w
                       ++ [lead_answers (<["phone"%string := phone]> (lead_data sd))
                             phone]) w2 in
          match platform sd with
          | web => set_outbox
                     (outbox w
                      ++ [(_format_phone_number (_format_brazilian_phone phone),
                           text)]) w3
          | _ => w3
          end)).
Proof.
  intros Hr Hn Hphone Hlen Hname.
  assert (Hok : negb (truthy phone) || (len phone <? 10) = false).
  { apply orb_false_iff. split.
    - rewrite len_pos_truthy by lia. reflexivity.
    - apply Z.ltb_ge. exact Hlen. }
  destruct (first_name_of_value
              (ld_get_or (lead_data sd) "identification" (py "Cliente"))
              (py "Cliente") Hname) as (first & Efirst).
  assert (Hend : forall (reply : str) (m : Session) (wa wb : World),
            m = finalized sd phone clk -> wa = wb ->
            (Val reply, mkFlowSt m wa)
            = (Val reply, mkFlowSt (finalized sd phone clk) wb))
    by (intros; subst; reflexivity).
  destruct (platform sd) eqn:Hp; unfold _handle_lead_finalization;
    eexists _, _; apply try_catch_val;
    (run ltac:(reflexivity)); cbn [mem]; cbv zeta;
    (run ltac:(apply Efirst));
    rewrite Hphone, Hok;
    (run ltac:(reflexivity)); (run ltac:(reflexivity));
    (run ltac:(apply save_mem_ok; exact Hr));
    norm;
    set (m1 := set_lead_data _ _);
    (block E1;
     [ apply try_catch_val;
       (run ltac:(reflexivity)); cbn [mem];
       change (lawyers_notified m1) with (lawyers_notified sd); rewrite Hn;
       cbn [negb];
       (run ltac:(apply lift_val, notify_ok; exact Hr));
       (run ltac:(reflexivity));
       (run ltac:(apply save_mem_ok; exact Hr));
       reflexivity |]);
    ran E1; norm;
    set (m2 := set_lawyers_notified_at _ _);
    (block E2;
     [ apply try_catch_val;
       (run ltac:(reflexivity));
       apply lift_val, save_lead_data_ok; exact Hr |]);
    ran E2; norm;
    change (lead_data m2) with (<["phone"%string := phone]> (lead_data sd));
    rewrite Hp.
  - block E3.
    { unfold _get_strategic_whatsapp_message.
      run ltac:(run ltac:(apply Efirst); reflexivity).
      apply try_catch_val, lift_val, send_text_message_ok. exact Hr. }
    ran E3. norm. unfold ret.
    apply Hend; [reflexivity |].
    apply world_eq; norm;
      [ apply insert_insert_eq
      | unfold finalization_call; rewrite Hp; reflexivity
      | reflexivity .. ].
  - run ltac:(reflexivity). unfold ret.
    apply Hend; [reflexivity |].
    apply world_eq; norm;
      [ apply insert_insert_eq
      | unfold finalization_call; rewrite Hp; reflexivity
      | reflexivity .. ].
  - run ltac:(reflexivity). unfold ret.
    apply Hend; [reflexivity |].
    apply world_eq; norm;
      [ apply insert_insert_eq
      | unfold finalization_call; rewrite Hp; reflexivity
      | reflexivity .. ].
  Unshelve. all: exact [].
Qed.

Lemma first_name_of_blank (name dflt : str) :
  name <> [] -> split name = [] ->
  forall S (st : S), @first_name_of S name dflt st = (Exn IndexError, st).
Proof.
  intros Hne Hs S st. unfold first_name_of.
  apply truthy_true in Hne. rewrite Hne, Hs. reflexivity.
Qed.

(** A stored name has a first token, is empty or absent, or is blank. *)
Lemma name_cases (sd : Session) : has_first_name sd \/ blank_name sd.
Proof.
  unfold has_first_name, blank_name, ld_get_or, ld_get. cbv zeta.
  destruct (lead_data sd !! "identification"%string) as [x |];
    cbn [default from_option id].
  - destruct x as [| c x]; [left; left; reflexivity |].
    destruct (split (c :: x)) eqn:E.
    + right. split; [discriminate | reflexivity].
    + left. right. discriminate.
  - left. right. vm_compute. discriminate.
Qed.

Lemma blank_name_or_cliente (sd : Session) :
  blank_name sd ->
  let user_name := ld_get_or (lead_data sd) "identification" (py "Cliente") in
  user_name <> [] /\ split user_name = [].
Proof.
  unfold blank_name, ld_get_or, ld_get. cbv zeta.
  destruct (lead_data sd !! "identification"%string) as [x |];
    cbn [default from_option id]; [auto |].
  intros [H _]. destruct (H eq_refl).
Qed.

Lemma finalization_blank_name (sid : str) (clk : Clock) (st : FlowSt) :
  blank_name (mem st) ->
  _handle_lead_finalization sid clk st = (Exn IndexError, st).
Proof.
  intros Hb.
  destruct (blank_name_or_cliente _ Hb) as (Hne & Hs).
  destruct Hb as (Hne' & Hs').
  unfold _handle_lead_finalization.
  rewrite (try_catch_exn _ _ st IndexError st).
  - rewrite (bind_val get_mem _ st (mem st) st eq_refl).
    apply bind_exn. apply first_name_of_blank; assumption.
  - rewrite (bind_val get_mem _ st (mem st) st eq_refl). cbv zeta.
    apply bind_exn. apply first_name_of_blank; assumption.
Qed.

(** X15. Finalization, by the name the lead has stored. When the name
    is absent, empty or has a first word, and every collaborator call
    succeeds, for a lead that has a phone number of ten characters or more
    and has not been handed over yet: the dispatcher is invoked once with
    the lead's name, phone, area and case details, the session is marked
    notified and stored, one lead record is written, and on the web
    channel one follow-up message is given to the messaging client for
    the formatted number, which addresses it to what
    [_format_phone_number] makes of that number; on the other channels
    nothing is sent. When the stored name is blank, whitespace and
    nothing else, finalization raises [IndexError], from its own
    [except] block, and nothing is written, dispatched or sent. A stored
    name is of one kind or the other. *)
Theorem finalization_delivers (sid : str) (clk : Clock) (st : FlowSt)
  (phone : str) :
  (has_first_name (mem st) ->
   responding (world st) -> lawyers_notified (mem st) = false ->
   resolve_phone (mem st) = Some phone -> 10 <= len phone ->
   let st' := (_handle_lead_finalization sid clk st).2 in
   (exists reply, (_handle_lead_finalization sid clk st).1 = Val reply) /\
   mem st' = finalized (mem st) phone clk /\
   lawyers_notified (mem st') = true /\
   store (world st') = <[sid := mem st']> (store (world st)) /\
   dispatched (world st')
   = dispatched (world st) ++ [finalization_call sid (mem st) phone] /\
   leads (world st')
   = leads (world st)
     ++ [lead_answers (<["phone"%string := phone]> (lead_data (mem st)))
           phone] /\
   match platform (mem st) with
   | web => exists text,
       outbox (world st')
       = outbox (world st)
         ++ [(_format_phone_number (_format_brazilian_phone phone), text)]
   | _ => outbox (world st') = outbox (world st)
   end) /\
  (blank_name (mem st) ->
   _handle_lead_finalization sid clk st = (Exn IndexError, st)) /\
  (has_first_name (mem st) \/ blank_name (mem st)).
Proof.
  split; [| split;
             [exact (finalization_blank_name sid clk st)
             | exact (name_cases (mem st))]].
  intros Hname Hr Hn Hphone Hlen st'. subst st'.
  destruct st as [sd w]. cbn [mem world] in *.
  destruct (finalization_ok sid clk sd w phone Hr Hn Hphone Hlen Hname)
    as (reply & text & ->).
  cbn [fst snd mem world]. cbv zeta.
  split; [exists reply; reflexivity |].
  split; [reflexivity |]. split; [reflexivity |].
  destruct (platform sd); norm; repeat split; try reflexivity.
  exists text. reflexivity.
Qed.

Lemma finalization_delivers_witness :
  dispatched
    (world (_handle_lead_finalization (py "web-1") clock0
              (mkFlowSt session_web_done empty_world)).2)
  = dispatched empty_world
    ++ [finalization_call (py "web-1") session_web_done (py "11987654321")].
Proof.
  refine (proj1 (proj2 (proj2 (proj2 (proj2
    (proj1 (finalization_delivers (py "web-1") clock0
              (mkFlowSt session_web_done empty_world) (py "11987654321"))
       _ _ _ _ _)))))).
  - right. vm_compute. discriminate.
  - reflexivity.
  - reflexivity.
  - vm_compute. reflexivity.
  - vm_compute. discriminate.
Defined.

(** ** Phone collection *)




(** ** Ending a session *)

Lemma end_session_ok sid clk w old :
  responding w -> store w !! sid = Some old ->
  end_session sid clk w
  = (Val (end_ended sid (now clk)),
     set_store (<[sid := closed old clk]> (store w)) w).
Proof.
  intros Hr Hst. unfold end_session. apply try_catch_val.
  rewrite (bind_val _ _ w _ _ (get_user_session_ok sid w Hr)). rewrite Hst.
  cbv zeta. fold (closed old clk).
  rewrite (bind_val _ _ w _ _ (save_user_session_ok sid _ w Hr)).
  reflexivity.
Qed.

(** X17. When the store responds, ending a session closes the stored
    record and nothing else, and the next message on the identifier (on
    WhatsApp: of a sender the record authorizes) starts a new
    conversation: the sender is greeted and asked for the name, and the
    record then stored is at the name step with one message counted, not
    completed, not ended, not yet handed to the lawyers, and it remembers
    when the previous conversation was closed. An identifier the store
    does not know is reported as not found and the world stays as it
    is. *)
Theorem end_session_restarts (sid : str) (clk clk' : Clock) (w : World)
  (message : str) (phone : option str) (p : Platform) :
  responding w -> strip sid <> [] ->
  (store w !! sid = None ->
   end_session sid clk w = (Val (end_not_found sid), w)) /\
  (forall old,
     store w !! sid = Some old ->
     (p = whatsapp -> whatsapp_authorized old = true) ->
     let w1 := (end_session sid clk w).2 in
     end_session sid clk w = (Val (end_ended sid (now clk)), w1) /\
     store w1 = <[sid := closed old clk]> (store w) /\
     dispatched w1 = dispatched w /\ outbox w1 = outbox w /\
     leads w1 = leads w /\
     exists r w2 s,
       process_message message sid phone p clk' w1 = (Val r, w2) /\
       response r = _get_personalized_greeting clk' ++ nl2 ++ question_name /\
       store w2 !! sid = Some s /\
       current_step s = step1_name /\ message_count s = 1 /\
       flow_completed s = false /\ session_ended s = false /\
       lawyers_notified s = false /\
       previous_session_ended_at s = Some (Some (now clk)) /\
       (p <> whatsapp -> lead_data s = ∅)).
Proof.
  intros Hr Hsid. split.
  - intros Hst. unfold end_session. apply try_catch_val.
    rewrite (bind_val _ _ w _ _ (get_user_session_ok sid w Hr)). rewrite Hst.
    reflexivity.
  - intros old Hst Hauth w1. subst w1.
    rewrite (end_session_ok sid clk w old Hr Hst). cbn [snd].
    split; [reflexivity |]. split; [reflexivity |].
    split; [reflexivity |]. split; [reflexivity |]. split; [reflexivity |].
    set (w1 := set_store (<[sid := closed old clk]> (store w)) w).
    assert (Hr1 : script w1 = []) by exact Hr.
    assert (Hst1 : store w1 !! sid = Some (closed old clk))
      by apply lookup_insert_eq.
    pose proof (get_or_create_terminal sid p phone clk' w1 (closed old clk)
                  Hr1 Hst1 eq_refl) as Hgoc.
    set (fresh := reset_session (closed old clk) sid p phone clk') in *.
    rewrite (process_message_with_session _ _ _ _ _ _ _ _ Hsid Hgoc).
    unfold try_catch, with_session.
    rewrite process_session_first; try reflexivity; try exact Hr1.
    + cbn [fst snd world].
      destruct (seed_whatsapp_phone_frame p phone fresh)
        as (Hid & _ & _ & _ & _ & Hfc & Hse & Hmc).
      rewrite Hid.
      eexists _, _, _. split; [reflexivity |].
      split.
      { unfold flow_result. cbn [response].
        destruct (_get_personalized_greeting clk' ++ nl2 ++ question_name) eqn:E;
          [| reflexivity].
        apply app_eq_nil in E as [E _].
        exfalso. exact (greeting_nonempty clk' E). }
      split; [apply lookup_insert_eq |].
      assert (Hseed : lawyers_notified (seed_whatsapp_phone p phone fresh) = false
                      /\ previous_session_ended_at (seed_whatsapp_phone p phone fresh)
                         = Some (Some (now clk))
                      /\ (p <> whatsapp ->
                          lead_data (seed_whatsapp_phone p phone fresh) = ∅)).
      { unfold seed_whatsapp_phone.
        destruct p, phone as [ph |]; try destruct (truthy ph);
          repeat split; congruence. }
      destruct Hseed as (Hln & Hprev & Hld).
      cbn. rewrite Hmc, Hfc, Hse, Hln, Hprev.
      repeat split. exact Hld.
    + intros ->. cbn. exact (Hauth eq_refl).
Qed.

Lemma end_session_restarts_witness :
  end_session (py "web-1") clock0 world_one_completed
  = (Val (end_ended (py "web-1") (now clock0)),
     (end_session (py "web-1") clock0 world_one_completed).2).
Proof.
  refine (proj1 (proj2 (end_session_restarts (py "web-1") clock0 clock0
                          world_one_completed (py "oi") None web _ _)
                   session_web_done _ _)).
  - reflexivity.
  - vm_compute. discriminate.
  - vm_compute. reflexivity.
  - discriminate.
Defined.

(** ** The WhatsApp webhook *)

Lemma process_message_returns message sid phone p clk w :
  exists r w', process_message message sid phone p clk w = (Val r, w').
Proof.
  unfold process_message, try_catch.
  match goal with
  | |- context [match ?m w with _ => _ end] => destruct (m w) as [[r | e] w1]
  end; eauto.
Qed.

(** X18. The webhook, case by case. A body that is no JSON object, a
    message that is present but is no string, and a sender that holds
    something true but is no string are answered with status 500; a
    message that is absent or blank and a sender that is absent or holds
    nothing true are answered with status 400; in all these cases nothing
    is read or written. Any other payload is handed to the orchestrator
    under the cleaned sender id, and its reply, or the apology when the
    reply is empty, is given to the messaging client for that id: one
    entry, addressed to what [_format_phone_number] makes of the id, is
    added to what the orchestrator left in the outbox; the store, the
    dispatcher log and the lead store stay as the orchestrator left them;
    and the webhook answers with its report, never with an error, a
    failed send showing only in the report. *)
Theorem webhook_replies_once (body : Body) (clk : Clock) (w : World) :
  let result := whatsapp_webhook body clk w in
  (body = body_other \/
   (exists payload v,
      body = body_object payload /\ payload_message payload = Some v /\
      forall m, v <> j_string m) ->
   result = (Exn (HTTPException 500), w)) /\
  (forall payload m,
     body = body_object payload ->
     default (j_string []) (payload_message payload) = j_string m ->
     (strip m = [] \/ json_truthy (payload_sender payload) = false ->
      result = (Exn (HTTPException 400), w)) /\
     (strip m <> [] -> json_truthy (payload_sender payload) = true ->
      (forall s, payload_sender payload <> j_string s) ->
      result = (Exn (HTTPException 500), w)) /\
     (forall s,
        strip m <> [] -> payload_sender payload = j_string s -> s <> [] ->
        exists r w1 reply rep,
          process_message (strip m) (clean_sender s) (Some (clean_sender s))
            whatsapp clk w = (Val r, w1) /\
          reply <> [] /\
          (response r <> [] -> reply = response r) /\
          (response r = [] -> reply = webhook_fallback) /\
          result.1 = Val rep /\
          outbox result.2
          = outbox w1 ++ [(_format_phone_number (clean_sender s), reply)] /\
          store result.2 = store w1 /\ dispatched result.2 = dispatched w1 /\
          leads result.2 = leads w1 /\
          bot_response rep = reply /\
          incoming_message rep = strip m /\
          wh_phone rep = clean_sender s /\
          wh_session_id rep = clean_sender s /\
          wh_current_step rep = r_current_step r /\
          (responding w1 -> send_success rep = true))).
Proof.
  intros result. subst result. split.
  - intros [-> | (payload & v & -> & Hv & Hno)]; unfold whatsapp_webhook.
    { rewrite (try_catch_exn _ _ w AttributeError w); [reflexivity |].
      apply bind_exn. reflexivity. }
    rewrite (try_catch_exn _ _ w AttributeError w); [reflexivity |].
    rewrite (bind_val _ _ w payload w eq_refl).
    apply bind_exn. rewrite Hv. cbn [default from_option id].
    destruct v as [| m | b]; [reflexivity | | reflexivity].
    destruct (Hno m eq_refl).
  - intros payload m -> Hm.
    assert (Hmsg : @as_str World (default (j_string [])
                                    (payload_message payload)) w
                   = (Val m, w)) by (rewrite Hm; reflexivity).
    split; [| split].
    + intros Hbad. unfold whatsapp_webhook.
      rewrite (try_catch_exn _ _ w (HTTPException 400) w); [reflexivity |].
      rewrite (bind_val _ _ w payload w eq_refl).
      rewrite (bind_val _ _ w m w Hmsg). cbv zeta.
      assert (negb (truthy (strip m))
              || negb (json_truthy (payload_sender payload)) = true) as ->.
      { destruct Hbad as [-> | ->]; [reflexivity | apply orb_true_r]. }
      reflexivity.
    + intros Hne Hs Hno. unfold whatsapp_webhook.
      rewrite (try_catch_exn _ _ w AttributeError w); [reflexivity |].
      rewrite (bind_val _ _ w payload w eq_refl).
      rewrite (bind_val _ _ w m w Hmsg). cbv zeta.
      apply truthy_true in Hne. rewrite Hne, Hs. cbn [negb orb].
      apply bind_exn.
      destruct (payload_sender payload) as [| s | b];
        [reflexivity | | reflexivity].
      destruct (Hno s eq_refl).
    + intros s Hne Hs Hs0.
      destruct (process_message_returns (strip m) (clean_sender s)
                  (Some (clean_sender s)) whatsapp clk w) as (r & w1 & E).
      set (reply := if truthy (response r) then response r
                    else webhook_fallback).
      destruct (send_text_message_frame (clean_sender s) reply w1)
        as (H1 & H2 & H3 & H4).
      destruct (send_text_message_returns (clean_sender s) reply w1)
        as (ok & Hok).
      assert (Hsend : responding w1 -> ok = true).
      { intros Hr. rewrite (send_text_message_ok _ _ _ Hr) in Hok.
        injection Hok as <-. reflexivity. }
      destruct (send_text_message (clean_sender s) reply w1)
        as [sr w2] eqn:Es. cbn [fst snd] in *. subst sr.
      eexists r, w1, reply, _.
      split; [exact E |].
      split.
      { subst reply. destruct (response r); [vm_compute |]; discriminate. }
      split.
      { intros Hr. subst reply. apply truthy_true in Hr. rewrite Hr.
        reflexivity. }
      split.
      { intros Hr. subst reply. rewrite Hr. reflexivity. }
      unfold whatsapp_webhook.
      erewrite try_catch_val; cycle 1.
      { rewrite (bind_val _ _ w payload w eq_refl).
        rewrite (bind_val _ _ w m w Hmsg). cbv zeta.
        apply truthy_true in Hne, Hs0. rewrite Hne, Hs. cbn [json_truthy].
        rewrite Hs0. cbn [negb orb].
        rewrite (bind_val _ _ w s w eq_refl).
        rewrite (bind_val _ _ w r w1 E). fold reply.
        rewrite (bind_val _ _ w1 ok w2 Es).
        reflexivity. }
      cbn [fst snd].
      split; [reflexivity |].
      split; [exact H3 |]. split; [exact H1 |]. split; [exact H2 |].
      split; [exact H4 |].
      cbn [bot_response incoming_message wh_phone wh_session_id
           wh_current_step send_success].
      repeat split. exact Hsend.
Qed.

Lemma webhook_replies_once_witness :
  whatsapp_webhook
    (body_object
       {| payload_message := Some (j_string (py "   "));
          payload_from := Some (j_string (py "5511987654321@s.whatsapp.net"));
          payload_phone_number := None;
          payload_messageId := None; payload_message_id := None |})
    clock0 empty_world
  = (Exn (HTTPException 400), empty_world).
Proof.
  refine (proj1 (proj2 (webhook_replies_once (body_object _) clock0
                          empty_world)
                   {| payload_message := Some (j_string (py "   "));
          payload_from := Some (j_string (py "5511987654321@s.whatsapp.net"));
          payload_phone_number := None;
          payload_messageId := None; payload_message_id := None |}
                   (py "   ") eq_refl eq_refl) _).
  left. vm_compute. reflexivity.
Defined.

(** ** The gate and its report of missing criteria *)

(** X19. The gate and its report agree: whenever the gate approves a
    lead, on either channel, the list of missing criteria computed for
    that session is empty, and the session was not yet marked notified. *)
Theorem approval_has_nothing_missing (sd : Session) (p : Platform) :
  should_notify (should_notify_lawyers sd p) = true ->
  _get_missing_criteria sd p = [] /\ lawyers_notified sd = false.
Proof.
  unfold should_notify_lawyers, _get_missing_criteria, has_fields.
  cbv zeta. cbn [forallb].
  destruct (lawyers_notified sd); [discriminate |].
  destruct p; cbn [should_notify not_qualified]; try discriminate.
  - match goal with
    | |- context [if ?c then _ else _] => destruct c eqn:E
    end; cbn [should_notify not_qualified]; [| discriminate].
    intros _. split; [| reflexivity].
    repeat (apply andb_true_iff in E; destruct E as [E ?]).
    repeat match goal with
           | H : (_ && _)%bool = true |- _ =>
               apply andb_true_iff in H; destruct H
           end.
    repeat match goal with
           | H : truthy ?x = true |- _ => rewrite H; clear H
           | H : flow_completed sd = true |- _ => rewrite H; clear H
           end.
    reflexivity.
  - match goal with
    | |- context [if ?c then _ else _] => destruct c eqn:E
    end; cbn [should_notify not_qualified]; [| discriminate].
    intros _. split; [| reflexivity].
    repeat (apply andb_true_iff in E; destruct E as [E ?]).
    repeat match goal with
           | H : (_ && _)%bool = true |- _ =>
               apply andb_true_iff in H; destruct H
           end.
    repeat match goal with
           | H : truthy ?x = true |- _ => rewrite H; clear H
           end.
    match goal with
    | H : (3 <=? message_count sd) = true |- _ =>
        apply Z.leb_le in H;
        destruct (Z.ltb_spec (message_count sd) 3); [lia | reflexivity]
    end.
Qed.

Lemma approval_has_nothing_missing_witness :
  _get_missing_criteria session_web_done web = [].
Proof.
  apply (approval_has_nothing_missing session_web_done web).
  vm_compute. reflexivity.
Defined.

(** ** Notified sessions and the dispatcher log *)

Lemma dispatched_for_grows (k : str) (s : Session) (w w' : World)
  (ext : list DispatchCall) :
  dispatched w' = dispatched w ++ ext ->
  dispatched_for k s w -> dispatched_for k s w'.
Proof.
  intros E (c & Hin & Hc). exists c. split; [| exact Hc].
  rewrite E. apply in_or_app. left. exact Hin.
Qed.

Lemma record_backed_grows (k : str) (s : Session) (w w' : World)
  (ext : list DispatchCall) :
  dispatched w' = dispatched w ++ ext ->
  record_backed k s w -> record_backed k s w'.
Proof.
  intros E [Hid Hn]. split; [exact Hid |]. intros Hs.
  destruct (Hn Hs) as [Hc Hd]. split; [exact Hc |].
  exact (dispatched_for_grows k s w w' ext E Hd).
Qed.

(** A record that changes in nothing the invariant reads. *)
Lemma record_backed_touch (k : str) (s s' : Session) (w : World) :
  session_id s' = session_id s -> lawyers_notified s' = lawyers_notified s ->
  flow_completed s' = flow_completed s -> platform s' = platform s ->
  lead_data s' = lead_data s ->
  record_backed k s w -> record_backed k s' w.
Proof.
  intros E1 E2 E3 E4 E5 [Hid Hn]. split; [congruence |].
  rewrite E2, E3. intros Hs. destruct (Hn Hs) as [Hc (c & Hin & Hd)].
  split; [exact Hc |]. exists c. rewrite E4, E5. auto.
Qed.

Lemma record_backed_unnotified (k : str) (s : Session) (w : World) :
  session_id s = k -> lawyers_notified s = false -> record_backed k s w.
Proof. intros Hid Hn. split; [exact Hid |]. rewrite Hn. discriminate. Qed.

Lemma notified_backed_frame (w w' : World) (ext : list DispatchCall) :
  store w' = store w -> dispatched w' = dispatched w ++ ext ->
  notified_backed w -> notified_backed w'.
Proof.
  intros Es Ed H k s Hk. rewrite Es in Hk.
  exact (record_backed_grows k s w w' ext Ed (H k s Hk)).
Qed.

Lemma notified_backed_save (w w' : World) (k : str) (sd : Session) :
  notified_backed w -> record_backed k sd w ->
  store w' = store w \/ store w' = <[k := sd]> (store w) ->
  dispatched w' = dispatched w ->
  notified_backed w'.
Proof.
  intros H Hsd [Es | Es] Ed.
  - apply (notified_backed_frame w w' []); [exact Es | | exact H].
    rewrite app_nil_r. exact Ed.
  - assert (Ed' : dispatched w' = dispatched w ++ [])
      by (rewrite app_nil_r; exact Ed).
    intros j s Hj. rewrite Es in Hj.
    destruct (decide (k = j)) as [<- | Hne].
    + rewrite lookup_insert_eq in Hj. injection Hj as <-.
      exact (record_backed_grows k sd w w' [] Ed' Hsd).
    + rewrite lookup_insert_ne in Hj by exact Hne.
      exact (record_backed_grows j s w w' [] Ed' (H j s Hj)).
Qed.

Lemma unnotified_backed k st : unnotified k st -> backed k st.
Proof.
  intros (H & Hid & Hn). split; [exact H |].
  exact (record_backed_unnotified k _ _ Hid Hn).
Qed.

Lemma completed_unnotified k st : unnotified_completed k st -> unnotified k st.
Proof. intros [H _]. exact H. Qed.

Lemma finalizing_completed k p ld st :
  finalizing k p ld st -> unnotified_completed k st.
Proof. intros [H _]. exact H. Qed.

Lemma called_finalizing k p ld c st : called k p ld c st -> finalizing k p ld st.
Proof. intros [H _]. exact H. Qed.

Lemma completed_backed k st : unnotified_completed k st -> backed k st.
Proof. intros H. apply unnotified_backed, completed_unnotified, H. Qed.

Lemma finalizing_backed k p ld st : finalizing k p ld st -> backed k st.
Proof. intros H. apply completed_backed, (finalizing_completed k p ld), H. Qed.

Lemma called_backed k p ld c st : called k p ld c st -> backed k st.
Proof. intros H. apply (finalizing_backed k p ld), (called_finalizing _ _ _ c), H. Qed.

(** A change of the world that keeps the store and extends the log. *)
Lemma backed_world (k : str) (sd : Session) (w w' : World)
  (ext : list DispatchCall) :
  store w' = store w -> dispatched w' = dispatched w ++ ext ->
  backed k (mkFlowSt sd w) -> backed k (mkFlowSt sd w').
Proof.
  intros Es Ed [H Hr]. cbn [mem world] in *. split; cbn [mem world].
  - exact (notified_backed_frame w w' ext Es Ed H).
  - exact (record_backed_grows k sd w w' ext Ed Hr).
Qed.

Lemma unnotified_world (k : str) (sd : Session) (w w' : World)
  (ext : list DispatchCall) :
  store w' = store w -> dispatched w' = dispatched w ++ ext ->
  unnotified k (mkFlowSt sd w) -> unnotified k (mkFlowSt sd w').
Proof.
  intros Es Ed (H & Hid & Hn). cbn [mem world] in *.
  split; [exact (notified_backed_frame w w' ext Es Ed H) |].
  cbn [mem world]. auto.
Qed.

Lemma finalizing_world (k : str) p ld (sd : Session) (w w' : World)
  (ext : list DispatchCall) :
  store w' = store w -> dispatched w' = dispatched w ++ ext ->
  finalizing k p ld (mkFlowSt sd w) -> finalizing k p ld (mkFlowSt sd w').
Proof.
  intros Es Ed ([Hu Hc] & Hp & Hl). cbn [mem world] in *.
  split; [split |]; cbn [mem world]; auto.
  exact (unnotified_world k sd w w' ext Es Ed Hu).
Qed.

(** ** Saving the session in memory *)

Lemma save_mem_world (k : str) (st : FlowSt) :
  let st' := (save_mem k st).2 in
  mem st' = mem st /\
  (store (world st') = store (world st) \/
   store (world st') = <[k := mem st]> (store (world st))) /\
  dispatched (world st') = dispatched (world st).
Proof.
  destruct st as [sd w]. unfold save_mem, bind, get_mem, lift.
  cbn [mem world].
  destruct (save_user_session_frame k sd w) as (Es & Ed & _).
  destruct (save_user_session k sd w) as [r w']. cbn [snd mem world] in *.
  auto.
Qed.

Lemma backed_save_mem k : carries (backed k) (backed k) (save_mem k).
Proof.
  intros st [H Hr].
  destruct (save_mem_world k st) as (Em & Es & Ed).
  destruct (save_mem k st) as [r [sd' w']]. cbn [snd mem world] in *.
  subst sd'. split; cbn [mem world].
  - exact (notified_backed_save _ w' k _ H Hr Es Ed).
  - apply (record_backed_grows k _ (world st) w' []); [| exact Hr].
    rewrite app_nil_r. exact Ed.
Qed.

Lemma unnotified_save_mem k :
  carries (unnotified k) (unnotified k) (save_mem k).
Proof.
  intros st Hu. pose proof (backed_save_mem k st (unnotified_backed k st Hu))
    as [Hb _].
  destruct Hu as (_ & Hid & Hn).
  destruct (save_mem_world k st) as (Em & _ & _).
  split; [exact Hb |]. rewrite Em. auto.
Qed.

Lemma completed_save_mem k :
  carries (unnotified_completed k) (unnotified_completed k) (save_mem k).
Proof.
  intros st [Hu Hc]. split; [exact (unnotified_save_mem k st Hu) |].
  destruct (save_mem_world k st) as (Em & _ & _). rewrite Em. exact Hc.
Qed.

Lemma finalizing_save_mem k p ld :
  carries (finalizing k p ld) (finalizing k p ld) (save_mem k).
Proof.
  intros st (Hc & Hp & Hl). split; [exact (completed_save_mem k st Hc) |].
  destruct (save_mem_world k st) as (Em & _ & _). rewrite Em. auto.
Qed.

(** ** Collaborators other than the store *)

Lemma backed_lift_send k a t :
  carries (backed k) (backed k) (lift (send_text_message a t)).
Proof.
  intros [sd w] H. unfold lift. cbn [mem world].
  destruct (send_text_message_frame a t w) as (Es & Ed & _).
  destruct (send_text_message a t w) as [r w']. cbn [snd] in *.
  apply (backed_world k sd w w' []); [exact Es | | exact H].
  rewrite app_nil_r. exact Ed.
Qed.

Lemma backed_lift_save_lead k l :
  carries (backed k) (backed k) (lift (save_lead_data l)).
Proof.
  intros [sd w] H. unfold lift. cbn [mem world].
  destruct (save_lead_data_frame l w) as (Es & Ed & _).
  destruct (save_lead_data l w) as [r w']. cbn [snd] in *.
  apply (backed_world k sd w w' []); [exact Es | | exact H].
  rewrite app_nil_r. exact Ed.
Qed.

Lemma finalizing_lift_notify k p ld c :
  carries (finalizing k p ld) (called k p ld c)
    (lift (notify_lawyers_of_new_lead c)).
Proof.
  intros [sd w] H. unfold lift. cbn [mem world].
  destruct (notify_frame c w) as (Es & Ed & _).
  destruct (notify_lawyers_of_new_lead c w) as [r w']. cbn [snd] in *.
  split.
  - exact (finalizing_world k p ld sd w w' [c] Es Ed H).
  - cbn [world]. rewrite Ed. apply in_or_app. right. left. reflexivity.
Qed.

(** ** Mutations of the session in memory *)

(** A mutation that changes nothing the invariant reads. *)
Lemma backed_upd k (f : Session -> Session) :
  (forall s, session_id (f s) = session_id s /\
             lawyers_notified (f s) = lawyers_notified s /\
             flow_completed (f s) = flow_completed s /\
             platform (f s) = platform s /\ lead_data (f s) = lead_data s) ->
  carries (backed k) (backed k) (upd f).
Proof.
  intros Hf. apply carries_upd. intros [sd w] [H Hr].
  destruct (Hf sd) as (F1 & F2 & F3 & F4 & F5). cbn [mem world] in *.
  split; [exact H |]. cbn [mem world].
  exact (record_backed_touch k sd (f sd) w F1 F2 F3 F4 F5 Hr).
Qed.

(** A mutation that keeps the identifier and the notified flag. *)
Lemma unnotified_upd k (f : Session -> Session) :
  (forall s, session_id (f s) = session_id s /\
             lawyers_notified (f s) = lawyers_notified s) ->
  carries (unnotified k) (unnotified k) (upd f).
Proof.
  intros Hf. apply carries_upd. intros [sd w] (H & Hid & Hn).
  destruct (Hf sd) as (F1 & F2). cbn [mem world] in *.
  split; [exact H |]. cbn [mem world]. split; congruence.
Qed.

(** The mutation that records the completion of the flow. *)
Lemma unnotified_upd_completes k (f : Session -> Session) :
  (forall s, session_id (f s) = session_id s /\
             lawyers_notified (f s) = lawyers_notified s /\
             flow_completed (f s) = true) ->
  carries (unnotified k) (unnotified_completed k) (upd f).
Proof.
  intros Hf. apply carries_upd. intros [sd w] (H & Hid & Hn).
  destruct (Hf sd) as (F1 & F2 & F3). cbn [mem world] in *.
  split; [| exact F3]. split; [exact H |]. cbn [mem world]. split; congruence.
Qed.

Lemma finalizing_upd k p ld ld' (f : Session -> Session) :
  (forall s, session_id (f s) = session_id s /\
             lawyers_notified (f s) = lawyers_notified s /\
             flow_completed (f s) = flow_completed s /\
             platform (f s) = platform s) ->
  (forall s, lead_data s = ld -> lead_data (f s) = ld') ->
  carries (finalizing k p ld) (finalizing k p ld') (upd f).
Proof.
  intros Hf Hl. apply carries_upd.
  intros [sd w] (((H & Hid & Hn) & Hc) & Hp & Hld).
  destruct (Hf sd) as (F1 & F2 & F3 & F4). cbn [mem world] in *.
  split; [split; [split |] |]; cbn [mem world].
  - exact H.
  - split; congruence.
  - congruence.
  - split; [congruence | exact (Hl sd Hld)].
Qed.

(** ** Finalization marks a session notified only after the dispatcher *)

Ltac upd_same :=
  let s := fresh "s" in
  intros s; destruct s; cbn;
  repeat match goal with
         | |- context [match ?x with _ => _ end] => destruct x; cbn
         end;
  repeat split; reflexivity.

Ltac back_imp :=
  solve [auto using unnotified_backed, completed_unnotified, completed_backed].

Ltac back_step :=
  match goal with
  | |- carries (backed ?k) ?Q (bind _ _) =>
      apply (carries_bind (backed k) (backed k) Q); [ | auto | intros ? ]
  | |- carries ?P ?Q (try_catch _ _) =>
      apply (carries_try P Q Q); [ | auto | intros ? ]
  | |- carries _ _ (ret _) => apply carries_ret; back_imp
  | |- carries _ _ (raise _) => apply carries_raise; back_imp
  | |- carries _ _ get_mem => apply carries_get_mem; back_imp
  | |- carries (backed _) _ (save_mem _) => apply backed_save_mem
  | |- carries (backed _) _ (lift (save_lead_data _)) =>
      apply backed_lift_save_lead
  | |- carries (backed _) _ (lift (send_text_message _ _)) =>
      apply backed_lift_send
  | |- carries (backed _) _ (upd _) => apply backed_upd; upd_same
  | |- carries _ _ (first_name_of _ _) => unfold first_name_of
  | |- carries _ _ (question_of _ _) => unfold question_of
  | |- carries _ _ (_get_strategic_whatsapp_message _ _ _) =>
      unfold _get_strategic_whatsapp_message
  | |- carries _ _ (let _ := _ in _) => cbv zeta
  | |- carries _ _ (if ?b then _ else _) => destruct b
  | |- carries _ _ (match ?x with _ => _ end) => destruct x
  end.

(** The mutation that marks the session notified, once the dispatcher has
    been invoked with the lead the session holds. *)
Lemma called_upd_notified (k : str) (sd0 : Session) (ph : str) (t : time) :
  let c := {| lead_name :=
                ld_get_or (lead_data sd0) "identification" (py "Cliente");
              lead_phone := ph;
              category :=
                ld_get_or (lead_data sd0) "area_qualification"
                  (py "não especificada");
              info_case_details :=
                ld_get_or (lead_data sd0) "case_details"
                  (py "aguardando mais detalhes");
              info_platform := platform sd0;
              info_session_id := k;
              info_lead_source := completed_flow |} in
  carries
    (called k (platform sd0) (<["phone"%string := ph]> (lead_data sd0)) c)
    (backed k)
    (upd (fun s => set_lawyers_notified_at (Some t)
                     (set_lawyers_notified true s))).
Proof.
  intros c. apply carries_upd.
  intros [sd w] ((((H & Hid & Hn) & Hc) & Hp & Hl) & Hin).
  cbn [mem world] in *.
  split; [exact H |]. cbn [mem world].
  set (sd' := set_lawyers_notified_at (Some t) (set_lawyers_notified true sd)).
  assert (E : session_id sd' = session_id sd /\
              flow_completed sd' = flow_completed sd /\
              platform sd' = platform sd /\ lead_data sd' = lead_data sd)
    by (subst sd'; destruct sd; repeat split; reflexivity).
  destruct E as (E1 & E2 & E3 & E4).
  split; [congruence |]. intros _. split; [congruence |].
  exists c. split; [exact Hin |].
  rewrite E3, E4, Hp, Hl. subst c.
  cbn [info_session_id info_platform info_lead_source lead_name lead_phone
       category info_case_details].
  rewrite !ld_get_or_insert_ne by discriminate.
  unfold ld_get. rewrite lookup_insert_eq.
  repeat split; reflexivity.
Qed.

Lemma finalization_backed sid clk :
  carries (unnotified_completed sid) (backed sid)
    (_handle_lead_finalization sid clk).
Proof.
  unfold _handle_lead_finalization.
  apply (carries_try _ (backed sid) (backed sid));
    [| auto | intros e; repeat back_step].
  apply carries_bind_get_mem_at. intros st0 H0. cbv zeta.
  set (sd := mem st0).
  apply (carries_pre _ (finalizing sid (platform sd) (lead_data sd)));
    [intros st ->; split; [exact H0 | split; reflexivity] |].
  assert (Hfb : forall ld st, finalizing sid (platform sd) ld st ->
                              backed sid st)
    by (intros ld st; apply finalizing_backed).
  apply (carries_bind _ (finalizing sid (platform sd) (lead_data sd)) _);
    [| apply Hfb | intros first_name].
  { unfold first_name_of.
    destruct (truthy _); [destruct (split _) |];
      first [apply carries_ret | apply carries_raise]; auto. }
  destruct (resolve_phone sd) as [ph |]; [| apply carries_ret; apply Hfb].
  destruct (negb (truthy ph) || (len ph <? 10));
    [apply carries_ret; apply Hfb |].
  apply (carries_bind _ (finalizing sid (platform sd) (lead_data sd)) _);
    [| apply Hfb | intros _].
  { apply finalizing_upd; [upd_same | intros s Hs; exact Hs]. }
  apply (carries_bind _
           (finalizing sid (platform sd)
              (<["phone"%string := ph]> (lead_data sd))) _);
    [| apply Hfb | intros _].
  { apply finalizing_upd; [upd_same | intros s ->; reflexivity]. }
  apply (carries_bind _
           (finalizing sid (platform sd)
              (<["phone"%string := ph]> (lead_data sd))) _);
    [apply finalizing_save_mem | apply Hfb | intros _].
  apply (carries_bind _ (backed sid) _); [| auto | intros ns].
  { apply (carries_try _ (backed sid) _);
      [| auto | intros; apply carries_ret; auto].
    apply (carries_bind _
             (finalizing sid (platform sd)
                (<["phone"%string := ph]> (lead_data sd))) _);
      [apply carries_get_mem; auto | apply Hfb | intros s].
    destruct (negb (lawyers_notified s)); [| apply carries_ret; apply Hfb].
    match goal with
    | |- carries _ _ (bind (lift (notify_lawyers_of_new_lead ?c)) _) =>
        apply (carries_bind _
                 (called sid (platform sd)
                    (<["phone"%string := ph]> (lead_data sd)) c) _);
        [ apply finalizing_lift_notify
        | intros st; apply called_backed
        | intros ok ]
    end.
    destruct ok; [| apply carries_ret; intros st; apply called_backed].
    apply (carries_bind _ (backed sid) _); [| auto | intros _].
    { apply (called_upd_notified sid sd ph (now clk)). }
    repeat back_step. }
  repeat back_step.
Qed.

(** ** The conversation flow *)

Ltac flow_back_step :=
  match goal with
  | |- carries (unnotified_completed ?k) ?Q (bind _ _) =>
      apply (carries_bind _ (unnotified_completed k) Q);
      [ solve [repeat flow_back_step] | back_imp | intros ? ]
  | |- carries (unnotified ?k) ?Q (bind _ _) =>
      first
        [ apply (carries_bind _ (unnotified_completed k) Q);
          [ solve [repeat flow_back_step] | back_imp | intros ? ]
        | apply (carries_bind _ (unnotified k) Q);
          [ solve [repeat flow_back_step] | back_imp | intros ? ] ]
  | |- carries (unnotified_completed _) _ (save_mem _) =>
      eapply carries_post; [apply completed_save_mem | back_imp]
  | |- carries (unnotified _) _ (save_mem _) =>
      eapply carries_post; [apply unnotified_save_mem | back_imp]
  | |- carries (unnotified _) (unnotified_completed _) (upd _) =>
      apply unnotified_upd_completes; upd_same
  | |- carries (unnotified _) _ (upd _) =>
      eapply carries_post; [apply unnotified_upd; upd_same | back_imp]
  | |- carries (unnotified_completed _) _ (_handle_lead_finalization _ _) =>
      eapply carries_post; [apply finalization_backed | back_imp]
  | _ => back_step
  end.

Lemma flow_backed message clk sid :
  carries (unnotified sid) (backed sid)
    (_process_conversation_flow message clk).
Proof.
  unfold _process_conversation_flow.
  apply (carries_try _ (backed sid) (backed sid));
    [| auto | intros e; apply carries_ret; auto].
  apply carries_bind_get_mem_at. intros st0 (H0 & Hid & Hn0).
  apply (carries_pre _ (unnotified sid));
    [intros st ->; exact (conj H0 (conj Hid Hn0)) |].
  rewrite Hid. cbv zeta.
  repeat flow_back_step.
Qed.

Lemma authorization_check_backed sid p :
  carries (unnotified sid) (unnotified sid)
    (whatsapp_authorization_check sid p).
Proof. unfold whatsapp_authorization_check. repeat flow_back_step. Qed.

Lemma process_session_backed message sid phone p clk :
  carries (unnotified sid) (backed sid)
    (process_session message sid phone p clk).
Proof.
  unfold process_session.
  apply (carries_bind _ (unnotified sid) _);
    [apply authorization_check_backed | apply unnotified_backed
    | intros blocked].
  destruct blocked; [apply carries_ret; apply unnotified_backed |].
  apply (carries_bind _ (unnotified sid) _);
    [| apply unnotified_backed | intros _].
  { apply unnotified_upd. intros s. unfold seed_whatsapp_phone.
    destruct s, p, phone as [ph |]; try destruct (truthy ph); cbn; auto. }
  apply (carries_bind _ (backed sid) _);
    [apply flow_backed | auto | intros resp].
  repeat back_step.
Qed.

(** ** The entry points *)

Lemma get_user_session_backed sid w :
  notified_backed w ->
  notified_backed (get_user_session sid w).2 /\
  dispatched (get_user_session sid w).2 = dispatched w /\
  forall sd, (get_user_session sid w).1 = Val (Some sd) ->
             store w !! sid = Some sd.
Proof.
  intros H. destruct (get_user_session_frame sid w) as (Es & Ed & _).
  split; [| split].
  - apply (notified_backed_frame w _ []); [exact Es | | exact H].
    rewrite app_nil_r. exact Ed.
  - exact Ed.
  - intros sd E.
    destruct (get_user_session sid w) as [r w'] eqn:Eg. cbn [fst] in E.
    subst r. destruct (get_user_session_value sid w _ _ Eg) as [Hv | Hv];
      [symmetry; exact Hv | discriminate].
Qed.

Lemma save_record_backed sid sd w :
  notified_backed w -> record_backed sid sd w ->
  notified_backed (save_user_session sid sd w).2.
Proof.
  intros H Hr.
  destruct (save_user_session_frame sid sd w) as (Es & Ed & _).
  exact (notified_backed_save w _ sid sd H Hr Es Ed).
Qed.

Lemma get_or_create_backed sid p phone clk w :
  notified_backed w ->
  match _get_or_create_session sid p phone clk w with
  | (Val sd, w') => unnotified sid (mkFlowSt sd w')
  | (Exn _, w') => notified_backed w'
  end.
Proof.
  intros Hw. unfold _get_or_create_session, bind.
  destruct (get_user_session_backed sid w Hw) as (Hw1 & Hd1 & Hv).
  destruct (get_user_session sid w) as [[[old |] | e] w1]; cbn [fst snd] in *.
  - specialize (Hv old eq_refl). destruct (Hw sid old Hv) as [Hid Hn].
    destruct (session_ended old || flow_completed old) eqn:Ht.
    + pose proof (save_record_backed sid (reset_session old sid p phone clk)
                    w1 Hw1
                    (record_backed_unnotified sid
                       (reset_session old sid p phone clk) w1
                       eq_refl eq_refl))
        as Hsave.
      destruct (save_user_session sid _ w1) as [[[] | e] w2]; cbn [snd] in *.
      * split; [exact Hsave |]. split; reflexivity.
      * exact Hsave.
    + split; [exact Hw1 |]. cbn [mem world].
      assert (Hwp : session_id (with_phone phone old) = session_id old /\
                    lawyers_notified (with_phone phone old)
                    = lawyers_notified old)
        by (unfold with_phone; destruct (opt_truthy phone); split; reflexivity).
      destruct Hwp as [-> ->]. split; [exact Hid |].
      apply orb_false_iff in Ht as [_ Hc].
      destruct (lawyers_notified old); [| reflexivity].
      destruct (Hn eq_refl) as [Hc' _]. congruence.
  - pose proof (save_record_backed sid (new_session sid p clk) w1 Hw1
                  (record_backed_unnotified sid (new_session sid p clk) w1
                     eq_refl eq_refl)) as Hsave.
    destruct (save_user_session sid _ w1) as [[[] | e] w2]; cbn [snd] in *.
    + split; [exact Hsave |]. cbn [mem world].
      unfold with_phone. destruct (opt_truthy phone); split; reflexivity.
    + exact Hsave.
  - exact Hw1.
Qed.

Lemma process_message_backed message sid phone p clk :
  carries notified_backed notified_backed
    (process_message message sid phone p clk).
Proof.
  intros w Hw. unfold process_message, try_catch.
  destruct (negb (truthy sid) || bool_decide (strip sid = [])); [exact Hw |].
  unfold bind.
  pose proof (get_or_create_backed sid p phone clk w Hw) as Hgoc.
  destruct (_get_or_create_session sid p phone clk w) as [[sd | e] w1];
    [| exact Hgoc].
  unfold with_session.
  pose proof (process_session_backed message sid phone p clk _ Hgoc) as Hps.
  destruct (process_session message sid phone p clk (mkFlowSt sd w1))
    as [[r | e] st2]; cbn [fst snd] in *; exact (proj1 Hps).
Qed.

Lemma authorization_backed a clk :
  carries notified_backed notified_backed (handle_whatsapp_authorization a clk).
Proof.
  unfold handle_whatsapp_authorization. cbv zeta.
  set (sid := default [] (auth_session_id a)).
  set (phone := default [] (auth_phone_number a)).
  set (source := default (py "unknown") (auth_source a)).
  set (ud := default ∅ (user_data a)).
  apply (carries_try notified_backed notified_backed notified_backed);
    [| auto | intros e; apply carries_ret; auto].
  apply (carries_bind notified_backed notified_backed notified_backed);
    [| auto | intros _; apply carries_ret; auto].
  destruct (_ && _).
  - apply (carries_bind notified_backed notified_backed notified_backed);
      [| auto |].
    + intros w Hw. apply save_record_backed; [exact Hw |].
      apply record_backed_unnotified; reflexivity.
    + intros _.
      apply (carries_bind notified_backed notified_backed notified_backed);
        [| auto | intros _; apply carries_ret; auto].
      intros w Hw. unfold with_session.
      rewrite (notify_declined sid whatsapp clk) by reflexivity.
      exact Hw.
  - intros w Hw. unfold bind.
    destruct (get_user_session_backed sid w Hw) as (Hw1 & Hd1 & Hv).
    destruct (get_user_session sid w) as [[[sd |] | e] w1];
      cbn [fst snd] in *; [| | exact Hw1].
    + specialize (Hv sd eq_refl).
      apply save_record_backed; [exact Hw1 |].
      apply (record_backed_touch sid sd); try (destruct sd; reflexivity).
      apply (record_backed_grows sid sd w w1 []);
        [rewrite app_nil_r; exact Hd1 | exact (Hw sid sd Hv)].
    + apply save_record_backed; [exact Hw1 |].
      apply record_backed_unnotified; reflexivity.
Qed.

Lemma end_session_backed sid clk :
  carries notified_backed notified_backed (end_session sid clk).
Proof.
  intros w Hw. unfold end_session, try_catch, bind.
  destruct (get_user_session_backed sid w Hw) as (Hw1 & Hd1 & Hv).
  destruct (get_user_session sid w) as [[[sd |] | e] w1]; cbn [fst snd] in *;
    try exact Hw1.
  specialize (Hv sd eq_refl). cbv zeta.
  set (sd' := set_current_step ended
                (set_ended_at (Some (now clk)) (set_session_ended true sd))).
  assert (Hfinal : notified_backed (save_user_session sid sd' w1).2).
  { apply save_record_backed; [exact Hw1 |].
    apply (record_backed_touch sid sd); try (destruct sd; reflexivity).
    apply (record_backed_grows sid sd w w1 []);
      [rewrite app_nil_r; exact Hd1 | exact (Hw sid sd Hv)]. }
  destruct (save_user_session sid _ w1) as [[[] | e] w2]; cbn [fst snd] in *;
    exact Hfinal.
Qed.

(** X20. No lead is marked as handed over without the dispatcher having
    been invoked for that very lead. In every world reachable through
    [process_message], [handle_whatsapp_authorization] and [end_session],
    whatever the collaborators do, each stored record is filed under its
    own identifier, and each record with [lawyers_notified] true has
    completed the flow and has in the dispatcher log an invocation that
    finalization made for its session, on its channel, with the name, the
    phone number, the area and the case details the record holds. A
    record that replaces a completed one starts with empty lead data and
    is not marked notified, so the invocation made for an earlier lead of
    the same identifier does not stand for it. *)
Theorem notified_means_dispatched (w : World) :
  reachable w ->
  forall sid s, store w !! sid = Some s ->
    session_id s = sid /\
    (lawyers_notified s = true ->
     flow_completed s = true /\
     exists c,
       In c (dispatched w) /\
       info_session_id c = sid /\ info_platform c = platform s /\
       info_lead_source c = completed_flow /\
       lead_name c = ld_get_or (lead_data s) "identification" (py "Cliente") /\
       lead_phone c = ld_get (lead_data s) "phone" /\
       category c
       = ld_get_or (lead_data s) "area_qualification"
           (py "não especificada") /\
       info_case_details c
       = ld_get_or (lead_data s) "case_details"
           (py "aguardando mais detalhes")).
Proof.
  intros H. change (notified_backed w).
  induction H.
  - intros k s E. vm_compute in E. discriminate.
  - intros k s E. exact (IHreachable k s E).
  - apply process_message_backed, IHreachable.
  - apply authorization_backed, IHreachable.
  - apply end_session_backed, IHreachable.
Qed.

Lemma notified_means_dispatched_witness :
  exists s,
    store world_web_done !! py "web-1" = Some s /\
    lawyers_notified s = true /\
    exists c,
      In c (dispatched world_web_done) /\
      info_session_id c = py "web-1" /\
      lead_name c = py "Maria Souza" /\ lead_phone c = py "11987654321".
Proof.
  eexists. split; [vm_compute; reflexivity |].
  split; [reflexivity |].
  destruct (proj2 (notified_means_dispatched world_web_done
                     world_web_done_reachable (py "web-1") _
                     ltac:(vm_compute; reflexivity)) eq_refl)
    as (_ & c & Hin & Hid & _ & _ & Hname & Hphone & _).
  exists c. split; [exact Hin |]. split; [exact Hid |].
  split; [rewrite Hname | rewrite Hphone]; vm_compute; reflexivity.
Defined.
